(** * Church website backend (app_enhanced.py): a shallow embedding

    The Flask handlers of [src/1.py] are embedded as functions in a small
    state-and-exception monad.  What a handler cannot decide on its own
    (the process environment, the clock, the answers of the payment and
    SMS providers, whether a file can be written) is an input of the
    model; the SQLite schema of [init_db] is embedded through the checks
    its constraints perform on INSERT.

    The connection a handler leaves open when it raises is part of the
    state: it keeps SQLite's write lock until Python's garbage collector
    finalises it, and the INSERT of a later request fails meanwhile.

    Not modelled: the text written by [logger] calls, the [created_at]
    columns (filled by the storage engine's own clock), and
    interleavings of concurrent requests. *)

From Stdlib Require Import ZArith Ascii String List Bool Lia.
From Stdlib Require Import Floats.SpecFloat.
From stdpp Require Import base gmap strings list.

Set Warnings "-register-all".

Local Open Scope string_scope.
Local Open Scope Z_scope.

(** ** Values decoded from JSON ([request.json], [response.json()]) *)

(** A Python [float] is an IEEE 754 binary64 value: [json.loads] also
    decodes the literals NaN, Infinity and -Infinity. *)
Inductive json :=
| JNull
| JBool (b : bool)
| JInt (z : Z)
| JFloat (x : spec_float)
| JStr (s : string)
| JArr (items : list json)
| JObj (fields : gmap string json).

Abbreviation pydict := (gmap string json).

(** ** Values SQLite stores *)

Inductive sql_value :=
| SNull
| SInt (z : Z)
| SReal (x : spec_float)
| SText (s : string).

#[global] Instance spec_float_eq_dec : EqDecision spec_float.
Proof. solve_decision. Defined.

#[global] Instance sql_value_eq_dec : EqDecision sql_value.
Proof. solve_decision. Defined.

(** ** Exceptions *)

Inductive exc :=
| AttributeError (obj : json) (attr : string)
| KeyError (key : string)
| TypeError (obj : json)
| ValueError (text : string)
| OverflowError (v : json)
| InterfaceError (param : json)
| IntegrityError (constraint : string)
| OperationalError (msg : string)
| HTTPException (code : Z)
| OutsideError (msg : string).
(** [OutsideError] stands for whatever the file system, the network or
    the decoding of a provider's answer raises; [HTTPException] for the
    error Flask raises when it cannot decode the request. *)

(** ** Library functions the repository calls but does not define *)

Class Runtime := {
  (** [str(e)] *)
  str_exc : exc → string;
  (** [str(v)] as an f-string renders a decoded JSON value *)
  py_str : json → string;
  (** whether [int(float(s) * 100)] evaluates for the text [s] *)
  float_parses : string → bool;
  (** [werkzeug.utils.secure_filename] *)
  secure_filename : string → string;
  (** [werkzeug.security.generate_password_hash] (one salt per call site) *)
  generate_password_hash : string → string;
  (** [werkzeug.security.check_password_hash] on a text candidate *)
  check_password_hash : string → string → bool;
  (** the text SQLite's TEXT affinity makes of a number *)
  sqlite_text : sql_value → string;
  (** the number SQLite's REAL affinity makes of a text, when the text
      is a well-formed numeric literal *)
  sqlite_real : string → option spec_float;
  (** SQLite's [SUM] over the stored values of a column *)
  sqlite_sum : list sql_value → json
}.

(** ** Python text *)

Module Py.

(** Python strings are modelled as [string]: sequences of code points
    below 256 (Latin-1).  On such text [str.lower] works code point by
    code point, as [lower] does below; beyond Latin-1 it depends on the
    context (a capital sigma at the end of a word), so what is proved
    about [lower] is proved for Latin-1 text. *)

Definition code (c : ascii) : N := N_of_ascii c.

(** [str.lower] on one code point: A-Z, and the Latin-1 capitals
    U+00C0..U+00DE except the multiplication sign U+00D7, move up by 32. *)
Definition lower_char (c : ascii) : ascii :=
  let n := code c in
  if ((65 <=? n) && (n <=? 90))%N then ascii_of_N (n + 32)
  else if ((192 <=? n) && (n <=? 222) && negb (n =? 215))%N
       then ascii_of_N (n + 32)
  else c.

Fixpoint lower (s : string) : string :=
  match s with
  | EmptyString => EmptyString
  | String c r => String (lower_char c) (lower r)
  end.

(** [c in s] for a one-character needle. *)
Fixpoint contains (c : ascii) (s : string) : bool :=
  match s with
  | EmptyString => false
  | String d r => Ascii.eqb d c || contains c r
  end.

(** [s.rsplit(sep, 1)] for a one-character separator: the list
    [[before; after]] around the last separator, or [[s]] when there is
    none.  The scan keeps the text read since the last separator. *)
Fixpoint rsplit1_scan (sep : ascii) (s : string) : option (string * string) * string :=
  match s with
  | EmptyString => (None, EmptyString)
  | String c r =>
      match rsplit1_scan sep r with
      | (Some (before, after), _) => (Some (String c before, after), EmptyString)
      | (None, rest) =>
          if Ascii.eqb c sep then (Some (EmptyString, rest), EmptyString)
          else (None, String c rest)
      end
  end.

Definition rsplit1 (sep : ascii) (s : string) : list string :=
  match rsplit1_scan sep s with
  | (Some (before, after), _) => [before; after]
  | (None, rest) => [rest]
  end.

(** Truth value of a decoded JSON value ([bool(v)]). *)
Definition truthy (v : json) : bool :=
  match v with
  | JNull => false
  | JBool b => b
  | JInt z => negb (z =? 0)%Z
  | JFloat (S754_zero _) => false
  | JFloat _ => true
  | JStr s => negb (String.eqb s EmptyString)
  | JArr items => negb (Nat.eqb (length items) 0)
  | JObj fields => negb (Nat.eqb (size fields) 0)
  end.

(** [float(z)] for an integer, rounded to the nearest binary64 value;
    Python raises OverflowError where the result here is infinite. *)
Definition float_of_int (z : Z) : spec_float := binary_normalize 53 1024 z 0 false.

(** [x * y] on floats *)
Definition float_mul (x y : spec_float) : spec_float := SFmul 53 1024 x y.

(** [all(vs)] *)
Definition all (vs : list json) : bool := forallb truthy vs.

(** [d.get(k)] and [d.get(k, dflt)] on a dict *)
Definition get (d : pydict) (k : string) : json := default JNull (d !! k).
Definition get_or (d : pydict) (k : string) (dflt : json) : json := default dflt (d !! k).

(** [v == s] for a text literal [s] *)
Definition eq_str (v : json) (s : string) : bool :=
  match v with
  | JStr t => String.eqb t s
  | _ => false
  end.

(** truth value of what [os.getenv] returned *)
Definition env_truthy (v : option string) : bool :=
  match v with
  | Some s => negb (String.eqb s EmptyString)
  | None => false
  end.

Definition is_digit (c : ascii) : bool := ((48 <=? code c) && (code c <=? 57))%N.

Definition digit (n : N) : ascii := ascii_of_N (48 + n mod 10).

(** decimal numeral of a natural number, most significant digit first;
    the number of binary digits bounds the number of decimal ones *)
Fixpoint decimal_fuel (fuel : nat) (n : N) : string :=
  match fuel with
  | O => EmptyString
  | S f =>
      if (n <? 10)%N then String (digit n) EmptyString
      else decimal_fuel f (n / 10) ++ String (digit n) EmptyString
  end.

Definition decimal (n : N) : string := decimal_fuel (S (N.size_nat n)) n.

(** a strftime field zero-padded to two digits (exact below 100) *)
Definition two_digits (n : N) : string :=
  String (digit (n / 10)) (String (digit n) EmptyString).

(** [os.path.join] on POSIX *)
Definition starts_with_slash (s : string) : bool :=
  match s with
  | String c _ => Ascii.eqb c "/"
  | EmptyString => false
  end.

Fixpoint ends_with_slash (s : string) : bool :=
  match s with
  | EmptyString => false
  | String c EmptyString => Ascii.eqb c "/"
  | String _ r => ends_with_slash r
  end.

Definition path_join2 (path b : string) : string :=
  if starts_with_slash b then b
  else if String.eqb path EmptyString || ends_with_slash path then path ++ b
  else path ++ "/" ++ b.

Definition path_join (a : string) (parts : list string) : string :=
  fold_left path_join2 parts a.

End Py.

(** ** The clock *)

Record datetime := {
  dt_year : N; dt_month : N; dt_day : N;
  dt_hour : N; dt_minute : N; dt_second : N }.

(** The range of the fields of a [datetime] whose year has four digits. *)
Definition valid_datetime (t : datetime) : Prop :=
  (1000 <= dt_year t <= 9999 ∧ 1 <= dt_month t <= 12 ∧ 1 <= dt_day t <= 31 ∧
   dt_hour t < 24 ∧ dt_minute t < 60 ∧ dt_second t < 60)%N.

(** [strftime('%Y%m%d%H%M%S')] and [strftime('%Y%m%d_%H%M%S')] *)
Definition strftime_date (t : datetime) : string :=
  Py.decimal (dt_year t) ++ Py.two_digits (dt_month t) ++ Py.two_digits (dt_day t).

Definition strftime_time (t : datetime) : string :=
  Py.two_digits (dt_hour t) ++ Py.two_digits (dt_minute t) ++ Py.two_digits (dt_second t).

Definition strftime_compact (t : datetime) : string := strftime_date t ++ strftime_time t.
Definition strftime_underscore (t : datetime) : string :=
  strftime_date t ++ "_" ++ strftime_time t.

(** ** File type configuration (lines 41-43) *)

Definition ALLOWED_IMAGES : gset string := {[ "png"; "jpg"; "jpeg"; "gif"; "webp" ]}.
Definition ALLOWED_VIDEOS : gset string := {[ "mp4"; "avi"; "mov"; "wmv"; "webm" ]}.
Definition ALLOWED_DOCS : gset string := {[ "pdf"; "doc"; "docx" ]}.

(** [allowed_file] (lines 150-152).  The index [[1]] is protected by the
    short-circuit [and]; the out-of-range case is [false] here only to
    make the match total, and [allowed_file_index_in_range] shows that
    it is never reached. *)
Definition allowed_file (filename : string) (allowed_extensions : gset string) : bool :=
  Py.contains "." filename &&
  match Py.rsplit1 "." filename !! 1%nat with
  | Some ext => bool_decide (Py.lower ext ∈ allowed_extensions)
  | None => false
  end.

(** The words of the specification for the extension check: the name has
    a final dot, and the lower-cased text after it is in the allow-list. *)
Definition has_allowed_suffix (filename : string) (allowed_extensions : gset string) : Prop :=
  ∃ stem ext,
    filename = stem ++ String "." ext ∧
    Py.contains "." ext = false ∧
    Py.lower ext ∈ allowed_extensions.

(** ** The relational store ([init_db], lines 56-148) *)

Record table (A : Type) := { rows : list A; last_id : Z }.
Arguments rows {A} _.
Arguments last_id {A} _.

(** AUTOINCREMENT: the new row takes the next id. *)
Definition table_add {A : Type} (mk : Z → A) (t : table A) : table A :=
  {| rows := rows t ++ [mk (last_id t + 1)]; last_id := last_id t + 1 |}.

Definition empty_table {A : Type} : table A := {| rows := []; last_id := 0 |}.

Record admin := {
  a_id : Z;
  a_username : string;
  a_password_hash : string;
  a_role : string;
  a_email : option string }.

(** The tables photos, videos and documents have a filename, two more
    text columns (named in [m_columns]) and the uploader. *)
Record media_row := {
  m_id : Z;
  m_filename : string;
  m_columns : list (string * string);
  m_uploaded_by : string }.

Record donation := {
  d_id : Z;
  d_donor_name : sql_value;
  d_donor_email : sql_value;
  d_donor_phone : sql_value;
  d_amount : sql_value;
  d_purpose : sql_value;
  d_provider : sql_value;
  d_reference_number : sql_value;
  d_status : sql_value;
  d_transaction_id : sql_value }.

(** The tables news and contact_messages are left out: no handler
    embedded below reads or writes them. *)
Record database := {
  admins : table admin;
  photos : table media_row;
  videos : table media_row;
  documents : table media_row;
  donations : table donation }.

Definition empty_database : database :=
  {| admins := empty_table; photos := empty_table; videos := empty_table;
     documents := empty_table; donations := empty_table |}.

Inductive media_kind := Photos | Videos | Documents.

Definition media_table (k : media_kind) (conn : database) : table media_row :=
  match k with
  | Photos => photos conn
  | Videos => videos conn
  | Documents => documents conn
  end.

Definition set_media_table (k : media_kind) (t : table media_row) (conn : database) : database :=
  match k with
  | Photos => {| admins := admins conn; photos := t; videos := videos conn;
                 documents := documents conn; donations := donations conn |}
  | Videos => {| admins := admins conn; photos := photos conn; videos := t;
                 documents := documents conn; donations := donations conn |}
  | Documents => {| admins := admins conn; photos := photos conn; videos := videos conn;
                    documents := t; donations := donations conn |}
  end.

Definition set_donations (t : table donation) (conn : database) : database :=
  {| admins := admins conn; photos := photos conn; videos := videos conn;
     documents := documents conn; donations := t |}.

Definition set_admins (t : table admin) (conn : database) : database :=
  {| admins := t; photos := photos conn; videos := videos conn;
     documents := documents conn; donations := donations conn |}.

(** ** The outside world of one request *)

(** What an outbound HTTP call followed by [response.json()] gives. *)
Inductive reply :=
| Replied (body : json)
| Failed (msg : string).

(** [collected] tells whether Python's garbage collector has run since
    the request before: it finalises the connections that earlier
    requests left open, which rolls their transactions back. *)
Record world := {
  environ : gmap string string;
  now : datetime;
  payment_reply : reply;
  sms_reply : reply;
  collected : bool }.

(** ** Effects *)

Inductive event :=
| EvPaymentRequest (url reference : string)
| EvSmsRequest (url message : string)
| EvSave (path : string)
| EvInsert (table key : string)
| EvCommit.

(** SQLite's write lock on the database file.  A connection takes it
    with its first INSERT and gives it back on commit.  No except
    branch of the handlers closes its connection: when a handler raises
    after an INSERT its transaction stays open, and the lock stays with
    the connection left behind until it is finalised. *)
Inductive lock_state :=
| Unlocked
| Writing
| Abandoned.

(** [db] is the committed database; an open connection works on a copy
    that replaces it on [commit] and is dropped otherwise.  [storage]
    maps the paths of the upload folder to file contents. *)
Record state := {
  db : database;
  storage : gmap string string;
  trace : list event;
  write_lock : lock_state }.

Inductive outcome (A : Type) :=
| Returned (a : A)
| Raised (e : exc).
Arguments Returned {A} a.
Arguments Raised {A} e.

Definition M (A : Type) : Type := state → outcome A * state.

Definition ret {A : Type} (a : A) : M A := λ s, (Returned a, s).

Definition raise {A : Type} (e : exc) : M A := λ s, (Raised e, s).

Definition bind {A B : Type} (m : M A) (k : A → M B) : M B :=
  λ s, match m s with
       | (Returned a, s') => k a s'
       | (Raised e, s') => (Raised e, s')
       end.

(** [try: body except Exception as e: handler] *)
Definition try_except {A : Type} (body : M A) (handler : exc → M A) : M A :=
  λ s, match body s with
       | (Returned a, s') => (Returned a, s')
       | (Raised e, s') => handler e s'
       end.

Declare Scope py_scope.
Delimit Scope py_scope with py.
Notation "x <- m ;; k" := (bind m (λ x, k))
  (at level 100, m at next level, right associativity) : py_scope.
Notation "m ;; k" := (bind m (λ _, k))
  (at level 100, right associativity) : py_scope.
Local Open Scope py_scope.

Definition emit (e : event) : M unit :=
  λ s, (Returned tt, {| db := db s; storage := storage s; trace := trace s ++ [e];
                        write_lock := write_lock s |}).

(** [get_db()]: a connection starts from the committed database. *)
Definition get_db : M database := λ s, (Returned (db s), s).

(** The lock once the connection of the request has committed. *)
Definition released (l : lock_state) : lock_state :=
  match l with
  | Writing => Unlocked
  | _ => l
  end.

(** [conn.commit()]: with no INSERT pending it does nothing to the
    lock. *)
Definition commit (conn : database) : M unit :=
  λ s, (Returned tt, {| db := conn; storage := storage s; trace := trace s ++ [EvCommit];
                        write_lock := released (write_lock s) |}).

(** A connection left open by an earlier request holds the write lock. *)
Definition write_locked (s : state) : bool :=
  match write_lock s with
  | Abandoned => true
  | _ => false
  end.

Definition with_lock (s : state) (l : lock_state) : state :=
  {| db := db s; storage := storage s; trace := trace s; write_lock := l |}.

(** What an INSERT does first: it takes the write lock, and fails with
    'database is locked' (after SQLite's timeout) when another
    connection has it. *)
Definition begin_write : M unit :=
  λ s, if write_locked s then (Raised (OperationalError "database is locked"), s)
       else (Returned tt, with_lock s Writing).

(** Leaving a handler through its except branch: the connection is not
    closed, so a transaction it has begun stays open. *)
Definition abandoned (l : lock_state) : lock_state :=
  match l with
  | Writing => Abandoned
  | _ => l
  end.

Definition leave_open : M unit :=
  λ s, (Returned tt, with_lock s (abandoned (write_lock s))).

(** The garbage collector finalises the connections left open. *)
Definition collect (w : world) (s : state) : state :=
  if collected w then
    with_lock s match write_lock s with
                | Abandoned => Unlocked
                | l => l
                end
  else s.

(** An outbound call: the request is sent, then the answer is decoded. *)
Definition http (request : event) (r : reply) : M json :=
  emit request ;;
  match r with
  | Replied body => ret body
  | Failed msg => raise (OutsideError msg)
  end.

(** [v.get(k)] and [v.get(k, dflt)] on a decoded value, which need not
    be a dict. *)
Definition py_get (v : json) (k : string) : M json :=
  match v with
  | JObj d => ret (Py.get d k)
  | _ => raise (AttributeError v "get")
  end.

Definition py_get_or (v : json) (k : string) (dflt : json) : M json :=
  match v with
  | JObj d => ret (Py.get_or d k dflt)
  | _ => raise (AttributeError v "get")
  end.

(** [d[k]] *)
Definition py_item (d : pydict) (k : string) : M json :=
  match d !! k with
  | Some v => ret v
  | None => raise (KeyError k)
  end.

(** [v.lower()] *)
Definition py_lower (v : json) : M string :=
  match v with
  | JStr s => ret (Py.lower s)
  | _ => raise (AttributeError v "lower")
  end.

(** ** Statements *)

(** Binding a Python value to a [?] placeholder.  SQLite binds the
    float NaN as NULL; an integer must fit in 64 bits; text is Latin-1
    here, which can always be encoded. *)
Definition bind_param (v : json) : M sql_value :=
  match v with
  | JNull => ret SNull
  | JBool b => ret (SInt (if b then 1 else 0))
  | JInt z =>
      if (- 2 ^ 63 <=? z) && (z <? 2 ^ 63) then ret (SInt z)
      else raise (OverflowError v)
  | JFloat S754_nan => ret SNull
  | JFloat x => ret (SReal x)
  | JStr s => ret (SText s)
  | JArr _ | JObj _ => raise (InterfaceError v)
  end.

(** Column affinity: what a column declared TEXT or REAL stores for a
    bound value. *)
Definition text_affinity {rt : Runtime} (v : sql_value) : sql_value :=
  match v with
  | SInt _ | SReal _ => SText (sqlite_text v)
  | _ => v
  end.

Definition real_affinity {rt : Runtime} (v : sql_value) : sql_value :=
  match v with
  | SInt z => SReal (Py.float_of_int z)
  | SText s => from_option SReal v (sqlite_real s)
  | _ => v
  end.

(** A NOT NULL column. *)
Definition not_null (column : string) (v : sql_value) : M unit :=
  match v with
  | SNull => raise (IntegrityError ("NOT NULL constraint failed: " ++ column))
  | _ => ret tt
  end.

Definition sql_text_key (v : sql_value) : string :=
  match v with
  | SText s => s
  | _ => EmptyString
  end.

(** [INSERT INTO donations (donor_name, donor_email, donor_phone, amount,
    purpose, provider, reference_number, transaction_id) VALUES (...)]
    against the schema of lines 108-119: the values are bound, the
    write lock is taken, each value gets the affinity of its column
    (REAL for amount, TEXT for the others), and the six NOT NULL
    columns and the UNIQUE reference_number are checked; status is left
    to its default 'completed'. *)
Definition insert_donation {rt : Runtime} (conn : database)
    (donor_name donor_email donor_phone amount purpose provider
       reference transaction_id : json) : M database :=
  c_name <- bind_param donor_name ;;
  c_email <- bind_param donor_email ;;
  c_phone <- bind_param donor_phone ;;
  c_amount <- bind_param amount ;;
  c_purpose <- bind_param purpose ;;
  c_provider <- bind_param provider ;;
  c_reference <- bind_param reference ;;
  c_transaction <- bind_param transaction_id ;;
  begin_write ;;
  not_null "donations.donor_name" c_name ;;
  not_null "donations.donor_phone" c_phone ;;
  not_null "donations.amount" c_amount ;;
  not_null "donations.purpose" c_purpose ;;
  not_null "donations.provider" c_provider ;;
  not_null "donations.reference_number" c_reference ;;
  if existsb (λ d, bool_decide (d_reference_number d = text_affinity c_reference))
       (rows (donations conn))
  then raise (IntegrityError "UNIQUE constraint failed: donations.reference_number")
  else
    emit (EvInsert "donations" (sql_text_key (text_affinity c_reference))) ;;
    ret (set_donations
           (table_add (λ id,
              {| d_id := id;
                 d_donor_name := text_affinity c_name;
                 d_donor_email := text_affinity c_email;
                 d_donor_phone := text_affinity c_phone;
                 d_amount := real_affinity c_amount;
                 d_purpose := text_affinity c_purpose;
                 d_provider := text_affinity c_provider;
                 d_reference_number := text_affinity c_reference;
                 d_status := SText "completed";
                 d_transaction_id := text_affinity c_transaction |})
              (donations conn))
           conn).

(** [INSERT INTO photos | videos | documents (filename, ..., uploaded_by)]:
    every value is Python text, so no constraint of lines 71-95 can
    fail, and the statement raises only when the write lock is taken. *)
Definition insert_media (k : media_kind) (table_name : string) (conn : database)
    (filename : string) (columns : list (string * string)) (uploaded_by : string)
  : M database :=
  begin_write ;;
  emit (EvInsert table_name filename) ;;
  ret (set_media_table k
         (table_add (λ id,
            {| m_id := id; m_filename := filename; m_columns := columns;
               m_uploaded_by := uploaded_by |})
            (media_table k conn))
         conn).

(** [SELECT password_hash, role, email FROM admins WHERE username = ?]
    followed by [fetchone()]. *)
Definition select_admin {rt : Runtime} (conn : database) (username : json) : M (option admin) :=
  key <- bind_param username ;;
  let wanted := match key with
                | SText s => Some s
                | SNull => None
                | number => Some (sqlite_text number)
                end in
  ret (match wanted with
       | Some s => find (λ a, String.eqb (a_username a) s) (rows (admins conn))
       | None => None
       end).

(** ** The handlers

    The functions [admin_login] and [process_donation] below are the
    handlers from their second statement on, given the dict that
    [request.json] returned; [handle] puts the first statements of
    every handler before them, which raise when Flask cannot decode the
    request or the body is not a JSON object. *)

Record response := { status_code : Z; body : json }.

(** [jsonify(d), code] *)
Definition respond (code : Z) (d : pydict) : response :=
  {| status_code := code; body := JObj d |}.

(** One uploaded part of a multipart request, together with what the
    outside does while the handler works on it: the clock reading, and
    whether writing the file fails. *)
Record FileStorage := { fs_filename : string; fs_content : string }.

Record upload := {
  up_file : FileStorage;
  up_at : datetime;
  up_save_error : option string }.

Record upload_request := {
  files : list (string * upload);
  form : gmap string string }.

Section Handlers.

Context {rt : Runtime} (w : world).

(** [os.getenv(k)] and [os.getenv(k, dflt)] *)
Definition getenv (k : string) : option string := environ w !! k.
Definition getenv_or (k dflt : string) : string := default dflt (environ w !! k).

(** *** SMS (lines 155-210) *)

Definition send_sms_hubtel (phone_number : json) (message : string) : M json :=
  let api_key := getenv "HUBTEL_API_KEY" in
  let api_secret := getenv "HUBTEL_API_SECRET" in
  if negb (Py.env_truthy api_key) || negb (Py.env_truthy api_secret) then
    ret (JObj {[ "status" := JStr "error";
                 "message" := JStr "SMS provider not configured" ]})
  else
    http (EvSmsRequest "https://smsc.hubtel.com/v1/messages/send" message)
         (sms_reply w).

Definition send_sms_mnotify (phone_number : json) (message : string) : M json :=
  let api_key := getenv "MNOTIFY_API_KEY" in
  if negb (Py.env_truthy api_key) then
    ret (JObj {[ "status" := JStr "error";
                 "message" := JStr "SMS provider not configured" ]})
  else
    http (EvSmsRequest "https://api.mnotify.com/api/sms/quick" message)
         (sms_reply w).

Definition send_sms (phone_number : json) (message : string) : M json :=
  let provider := getenv_or "SMS_PROVIDER" "hubtel" in
  try_except
    (if String.eqb provider "hubtel" then send_sms_hubtel phone_number message
     else if String.eqb provider "mnotify" then send_sms_mnotify phone_number message
     else ret (JObj {[ "status" := JStr "success";
                       "message" := JStr "SMS logged (no provider configured)" ]}))
    (λ e, ret (JObj {[ "status" := JStr "error";
                       "message" := JStr (str_exc e) ]})).

(** *** Mobile money (lines 213-296) *)

Definition process_hubtel_payment
    (provider phone_number amount purpose donor_name : json) (reference : string)
  : M pydict :=
  let merchant_id := getenv "HUBTEL_MERCHANT_ID" in
  let api_key := getenv "HUBTEL_PAYMENT_API_KEY" in
  if negb (Py.env_truthy merchant_id && Py.env_truthy api_key) then
    ret {[ "status" := JStr "error";
           "message" := JStr "Payment gateway not configured" ]}
  else
    let url := "https://api.hubtel.com/v1/merchantaccount/merchants/"
               ++ default EmptyString merchant_id ++ "/receive/mobilemoney" in
    channel <- py_lower provider ;;
    result <- http (EvPaymentRequest url reference) (payment_reply w) ;;
    response_code <- py_get result "ResponseCode" ;;
    transaction_id <- py_get result "TransactionId" ;;
    message <- py_get_or result "Message" (JStr "Payment processed") ;;
    ret {[ "status" := JStr (if Py.eq_str response_code "0000"
                             then "success" else "error");
           "reference" := JStr reference;
           "transaction_id" := transaction_id;
           "message" := message ]}.

(** [int(x)] on a float raises for NaN and for an infinity. *)
Definition int_of_float (amount : json) (x : spec_float) : M unit :=
  match x with
  | S754_nan => raise (ValueError "cannot convert float NaN to integer")
  | S754_infinity _ => raise (OverflowError amount)
  | _ => ret tt
  end.

(** [int(float(amount) * 100)]: only whether it evaluates is modelled,
    the product is sent to the provider and not used again.  [float]
    raises for an integer beyond the range of a float, and [int] for a
    product that is infinite or NaN. *)
Definition amount_in_pesewas (amount : json) : M unit :=
  match amount with
  | JArr _ | JObj _ | JNull => raise (TypeError amount)
  | JStr s => if float_parses s then ret tt else raise (ValueError s)
  | JBool _ => ret tt
  | JInt z =>
      match Py.float_of_int z with
      | S754_infinity _ => raise (OverflowError amount)
      | x => int_of_float amount (Py.float_mul x (Py.float_of_int 100))
      end
  | JFloat x => int_of_float amount (Py.float_mul x (Py.float_of_int 100))
  end.

Definition process_paystack_payment
    (provider phone_number amount purpose donor_name : json) (reference : string)
  : M pydict :=
  let secret_key := getenv "PAYSTACK_SECRET_KEY" in
  if negb (Py.env_truthy secret_key) then
    ret {[ "status" := JStr "error";
           "message" := JStr "Payment gateway not configured" ]}
  else
    amount_in_pesewas amount ;;
    channel <- py_lower provider ;;
    result <- http (EvPaymentRequest "https://api.paystack.co/charge" reference)
                   (payment_reply w) ;;
    status <- py_get result "status" ;;
    data <- py_get_or result "data" (JObj ∅) ;;
    transaction_id <- py_get data "id" ;;
    message <- py_get_or result "message" (JStr "Payment processed") ;;
    ret {[ "status" := JStr (if Py.truthy status then "success" else "error");
           "reference" := JStr reference;
           "transaction_id" := transaction_id;
           "message" := message ]}.

(** The reference minted at line 216. *)
Definition new_reference : string := "SDA" ++ strftime_compact (now w).

Definition process_mobile_money
    (provider phone_number amount purpose donor_name : json) : M pydict :=
  let gateway := getenv_or "PAYMENT_GATEWAY" "hubtel" in
  let reference := new_reference in
  try_except
    (if String.eqb gateway "hubtel" then
       process_hubtel_payment provider phone_number amount purpose donor_name reference
     else if String.eqb gateway "paystack" then
       process_paystack_payment provider phone_number amount purpose donor_name reference
     else
       ret {[ "status" := JStr "success";
              "reference" := JStr reference;
              "message" := JStr "Payment processed (simulation mode)";
              "transaction_id" := JStr ("TEST_" ++ reference) ]})
    (λ e, ret {[ "status" := JStr "error"; "message" := JStr (str_exc e) ]}).

(** *** Login (lines 309-339) *)

(** [check_password_hash(pwhash, password)]: werkzeug encodes the
    candidate with [str.encode] before hashing it, so a candidate that
    is not text raises. *)
Definition check_password (pwhash : string) (password : json) : M bool :=
  match password with
  | JStr s => ret (check_password_hash pwhash s)
  | _ => raise (AttributeError password "encode")
  end.

Definition invalid_credentials : response :=
  respond 401 {[ "success" := JBool false; "message" := JStr "Invalid credentials" ]}.

(** The connection of [admin_login] only reads, and is closed at line
    324 before the password is checked: whatever raises, no
    transaction is left open. *)
Definition admin_login (data : pydict) : M response :=
  let username := Py.get data "username" in
  let password := Py.get data "password" in
  if negb (Py.truthy username) || negb (Py.truthy password) then
    ret (respond 400 {[ "success" := JBool false;
                        "message" := JStr "Missing credentials" ]})
  else
    try_except
      (conn <- get_db ;;
       result <- select_admin conn username ;;
       match result with
       | Some row =>
           matches <- check_password (a_password_hash row) password ;;
           if matches then
             ret (respond 200
                    {[ "success" := JBool true;
                       "username" := username;
                       "role" := JStr (a_role row);
                       "email" := from_option JStr JNull (a_email row) ]})
           else ret invalid_credentials
       | None => ret invalid_credentials
       end)
      (λ e, ret (respond 500 {[ "success" := JBool false;
                                "message" := JStr "Server error" ]})).

(** *** Uploads (lines 341-462)

    The three endpoints differ in the request field (which is also the
    folder and the table), the allow-list and the two form columns. *)

Definition field_name (k : media_kind) : string :=
  match k with
  | Photos => "photos"
  | Videos => "videos"
  | Documents => "documents"
  end.

Definition allowed (k : media_kind) : gset string :=
  match k with
  | Photos => ALLOWED_IMAGES
  | Videos => ALLOWED_VIDEOS
  | Documents => ALLOWED_DOCS
  end.

Definition form_get (req : upload_request) (k dflt : string) : string :=
  default dflt (form req !! k).

Definition media_columns (k : media_kind) (req : upload_request) : list (string * string) :=
  match k with
  | Photos => [("category", form_get req "category" "gallery");
               ("description", form_get req "description" EmptyString)]
  | Videos => [("title", form_get req "title" "Untitled");
               ("description", form_get req "description" EmptyString)]
  | Documents => [("title", form_get req "title" "Untitled");
                  ("category", form_get req "category" "other")]
  end.

(** [request.files.getlist(field)] *)
Definition getlist (req : upload_request) (field : string) : list upload :=
  omap (λ '(key, u), if String.eqb key field then Some u else None) (files req).

(** [file and allowed_file(file.filename, ...)]: a FileStorage is true
    when its filename is not empty. *)
Definition accepted (k : media_kind) (u : upload) : bool :=
  negb (String.eqb (fs_filename (up_file u)) EmptyString) &&
  allowed_file (fs_filename (up_file u)) (allowed k).

Definition stored_name (u : upload) : string :=
  secure_filename (strftime_underscore (up_at u) ++ "_" ++ fs_filename (up_file u)).

Definition stored_path (k : media_kind) (filename : string) : string :=
  Py.path_join (getenv_or "UPLOAD_FOLDER" "uploads") [field_name k; filename].

(** [file.save(filepath)]: a failed save writes nothing. *)
Definition save (u : upload) (filepath : string) : M unit :=
  match up_save_error u with
  | Some msg => raise (OutsideError msg)
  | None =>
      λ s, (Returned tt,
            {| db := db s;
               storage := <[filepath := fs_content (up_file u)]> (storage s);
               trace := trace s ++ [EvSave filepath];
               write_lock := write_lock s |})
  end.

(** The [for file in files] loop. *)
Fixpoint upload_loop (k : media_kind) (columns : list (string * string))
    (uploaded_by : string) (pending : list upload)
    (conn : database) (uploaded_files : list string)
  : M (database * list string) :=
  match pending with
  | [] => ret (conn, uploaded_files)
  | u :: rest =>
      if accepted k u then
        let filename := stored_name u in
        let filepath := stored_path k filename in
        save u filepath ;;
        conn' <- insert_media k (field_name k) conn filename columns uploaded_by ;;
        upload_loop k columns uploaded_by rest conn' (uploaded_files ++ [filename])
      else upload_loop k columns uploaded_by rest conn uploaded_files
  end.

Definition upload_media (k : media_kind) (req : upload_request) : M response :=
  if negb (existsb (λ '(key, _), String.eqb key (field_name k)) (files req)) then
    ret (respond 400 {[ "error" := JStr ("No " ++ field_name k ++ " provided") ]})
  else
    let pending := getlist req (field_name k) in
    let columns := media_columns k req in
    let uploaded_by := form_get req "uploaded_by" "admin" in
    try_except
      (conn <- get_db ;;
       result <- upload_loop k columns uploaded_by pending conn [] ;;
       commit (fst result) ;;
       ret (respond 200
              {[ "success" := JBool true;
                 "files" := JArr (map JStr (snd result));
                 "message" := JStr (Py.decimal (N.of_nat (length (snd result)))
                                    ++ " " ++ field_name k
                                    ++ " uploaded successfully") ]}))
      (λ e, leave_open ;;
            ret (respond 500 {[ "error" := JStr "Upload failed" ]})).

Definition upload_photos : upload_request → M response := upload_media Photos.
Definition upload_videos : upload_request → M response := upload_media Videos.
Definition upload_documents : upload_request → M response := upload_media Documents.

(** *** Donations (lines 593-652) *)

Definition required_fields : list string :=
  ["donor_name"; "donor_phone"; "amount"; "purpose"; "provider"].

Definition missing_required_fields : response :=
  respond 400 {[ "error" := JStr "Missing required fields" ]}.

Definition sms_text (donor_name amount purpose reference : json) : string :=
  "Thank you " ++ py_str donor_name ++ " for your donation of GHS " ++ py_str amount
  ++ " to Sefwi Humjibre SDA Church for " ++ py_str purpose
  ++ ". Reference: " ++ py_str reference ++ ". May God bless you abundantly!".

Definition process_donation (data : pydict) : M response :=
  let donor_name := Py.get data "donor_name" in
  let donor_email := Py.get data "donor_email" in
  let donor_phone := Py.get data "donor_phone" in
  let amount := Py.get data "amount" in
  let purpose := Py.get data "purpose" in
  let provider := Py.get data "provider" in
  if negb (Py.all [donor_name; donor_phone; amount; purpose; provider]) then
    ret missing_required_fields
  else
    try_except
      (payment_result <- process_mobile_money provider donor_phone amount purpose donor_name ;;
       status <- py_item payment_result "status" ;;
       if Py.eq_str status "success" then
         reference <- py_item payment_result "reference" ;;
         let transaction_id := Py.get_or payment_result "transaction_id" (JStr EmptyString) in
         conn <- get_db ;;
         conn' <- insert_donation conn donor_name donor_email donor_phone amount
                    purpose provider reference transaction_id ;;
         commit conn' ;;
         sms_result <- send_sms donor_phone
                         (sms_text donor_name amount purpose reference) ;;
         sms_status <- py_get sms_result "status" ;;
         ret (respond 200
                {[ "success" := JBool true;
                   "reference" := reference;
                   "transaction_id" := transaction_id;
                   "message" := JStr "Donation processed successfully";
                   "sms_sent" := JBool (Py.eq_str sms_status "success") ]})
       else
         message <- py_item payment_result "message" ;;
         ret (respond 400 {[ "success" := JBool false; "error" := message ]}))
      (λ e, leave_open ;;
            ret (respond 500 {[ "error" := JStr "Failed to process donation" ]})).

(** *** Statistics (lines 683-718)

    The first of the three queries, [SELECT COUNT( * ), SUM(amount) ...
    WHERE status = "completed"].  The answer of the code has two more
    keys, 'by_purpose' and 'recent', filled by two queries under the
    same WHERE clause; they are left out here.  The connection only
    reads. *)
Definition completed_donations (conn : database) : list donation :=
  filter (λ d, d_status d = SText "completed") (rows (donations conn)).

Definition donation_stats : M response :=
  try_except
    (conn <- get_db ;;
     let selected := completed_donations conn in
     let total_count := JInt (Z.of_nat (length selected)) in
     let total_amount := sqlite_sum (d_amount <$> selected) in
     ret (respond 200
            {[ "total_count" := if Py.truthy total_count then total_count else JInt 0;
               "total_amount" := if Py.truthy total_amount then total_amount else JInt 0 ]}))
    (λ e, ret (respond 500 {[ "error" := JStr "Failed to fetch statistics" ]})).

(** *** The requests a client can send

    [request.json] and [request.files] are evaluated by the first
    statement of a handler, outside its [try] block.  Flask raises
    there when it cannot decode the request (a body that is not JSON,
    a multipart body above MAX_CONTENT_LENGTH): the request then has no
    decoded body, [None] below.  A decoded JSON body need not be an
    object, and [data.get] raises when it is not. *)
Inductive call :=
| AdminLogin (body : option json)
| UploadPhotos (req : option upload_request)
| UploadVideos (req : option upload_request)
| UploadDocuments (req : option upload_request)
| ProcessDonation (body : option json)
| DonationStats.

(** [data = request.json] followed by [data.get(...)] *)
Definition with_json (body : option json) (handler : pydict → M response) : M response :=
  match body with
  | None => raise (HTTPException 400)
  | Some (JObj data) => handler data
  | Some v => raise (AttributeError v "get")
  end.

(** [request.files] *)
Definition with_files (req : option upload_request)
    (handler : upload_request → M response) : M response :=
  match req with
  | None => raise (HTTPException 413)
  | Some r => handler r
  end.

Definition handle (c : call) : M response :=
  match c with
  | AdminLogin body => with_json body admin_login
  | UploadPhotos req => with_files req upload_photos
  | UploadVideos req => with_files req upload_videos
  | UploadDocuments req => with_files req upload_documents
  | ProcessDonation body => with_json body process_donation
  | DonationStats => donation_stats
  end.

End Handlers.

(** *** Start-up ([init_db], lines 131-146) *)

Definition default_admins : list (string * string * string * string) :=
  [("admin", "sda2025", "Administrator", "admin@sefwihumjibresda.org");
   ("pastor", "pastor123", "Pastor", "pastor@sefwihumjibresda.org");
   ("elder", "elder456", "Elder", "elder@sefwihumjibresda.org")].

(** [init_db] runs when the process starts, before a request is
    served: no connection of the process has been left open then, and
    its INSERTs find the write lock free.

    One turn of the seeding loop: an IntegrityError on the UNIQUE
    username is swallowed. *)
Definition seed_admin {rt : Runtime} (conn : database)
    (entry : string * string * string * string) : database :=
  let '(username, password, role, email) := entry in
  let password_hash := generate_password_hash password in
  if existsb (λ a, String.eqb (a_username a) username) (rows (admins conn)) then conn
  else set_admins
         (table_add (λ id, {| a_id := id; a_username := username;
                              a_password_hash := password_hash;
                              a_role := role; a_email := Some email |})
            (admins conn))
         conn.

Definition init_db {rt : Runtime} : M unit :=
  conn <- get_db ;;
  commit (fold_left seed_admin default_admins conn).

(** A server that has just started on an empty database file. *)
Definition fresh_state {rt : Runtime} : state :=
  snd (init_db {| db := empty_database; storage := ∅; trace := [];
                  write_lock := Unlocked |}).

(** A sequence of requests, each with the world it is served in; the
    garbage collector may run between two requests. *)
Fixpoint serve {rt : Runtime} (requests : list (world * call)) (s : state) : state :=
  match requests with
  | [] => s
  | (w, c) :: rest => serve rest (snd (handle w c (collect w s)))
  end.

(** ** Vocabulary of the properties *)

Definition with_trace (s : state) (t : list event) : state :=
  {| db := db s; storage := storage s; trace := t; write_lock := write_lock s |}.

(** At most one request goes out to the payment provider, and it
    carries the reference. *)
Definition payment_events (reference : string) (evs : list event) : Prop :=
  evs = [] ∨ ∃ url, evs = [EvPaymentRequest url reference].

Definition sms_events (message : string) (evs : list event) : Prop :=
  evs = [] ∨ ∃ url, evs = [EvSmsRequest url message].

Definition local_error (msg : string) : pydict :=
  {[ "status" := JStr "error"; "message" := JStr msg ]}.

Definition answered (reference : string) (success : bool) (transaction_id message : json)
  : pydict :=
  {[ "status" := JStr (if success then "success" else "error");
     "reference" := JStr reference;
     "transaction_id" := transaction_id;
     "message" := message ]}.

(** The two forms a result of [process_mobile_money] takes: the bare
    error of a gateway that is not configured or of a caught exception,
    and the four-key result built after the provider answered (or by the
    simulation). *)
Inductive payment_shape (reference : string) : pydict → Prop :=
| shape_local_error msg :
    payment_shape reference (local_error msg)
| shape_answered (success : bool) transaction_id message :
    payment_shape reference (answered reference success transaction_id message).

Definition digits_only (s : string) : bool :=
  forallb Py.is_digit (list_ascii_of_string s).

(** 'SDA' followed by fourteen decimal digits. *)
Definition is_reference (r : string) : bool :=
  match r with
  | String "S" (String "D" (String "A" stamp)) =>
      Nat.eqb (String.length stamp) 14 && digits_only stamp
  | _ => false
  end.

(** Every year from 1000 to 9999 prints as four decimal digits. *)
Definition year_ok (y : N) : bool :=
  Nat.eqb (String.length (Py.decimal y)) 4 && digits_only (Py.decimal y).

(** The values the donation handler reads from the request body. *)
Definition donation_fields (data : pydict) : list json :=
  [Py.get data "donor_name"; Py.get data "donor_phone"; Py.get data "amount";
   Py.get data "purpose"; Py.get data "provider"].

(** What [process_mobile_money] returns for the attempt the donation
    endpoint makes on [data]; [None] when the request is rejected before
    any attempt. *)
Definition payment_attempt {rt : Runtime} (w : world) (data : pydict) (s : state)
  : option pydict :=
  if Py.all (donation_fields data) then
    match fst (process_mobile_money w (Py.get data "provider") (Py.get data "donor_phone")
                 (Py.get data "amount") (Py.get data "purpose")
                 (Py.get data "donor_name") s) with
    | Returned payment_result => Some payment_result
    | Raised _ => None
    end
  else None.

Definition reported_success (attempt : option pydict) : bool :=
  match attempt with
  | Some payment_result => Py.eq_str (Py.get payment_result "status") "success"
  | None => false
  end.

Definition donation_rows (s : state) : list donation := rows (donations (db s)).

(** A value SQLite can take as a parameter. *)
Definition bindable (v : json) : bool :=
  match v with
  | JArr _ | JObj _ => false
  | JInt z => (- 2 ^ 63 <=? z) && (z <? 2 ^ 63)
  | _ => true
  end.

(** The float NaN, which SQLite binds as NULL. *)
Definition is_nan (v : json) : bool :=
  match v with
  | JFloat S754_nan => true
  | _ => false
  end.

Definition reference_stored (reference : string) (s : state) : bool :=
  existsb (λ d, bool_decide (d_reference_number d = SText reference)) (donation_rows s).

(** Every value of the INSERT of this attempt can be bound. *)
Definition values_bindable {rt : Runtime} (w : world) (data : pydict) (s : state) : bool :=
  forallb bindable
    (Py.get data "donor_email" ::
     from_option (λ pr, Py.get_or pr "transaction_id" (JStr EmptyString)) JNull
       (payment_attempt w data s) ::
     donation_fields data).

(** The store takes the donation row of this attempt: every value of
    the statement can be bound, no required value is NaN, the reference
    is new, and no connection left open holds the write lock. *)
Definition store_accepts {rt : Runtime} (w : world) (data : pydict) (s : state) : bool :=
  values_bindable w data s
  && forallb (λ v, negb (is_nan v)) (donation_fields data)
  && negb (reference_stored (new_reference w) s)
  && negb (write_locked s).

(** The value [bind_param] yields for a bindable parameter. *)
Definition bound (v : json) : sql_value :=
  match v with
  | JBool b => SInt (if b then 1 else 0)
  | JInt z => SInt z
  | JFloat S754_nan => SNull
  | JFloat x => SReal x
  | JStr s => SText s
  | _ => SNull
  end.

Definition add_donation (d : donation) (conn : database) : database :=
  set_donations
    {| rows := rows (donations conn) ++ [d]; last_id := last_id (donations conn) + 1 |}
    conn.

(** The row the donation endpoint stores for a request and a payment
    result: the amount in the REAL column, the other values in TEXT
    columns. *)
Definition donation_row {rt : Runtime} (conn : database) (data : pydict) (reference : string)
    (transaction_id : json) : donation :=
  {| d_id := last_id (donations conn) + 1;
     d_donor_name := text_affinity (bound (Py.get data "donor_name"));
     d_donor_email := text_affinity (bound (Py.get data "donor_email"));
     d_donor_phone := text_affinity (bound (Py.get data "donor_phone"));
     d_amount := real_affinity (bound (Py.get data "amount"));
     d_purpose := text_affinity (bound (Py.get data "purpose"));
     d_provider := text_affinity (bound (Py.get data "provider"));
     d_reference_number := SText reference;
     d_status := SText "completed";
     d_transaction_id := text_affinity (bound transaction_id) |}.

(** The three answers of the donation endpoint after validation. *)
Definition payment_failed (payment_result : pydict) : response :=
  respond 400 {[ "success" := JBool false; "error" := Py.get payment_result "message" ]}.

Definition processing_failed : response :=
  respond 500 {[ "error" := JStr "Failed to process donation" ]}.

Definition donation_processed (reference transaction_id : json) (sms_sent : bool) : response :=
  respond 200
    {[ "success" := JBool true;
       "reference" := reference;
       "transaction_id" := transaction_id;
       "message" := JStr "Donation processed successfully";
       "sms_sent" := JBool sms_sent ]}.

(** The state after the connection of the request has committed
    [conn]. *)
Definition committed (s : state) (conn : database) (t : list event) : state :=
  {| db := conn; storage := storage s; trace := t;
     write_lock := released (write_lock s) |}.

Definition is_object (v : json) : bool :=
  match v with
  | JObj _ => true
  | _ => false
  end.

(** PAYMENT_GATEWAY names neither Hubtel nor Paystack. *)
Definition simulation_mode (w : world) : bool :=
  negb (String.eqb (getenv_or w "PAYMENT_GATEWAY" "hubtel") "hubtel")
  && negb (String.eqb (getenv_or w "PAYMENT_GATEWAY" "hubtel") "paystack").

(** Some file of the batch passes the extension check and cannot be
    saved. *)
Definition batch_fails (k : media_kind) (pending : list upload) : bool :=
  existsb (λ u, accepted k u && bool_decide (is_Some (up_save_error u))) pending.

Definition all_completed (s : state) : Prop :=
  Forall (λ d, d_status d = SText "completed") (donation_rows s).

(** Storage and rows of an upload kind. *)
Definition media_rows (k : media_kind) (s : state) : list media_row :=
  rows (media_table k (db s)).

Definition on_storage (path : string) (s : state) : Prop := is_Some (storage s !! path).

(** In a trace, every INSERT of a media row comes after the save of its
    file. *)
Definition saved_before_insert (w : world) (k : media_kind) (t : list event) : Prop :=
  ∀ before filename after,
    t = (before ++ EvInsert (field_name k) filename :: after)%list →
    EvSave (stored_path w k filename) ∈ before.

(** ** Sample inputs *)

Definition sample_runtime : Runtime :=
  {| str_exc := λ _, "exception";
     py_str := λ v, match v with JStr s => s | _ => "?" end;
     float_parses := λ _, false;
     secure_filename := λ s, s;
     generate_password_hash := λ p, "plain$" ++ p;
     check_password_hash := λ h p, String.eqb h ("plain$" ++ p);
     sqlite_text := λ _, EmptyString;
     sqlite_real := λ _, None;
     sqlite_sum := λ _, JNull |}.

Definition new_year_noon : datetime :=
  {| dt_year := 2025; dt_month := 1; dt_day := 1;
     dt_hour := 12; dt_minute := 0; dt_second := 0 |}.

(** PAYMENT_GATEWAY names neither provider: simulation mode.  The SMS
    provider is left at its default without credentials. *)
Definition simulation_world : world :=
  {| environ := {[ "PAYMENT_GATEWAY" := "simulation" ]};
     now := new_year_noon;
     payment_reply := Failed "unreachable";
     sms_reply := Failed "unreachable";
     collected := false |}.

(** Nothing configured: the payment gateway defaults to Hubtel, without
    credentials. *)
Definition unconfigured_world : world :=
  {| environ := ∅;
     now := new_year_noon;
     payment_reply := Failed "unreachable";
     sms_reply := Failed "unreachable";
     collected := false |}.

(** Simulation mode for payments, Hubtel configured for SMS, and a
    provider whose answer is JSON but not an object. *)
Definition sms_list_world : world :=
  {| environ := {[ "PAYMENT_GATEWAY" := "simulation";
                   "HUBTEL_API_KEY" := "key";
                   "HUBTEL_API_SECRET" := "secret" ]};
     now := new_year_noon;
     payment_reply := Failed "unreachable";
     sms_reply := Replied (JArr []);
     collected := false |}.


Definition ama_request : pydict :=
  {[ "donor_name" := JStr "Ama"; "donor_phone" := JStr "0551234567";
     "amount" := JInt 50; "purpose" := JStr "tithe"; "provider" := JStr "mtn" ]}.

Definition zero_amount_request : pydict := <[ "amount" := JInt 0 ]> ama_request.


Definition sample_state : state := fresh_state (rt := sample_runtime).

(** The state after Ama's donation went through once in simulation
    mode. *)
Definition once_donated : state :=
  snd (process_donation (rt := sample_runtime) simulation_world ama_request sample_state).

Definition known_user_numeric_password : pydict :=
  {[ "username" := JStr "admin"; "password" := JInt 123 ]}.

Definition unknown_user_numeric_password : pydict :=
  {[ "username" := JStr "nobody"; "password" := JInt 123 ]}.

Definition png_ok : upload :=
  {| up_file := {| fs_filename := "a.png"; fs_content := "A" |};
     up_at := new_year_noon; up_save_error := None |}.

Definition png_failing : upload :=
  {| up_file := {| fs_filename := "b.png"; fs_content := "B" |};
     up_at := new_year_noon; up_save_error := Some "No space left on device" |}.

Definition service_exe : upload :=
  {| up_file := {| fs_filename := "service.exe"; fs_content := "MZ" |};
     up_at := new_year_noon; up_save_error := None |}.

Definition photo_batch (us : list upload) : upload_request :=
  {| files := map (λ u, ("photos", u)) us; form := ∅ |}.

(** ** Proof steps *)

(** Unfold the operations of the monad. *)
Ltac monad :=
  unfold bind, ret, raise, try_except, emit, http,
    py_get, py_get_or, py_item, py_lower.

(** ** News posts ([create_news], lines 464-504) *)



Section News.

Context {rt : Runtime} (w : world).




End News.

(** ** Configuration, as the gateways read it *)

Definition payment_gateway (w : world) : string := getenv_or w "PAYMENT_GATEWAY" "hubtel".

Definition hubtel_credentials (w : world) : bool :=
  Py.env_truthy (getenv w "HUBTEL_MERCHANT_ID")
  && Py.env_truthy (getenv w "HUBTEL_PAYMENT_API_KEY").

Definition paystack_credentials (w : world) : bool :=
  Py.env_truthy (getenv w "PAYSTACK_SECRET_KEY").

(** A real gateway is selected and its credentials are missing. *)
Definition gateway_unconfigured (w : world) : bool :=
  (String.eqb (payment_gateway w) "hubtel" && negb (hubtel_credentials w))
  || (negb (String.eqb (payment_gateway w) "hubtel")
      && String.eqb (payment_gateway w) "paystack" && negb (paystack_credentials w)).

Definition hubtel_url (w : world) : string :=
  "https://api.hubtel.com/v1/merchantaccount/merchants/"
  ++ default EmptyString (getenv w "HUBTEL_MERCHANT_ID") ++ "/receive/mobilemoney".

Definition sms_provider (w : world) : string := getenv_or w "SMS_PROVIDER" "hubtel".

(** The SMS provider selected is a real one and its credentials are
    missing. *)
Definition sms_unconfigured (w : world) : bool :=
  (String.eqb (sms_provider w) "hubtel"
   && negb (Py.env_truthy (getenv w "HUBTEL_API_KEY")
            && Py.env_truthy (getenv w "HUBTEL_API_SECRET")))
  || (negb (String.eqb (sms_provider w) "hubtel")
      && String.eqb (sms_provider w) "mnotify"
      && negb (Py.env_truthy (getenv w "MNOTIFY_API_KEY"))).

(** Neither 'hubtel' nor 'mnotify': the SMS is only logged. *)
Definition sms_fallback (w : world) : bool :=
  negb (String.eqb (sms_provider w) "hubtel")
  && negb (String.eqb (sms_provider w) "mnotify").

Definition is_text (v : json) : bool :=
  match v with
  | JStr _ => true
  | _ => false
  end.

(** [int(x * 100)] evaluates for the float [x]. *)
Definition pesewas_finite (x : spec_float) : bool :=
  match Py.float_mul x (Py.float_of_int 100) with
  | S754_nan | S754_infinity _ => false
  | _ => true
  end.

(** [int(float(amount) * 100)] evaluates. *)
Definition amount_converts {rt : Runtime} (amount : json) : bool :=
  match amount with
  | JStr s => float_parses s
  | JBool _ => true
  | JInt z =>
      match Py.float_of_int z with
      | S754_infinity _ => false
      | x => pesewas_finite x
      end
  | JFloat x => pesewas_finite x
  | _ => false
  end.

(** The provider's answer is a JSON object; for Paystack, its 'data' is
    an object too, or absent. *)
Definition hubtel_answer_usable (r : reply) : bool :=
  match r with
  | Replied (JObj _) => true
  | _ => false
  end.

Definition paystack_answer_usable (r : reply) : bool :=
  match r with
  | Replied (JObj answer) => is_object (Py.get_or answer "data" (JObj ∅))
  | _ => false
  end.

(** [process_mobile_money] gets to the end of a gateway function: the
    simulation runs, or the selected gateway has its credentials, its
    arguments pass ([provider.lower()], and for Paystack the conversion
    of the amount) and the provider's answer can be read. *)
Definition answer_processed {rt : Runtime} (w : world) (provider amount : json) : bool :=
  if String.eqb (payment_gateway w) "hubtel" then
    hubtel_credentials w && is_text provider && hubtel_answer_usable (payment_reply w)
  else if String.eqb (payment_gateway w) "paystack" then
    paystack_credentials w && amount_converts amount && is_text provider
    && paystack_answer_usable (payment_reply w)
  else true.

(** The password hashing of the runtime verifies what it generated. *)
Definition hashes_verify (rt : Runtime) : Prop :=
  ∀ password, check_password_hash (generate_password_hash password) password = true.

Definition seed_username (entry : string * string * string * string) : string :=
  entry.1.1.1.

Definition missing_credentials : response :=
  respond 400 {[ "success" := JBool false; "message" := JStr "Missing credentials" ]}.

Definition login_succeeded (username : json) (row : admin) : response :=
  respond 200
    {[ "success" := JBool true;
       "username" := username;
       "role" := JStr (a_role row);
       "email" := from_option JStr JNull (a_email row) ]}.

Definition references (s : state) : list sql_value :=
  d_reference_number <$> donation_rows s.

Definition usernames (conn : database) : list string :=
  a_username <$> rows (admins conn).

Definition status_codes : list Z := [200; 400; 401; 500].

(** A request Flask could decode, with an object as its body where the
    endpoint reads JSON. *)
Definition well_formed (c : call) : bool :=
  match c with
  | AdminLogin (Some (JObj _)) | ProcessDonation (Some (JObj _)) => true
  | AdminLogin _ | ProcessDonation _ => false
  | UploadPhotos req | UploadVideos req | UploadDocuments req =>
      bool_decide (is_Some req)
  | DonationStats => true
  end.

(** The rows an upload batch adds for the accepted files [us], after
    the id [first]. *)
Definition media_rows_for {rt : Runtime} (columns : list (string * string))
    (uploaded_by : string) (first : Z) (us : list upload) : list media_row :=
  imap (λ i u, {| m_id := first + Z.of_nat (S i);
                  m_filename := stored_name u;
                  m_columns := columns;
                  m_uploaded_by := uploaded_by |}) us.

Definition extend_media {rt : Runtime} (columns : list (string * string))
    (uploaded_by : string) (us : list upload) (t : table media_row) : table media_row :=
  {| rows := rows t ++ media_rows_for columns uploaded_by (last_id t) us;
     last_id := last_id t + Z.of_nat (length us) |}.

#[global] Instance media_kind_eq_dec : EqDecision media_kind.
Proof. solve_decision. Defined.

(** Every row and event of [s] is still there in [s'], and so is every
    path of the storage (the file under it may have been written
    again). *)
Definition grows (s s' : state) : Prop :=
  donation_rows s `prefix_of` donation_rows s'
  ∧ (∀ k, media_rows k s `prefix_of` media_rows k s')
  ∧ admins (db s') = admins (db s)
  ∧ (∀ path, on_storage path s → on_storage path s')
  ∧ trace s `prefix_of` trace s'.

Definition sms_not_configured_result : json :=
  JObj {[ "status" := JStr "error"; "message" := JStr "SMS provider not configured" ]}.

Definition sms_logged_result : json :=
  JObj {[ "status" := JStr "success";
          "message" := JStr "SMS logged (no provider configured)" ]}.

Definition donation_sms_text {rt : Runtime} (w : world) (data : pydict) : string :=
  sms_text (Py.get data "donor_name") (Py.get data "amount") (Py.get data "purpose")
    (JStr (new_reference w)).

(** The answers of an upload endpoint. *)
Definition no_files_provided (k : media_kind) : response :=
  respond 400 {[ "error" := JStr ("No " ++ field_name k ++ " provided") ]}.

Definition upload_failed : response :=
  respond 500 {[ "error" := JStr "Upload failed" ]}.

Definition uploaded (k : media_kind) (names : list string) : response :=
  respond 200
    {[ "success" := JBool true;
       "files" := JArr (map JStr names);
       "message" := JStr (Py.decimal (N.of_nat (length names)) ++ " " ++ field_name k
                          ++ " uploaded successfully") ]}.

Definition field_present (k : media_kind) (req : upload_request) : bool :=
  existsb (λ '(key, _), String.eqb key (field_name k)) (files req).

(** The storage after the files [us] have been saved in turn: a later
    file replaces an earlier one saved under the same path. *)
Definition written {rt : Runtime} (w : world) (k : media_kind) (us : list upload)
    (files : gmap string string) : gmap string string :=
  fold_left
    (λ files u, <[stored_path w k (stored_name u) := fs_content (up_file u)]> files)
    us files.

(** The loop over a batch stops with an exception: a file that passes
    the extension check cannot be saved, or a connection left open
    holds the write lock when the first row is to be inserted. *)
Definition upload_stops (k : media_kind) (s : state) (pending : list upload) : bool :=
  batch_fails k pending || (write_locked s && existsb (accepted k) pending).

(** A save fails after a row of the batch has been inserted. *)
Fixpoint fails_after_insert (k : media_kind) (pending : list upload) : bool :=
  match pending with
  | [] => false
  | u :: rest =>
      if accepted k u then
        negb (bool_decide (is_Some (up_save_error u))) && batch_fails k rest
      else fails_after_insert k rest
  end.




(** ** More sample inputs *)

Definition hubtel_world : world :=
  {| environ := {[ "HUBTEL_MERCHANT_ID" := "M1"; "HUBTEL_PAYMENT_API_KEY" := "key" ]};
     now := new_year_noon;
     payment_reply := Replied (JObj {[ "ResponseCode" := JStr "0000";
                                       "TransactionId" := JStr "T1" ]});
     sms_reply := Failed "unreachable";
     collected := false |}.

Definition paystack_world : world :=
  {| environ := {[ "PAYMENT_GATEWAY" := "paystack"; "PAYSTACK_SECRET_KEY" := "sk" ]};
     now := new_year_noon;
     payment_reply := Replied (JObj {[ "status" := JBool true;
                                       "data" := JObj {[ "id" := JInt 7 ]};
                                       "message" := JStr "Charge attempted" ]});
     sms_reply := Failed "unreachable";
     collected := false |}.

Definition sms_logged_world : world :=
  {| environ := {[ "PAYMENT_GATEWAY" := "simulation"; "SMS_PROVIDER" := "console" ]};
     now := new_year_noon;
     payment_reply := Failed "unreachable";
     sms_reply := Failed "unreachable";
     collected := false |}.

Definition admin_login_request : pydict :=
  {[ "username" := JStr "admin"; "password" := JStr "sda2025" ]}.

Definition hubtel_down_world : world :=
  {| environ := {[ "HUBTEL_MERCHANT_ID" := "M1"; "HUBTEL_PAYMENT_API_KEY" := "key" ]};
     now := new_year_noon;
     payment_reply := Failed "connection refused";
     sms_reply := Failed "unreachable";
     collected := false |}.

Definition blank_state : state :=
  {| db := empty_database; storage := ∅; trace := []; write_lock := Unlocked |}.

Definition seeded_admin_row : admin :=
  {| a_id := 1; a_username := "admin"; a_password_hash := "plain$sda2025";
     a_role := "Administrator"; a_email := Some "admin@sefwihumjibresda.org" |}.

Definition mixed_batch : upload_request := photo_batch [png_ok; service_exe].

(** One second after [simulation_world]. *)
Definition a_second_later : world :=
  {| environ := {[ "PAYMENT_GATEWAY" := "simulation" ]};
     now := {| dt_year := 2025; dt_month := 1; dt_day := 1;
               dt_hour := 12; dt_minute := 0; dt_second := 1 |};
     payment_reply := Failed "unreachable";
     sms_reply := Failed "unreachable";
     collected := false |}.

(** The state after Ama's donation was sent twice within one second:
    the second INSERT was refused and its connection left open. *)
Definition locked_state : state :=
  snd (process_donation (rt := sample_runtime) simulation_world ama_request once_donated).

(** * Properties *)

(** ** The extension check *)

Section AllowedFile.

Lemma rsplit1_scan_none sep s :
  Py.contains sep s = false → Py.rsplit1_scan sep s = (None, s).
Proof.
  induction s as [|c r IH]; simpl; [reflexivity|].
  intros H. apply orb_false_iff in H as [Hc Hr].
  rewrite (IH Hr), Hc. reflexivity.
Qed.

Lemma rsplit1_scan_last sep p e :
  Py.contains sep e = false →
  Py.rsplit1_scan sep (p ++ String sep e) = (Some (p, e), EmptyString).
Proof.
  intros He. induction p as [|c p IH]; simpl.
  - rewrite (rsplit1_scan_none _ _ He), Ascii.eqb_refl. reflexivity.
  - rewrite IH. reflexivity.
Qed.

Lemma rsplit1_scan_whole sep s rest :
  Py.rsplit1_scan sep s = (None, rest) →
  Py.contains sep s = false ∧ rest = s.
Proof.
  revert rest. induction s as [|d s IHs]; simpl; intros rest E.
  - injection E as <-. split; reflexivity.
  - destruct (Py.rsplit1_scan sep s) as [[[b' a']|] rest'] eqn:E'; [discriminate|].
    destruct (Ascii.eqb d sep) eqn:Ed; [discriminate|].
    injection E as <-. destruct (IHs _ eq_refl) as [Hc ->].
    split; [exact Hc | reflexivity].
Qed.

Lemma rsplit1_scan_some sep s b a r :
  Py.rsplit1_scan sep s = (Some (b, a), r) →
  s = b ++ String sep a ∧ Py.contains sep a = false.
Proof.
  revert b a r. induction s as [|c s IH]; simpl; intros b a r H; [discriminate|].
  destruct (Py.rsplit1_scan sep s) as [[[b' a']|] rest] eqn:E.
  - injection H as <- <- <-. destruct (IH _ _ _ eq_refl) as [-> Ha].
    split; [reflexivity | exact Ha].
  - destruct (Ascii.eqb c sep) eqn:Ec; [|discriminate].
    injection H as <- <- <-. apply Ascii.eqb_eq in Ec as ->.
    destruct (rsplit1_scan_whole _ _ _ E) as [Hc ->].
    split; [reflexivity | exact Hc].
Qed.

(** The index [[1]] of [allowed_file] is in range whenever the left
    conjunct holds. *)
Lemma allowed_file_index_in_range filename :
  Py.contains "." filename = true →
  is_Some (Py.rsplit1 "." filename !! 1%nat).
Proof.
  intros H. unfold Py.rsplit1.
  destruct (Py.rsplit1_scan "." filename) as [[[b a]|] rest] eqn:E.
  - exists a. reflexivity.
  - destruct (rsplit1_scan_whole _ _ _ E) as [Hc _]. congruence.
Qed.

(** C8: [allowed_file] accepts a name exactly when it contains a dot and
    the lower-cased text after the final dot is in the allow-list; the
    name "photo" is rejected and "photo.PNG" is accepted for images. *)
Theorem allowed_file_iff_suffix filename (allowed_extensions : gset string) :
  (allowed_file filename allowed_extensions = true ↔
     Py.contains "." filename = true ∧
     has_allowed_suffix filename allowed_extensions)
  ∧ allowed_file "photo" ALLOWED_IMAGES = false
  ∧ allowed_file "photo.PNG" ALLOWED_IMAGES = true.
Proof.
  split; [|split; vm_compute; reflexivity].
  unfold allowed_file, has_allowed_suffix, Py.rsplit1. split.
  - intros H. apply andb_true_iff in H as [Hdot H]. split; [exact Hdot|].
    destruct (Py.rsplit1_scan "." filename) as [[[b a]|] rest] eqn:E;
      simpl in H; [|discriminate].
    apply bool_decide_eq_true in H.
    destruct (rsplit1_scan_some _ _ _ _ _ E) as [-> Ha].
    exists b, a. auto.
  - intros [Hdot (stem & ext & -> & Hext & Hin)].
    rewrite Hdot, (rsplit1_scan_last _ _ _ Hext). simpl.
    apply bool_decide_eq_true. exact Hin.
Qed.

Lemma lower_char_idempotent c : Py.lower_char (Py.lower_char c) = Py.lower_char c.
Proof. destruct c as [[] [] [] [] [] [] [] []]; vm_compute; reflexivity. Qed.

(** Lower-casing is idempotent: the check cannot tell "PNG" from "png". *)
Lemma lower_idempotent s : Py.lower (Py.lower s) = Py.lower s.
Proof.
  induction s as [|c s IH]; simpl; [reflexivity|].
  rewrite lower_char_idempotent, IH. reflexivity.
Qed.

End AllowedFile.

(** ** The reference format *)

Section Reference.

Lemma digit_is_digit n : Py.is_digit (Py.digit n) = true.
Proof.
  unfold Py.digit.
  assert (H : (n mod 10 < 10)%N) by (apply N.mod_lt; discriminate).
  remember (n mod 10)%N as k eqn:Ek. clear Ek.
  rewrite <- (N2Nat.id k). assert (Hm : (N.to_nat k < 10)%nat) by lia.
  generalize dependent (N.to_nat k). clear. intros m Hm.
  do 10 (destruct m as [|m]; [vm_compute; reflexivity|]). lia.
Qed.

Lemma digits_only_app a b :
  digits_only (a ++ b) = digits_only a && digits_only b.
Proof.
  unfold digits_only. induction a as [|c a IH]; simpl; [reflexivity|].
  rewrite IH. apply andb_assoc.
Qed.

Lemma string_length_app (a b : string) :
  String.length (a ++ b) = (String.length a + String.length b)%nat.
Proof. induction a as [|c a IH]; simpl; [reflexivity | rewrite IH; reflexivity]. Qed.

Lemma two_digits_ok n :
  String.length (Py.two_digits n) = 2%nat ∧ digits_only (Py.two_digits n) = true.
Proof.
  split; [reflexivity|]. unfold digits_only, Py.two_digits. simpl.
  rewrite !digit_is_digit. reflexivity.
Qed.

Lemma four_digit_years_checked :
  forallb (λ i, year_ok (1000 + N.of_nat i)) (seq 0 (90 * 100)) = true.
Proof. vm_compute. reflexivity. Qed.

Lemma decimal_year_ok y :
  (1000 <= y <= 9999)%N →
  String.length (Py.decimal y) = 4%nat ∧ digits_only (Py.decimal y) = true.
Proof.
  intros Hy.
  assert (Hin : In (N.to_nat (y - 1000)) (seq 0 (90 * 100))) by (apply in_seq; lia).
  apply (proj1 (forallb_forall _ _) four_digit_years_checked) in Hin.
  replace (1000 + N.of_nat (N.to_nat (y - 1000)))%N with y in Hin by lia.
  apply andb_true_iff in Hin as [Hl Hd].
  apply Nat.eqb_eq in Hl. auto.
Qed.

Lemma strftime_compact_ok t :
  valid_datetime t →
  String.length (strftime_compact t) = 14%nat ∧
  digits_only (strftime_compact t) = true.
Proof.
  intros (Hy & _). destruct (decimal_year_ok _ Hy) as [Hl Hd].
  unfold strftime_compact, strftime_date, strftime_time.
  rewrite !string_length_app, !digits_only_app, Hl, Hd.
  rewrite !(proj2 (two_digits_ok _)). split; reflexivity.
Qed.

Lemma new_reference_format w :
  valid_datetime (now w) → is_reference (new_reference w) = true.
Proof.
  intros Hv. destruct (strftime_compact_ok _ Hv) as [Hl Hd].
  unfold new_reference. revert Hl Hd.
  generalize (strftime_compact (now w)). intros stamp Hl Hd.
  change (is_reference (String "S" (String "D" (String "A" stamp))) = true).
  simpl. rewrite Hl, Hd. reflexivity.
Qed.

End Reference.

(** ** The gateways *)

Section Gateway.

Context {rt : Runtime} (w : world).

Lemma with_trace_nil s : with_trace s (trace s ++ []) = s.
Proof. destruct s. unfold with_trace. simpl. rewrite app_nil_r. reflexivity. Qed.

Lemma with_trace_db s t : db (with_trace s t) = db s.
Proof. reflexivity. Qed.

Lemma local_error_lookup msg :
  local_error msg !! "status" = Some (JStr "error") ∧
  local_error msg !! "message" = Some (JStr msg) ∧
  local_error msg !! "reference" = None ∧
  local_error msg !! "transaction_id" = None.
Proof. repeat split; vm_compute; reflexivity. Qed.

Lemma answered_lookup reference success transaction_id message :
  answered reference success transaction_id message !! "status"
    = Some (JStr (if success then "success" else "error")) ∧
  answered reference success transaction_id message !! "message" = Some message ∧
  answered reference success transaction_id message !! "reference"
    = Some (JStr reference) ∧
  answered reference success transaction_id message !! "transaction_id"
    = Some transaction_id.
Proof. repeat split; vm_compute; reflexivity. Qed.

Ltac raised_quiet :=
  eexists (Raised _), []; split;
  [ symmetry; rewrite with_trace_nil; reflexivity
  | split; [left; reflexivity | exact I] ].

Ltac raised_after_request :=
  eexists (Raised _), [_]; split;
  [ reflexivity | split; [right; eexists; reflexivity | exact I] ].

Lemma process_hubtel_payment_spec provider phone amount purpose donor reference s :
  ∃ o evs,
    process_hubtel_payment w provider phone amount purpose donor reference s
      = (o, with_trace s (trace s ++ evs))
    ∧ payment_events reference evs
    ∧ match o with
      | Returned pr => payment_shape reference pr
      | Raised _ => True
      end.
Proof.
  unfold process_hubtel_payment, payment_events.
  destruct (negb _).
  - eexists (Returned _), []. monad. split; [|split].
    + rewrite with_trace_nil. reflexivity.
    + left; reflexivity.
    + apply shape_local_error.
  - monad. destruct provider; simpl; try raised_quiet.
    destruct (payment_reply w) as [reply_body|msg]; simpl; [|raised_after_request].
    destruct reply_body; simpl; try raised_after_request.
    eexists (Returned _), [_]. split; [reflexivity|].
    split; [right; eexists; reflexivity|].
    destruct (Py.eq_str _ _);
      [apply (shape_answered _ true) | apply (shape_answered _ false)].
Qed.

Lemma int_of_float_state amount x s :
  int_of_float amount x s
  = (match x with
     | S754_nan => Raised (ValueError "cannot convert float NaN to integer")
     | S754_infinity _ => Raised (OverflowError amount)
     | _ => Returned tt
     end, s).
Proof. destruct x; reflexivity. Qed.

Lemma amount_in_pesewas_state amount s :
  ∃ o, amount_in_pesewas amount s = (o, s).
Proof.
  unfold amount_in_pesewas.
  destruct amount as [|b|z|x|t|items|fields]; monad; eauto.
  - destruct (Py.float_of_int z); rewrite ?int_of_float_state; eauto.
  - rewrite int_of_float_state; eauto.
  - destruct (float_parses t); eauto.
Qed.

Lemma amount_in_pesewas_converts amount s :
  amount_in_pesewas amount s
  = (if amount_converts amount then Returned tt
     else match fst (amount_in_pesewas amount s) with
          | Raised e => Raised e
          | Returned _ => Raised (TypeError amount)
          end, s).
Proof.
  unfold amount_in_pesewas, amount_converts, pesewas_finite.
  destruct amount as [|b|z|x|t|items|fields]; monad; try reflexivity.
  - destruct (Py.float_of_int z); rewrite ?int_of_float_state; try reflexivity;
      destruct (Py.float_mul _ _); reflexivity.
  - rewrite int_of_float_state. destruct (Py.float_mul _ _); reflexivity.
  - destruct (float_parses t); reflexivity.
Qed.

Lemma amount_converts_run amount s :
  amount_converts amount = true → amount_in_pesewas amount s = (Returned tt, s).
Proof. intros H. rewrite amount_in_pesewas_converts, H. reflexivity. Qed.

Lemma amount_refused_run amount s :
  amount_converts amount = false → ∃ e, amount_in_pesewas amount s = (Raised e, s).
Proof.
  intros H. rewrite amount_in_pesewas_converts, H.
  destruct (fst _); eauto.
Qed.

Lemma process_paystack_payment_spec provider phone amount purpose donor reference s :
  ∃ o evs,
    process_paystack_payment w provider phone amount purpose donor reference s
      = (o, with_trace s (trace s ++ evs))
    ∧ payment_events reference evs
    ∧ match o with
      | Returned pr => payment_shape reference pr
      | Raised _ => True
      end.
Proof.
  unfold process_paystack_payment, payment_events.
  destruct (negb _).
  - eexists (Returned _), []. monad. split; [|split].
    + rewrite with_trace_nil. reflexivity.
    + left; reflexivity.
    + apply shape_local_error.
  - unfold bind at 1.
    destruct (amount_in_pesewas_state amount s) as [[[]|e] ->]; [|raised_quiet].
    monad. destruct provider; simpl; try raised_quiet.
    destruct (payment_reply w) as [reply_body|msg]; simpl; [|raised_after_request].
    destruct reply_body; simpl; try raised_after_request.
    destruct (Py.get_or fields "data" (JObj ∅)); simpl; try raised_after_request.
    eexists (Returned _), [_]. split; [reflexivity|].
    split; [right; eexists; reflexivity|].
    destruct (Py.truthy _);
      [apply (shape_answered _ true) | apply (shape_answered _ false)].
Qed.

Lemma simulation_result_answered reference :
  ({[ "status" := JStr "success";
      "reference" := JStr reference;
      "message" := JStr "Payment processed (simulation mode)";
      "transaction_id" := JStr ("TEST_" ++ reference) ]} : pydict)
  = answered reference true (JStr ("TEST_" ++ reference))
      (JStr "Payment processed (simulation mode)").
Proof. unfold answered. vm_compute. reflexivity. Qed.

(** [process_mobile_money] never raises, touches nothing but the trace,
    sends at most one request, which carries the reference, and
    returns one of the two shapes. *)
Lemma process_mobile_money_spec provider phone amount purpose donor s :
  ∃ pr evs,
    process_mobile_money w provider phone amount purpose donor s
      = (Returned pr, with_trace s (trace s ++ evs))
    ∧ payment_events (new_reference w) evs
    ∧ payment_shape (new_reference w) pr.
Proof.
  unfold process_mobile_money, try_except.
  destruct (String.eqb _ "hubtel").
  - destruct (process_hubtel_payment_spec provider phone amount purpose donor
                (new_reference w) s) as ([pr|e] & evs & -> & Hev & Hshape).
    + exists pr, evs. auto.
    + eexists _, evs. split; [reflexivity|]. split; [exact Hev|].
      apply shape_local_error.
  - destruct (String.eqb _ "paystack").
    + destruct (process_paystack_payment_spec provider phone amount purpose donor
                  (new_reference w) s) as ([pr|e] & evs & -> & Hev & Hshape).
      * exists pr, evs. auto.
      * eexists _, evs. split; [reflexivity|]. split; [exact Hev|].
        apply shape_local_error.
    + eexists _, []. unfold ret. split; [rewrite with_trace_nil; reflexivity|].
      split; [left; reflexivity|].
      rewrite simulation_result_answered. apply (shape_answered _ true).
Qed.

(** [send_sms] never raises and touches nothing but the trace. *)
Lemma send_sms_spec phone message s :
  ∃ v evs,
    send_sms w phone message s = (Returned v, with_trace s (trace s ++ evs))
    ∧ sms_events message evs
    ∧ ((∀ reply_body, sms_reply w = Replied reply_body → is_object reply_body = true) →
       is_object v = true).
Proof.
  unfold send_sms, try_except, sms_events.
  assert (Hquiet : ∀ d : pydict, ∃ v evs,
             (Returned (JObj d), s) = (Returned v, with_trace s (trace s ++ evs))
             ∧ (evs = [] ∨ ∃ url, evs = [EvSmsRequest url message])
             ∧ ((∀ reply_body, sms_reply w = Replied reply_body →
                               is_object reply_body = true) → is_object v = true)).
  { intros d. exists (JObj d), []. rewrite with_trace_nil. auto. }
  assert (Hsent : ∀ url, ∃ v evs,
             match http (EvSmsRequest url message) (sms_reply w) s with
             | (Returned a, s') => (Returned a, s')
             | (Raised e, s') =>
                 ret (JObj {[ "status" := JStr "error";
                              "message" := JStr (str_exc e) ]}) s'
             end = (Returned v, with_trace s (trace s ++ evs))
             ∧ (evs = [] ∨ ∃ url, evs = [EvSmsRequest url message])
             ∧ ((∀ reply_body, sms_reply w = Replied reply_body →
                               is_object reply_body = true) → is_object v = true)).
  { intros url. monad. destruct (sms_reply w) as [reply_body|msg]; simpl.
    - exists reply_body, [EvSmsRequest url message].
      split; [reflexivity|]. split; [right; eexists; reflexivity|].
      intros H. apply H. reflexivity.
    - eexists _, [EvSmsRequest url message].
      split; [reflexivity|]. split; [right; eexists; reflexivity|].
      intros _. reflexivity. }
  destruct (String.eqb _ "hubtel").
  - unfold send_sms_hubtel. destruct (_ || _); [apply Hquiet | apply Hsent].
  - destruct (String.eqb _ "mnotify").
    + unfold send_sms_mnotify. destruct (negb _); [apply Hquiet | apply Hsent].
    + apply Hquiet.
Qed.

Ltac reduce_guard :=
  cbn [andb negb orb is_text hubtel_answer_usable paystack_answer_usable is_object].

(** C4 (amended): whichever gateway is selected, [process_mobile_money]
    mints the reference 'SDA' + 14-digit timestamp before any provider
    call (the one request it may send carries it) and never raises.
    The result carries the reference exactly when the simulation ran or
    the selected provider was called and its answer read to the end: it
    is then the four-key result, with status 'success' and transaction
    id 'TEST_' + reference and no request in simulation mode, and after
    exactly one request otherwise.  In every other case (credentials
    missing, or an exception caught) the result has status 'error' and
    a message only; with credentials missing the message is 'Payment
    gateway not configured' and nothing is sent. *)
Theorem reference_in_answered_payment_results provider phone amount purpose donor s :
  valid_datetime (now w) →
  is_reference (new_reference w) = true
  ∧ ∃ pr evs,
      process_mobile_money w provider phone amount purpose donor s
        = (Returned pr, with_trace s (trace s ++ evs))
      ∧ payment_events (new_reference w) evs
      ∧ if answer_processed w provider amount then
          ∃ success transaction_id message,
            pr = answered (new_reference w) success transaction_id message
            ∧ pr !! "status" = Some (JStr (if success then "success" else "error"))
            ∧ pr !! "reference" = Some (JStr (new_reference w))
            ∧ (if simulation_mode w
               then success = true
                    ∧ transaction_id = JStr ("TEST_" ++ new_reference w)
                    ∧ evs = []
               else ∃ url, evs = [EvPaymentRequest url (new_reference w)])
        else
          ∃ msg,
            pr = local_error msg
            ∧ pr !! "status" = Some (JStr "error")
            ∧ pr !! "reference" = None
            ∧ (gateway_unconfigured w = true →
               msg = "Payment gateway not configured" ∧ evs = []).
Proof.
  intros Hnow. split; [apply new_reference_format; exact Hnow|].
  assert (Hquiet : ∀ msg,
            (Returned (local_error msg), s)
            = (Returned (local_error msg), with_trace s (trace s ++ []))).
  { intros msg. rewrite with_trace_nil. reflexivity. }
  assert (Herr : ∀ msg, local_error msg !! "status" = Some (JStr "error")
                        ∧ local_error msg !! "reference" = None).
  { intros msg. destruct (local_error_lookup msg) as (? & _ & ? & _). auto. }
  assert (Hans : ∀ success transaction_id message,
            answered (new_reference w) success transaction_id message !! "status"
              = Some (JStr (if success then "success" else "error"))
            ∧ answered (new_reference w) success transaction_id message !! "reference"
              = Some (JStr (new_reference w))).
  { intros success transaction_id message.
    destruct (answered_lookup (new_reference w) success transaction_id message)
      as (? & _ & ? & _). auto. }
  unfold answer_processed, simulation_mode, gateway_unconfigured, payment_gateway,
    hubtel_credentials, paystack_credentials, process_mobile_money, try_except.
  destruct (String.eqb (getenv_or w "PAYMENT_GATEWAY" "hubtel") "hubtel") eqn:Hh.
  - unfold process_hubtel_payment.
    destruct (Py.env_truthy (getenv w "HUBTEL_MERCHANT_ID")
              && Py.env_truthy (getenv w "HUBTEL_PAYMENT_API_KEY")) eqn:Hc.
    + change (negb true) with false. cbv beta iota.
      destruct provider as [|b|z|x|channel|items|fields];
        try (eexists (local_error _), []; split; [apply Hquiet|];
             split; [left; reflexivity|]; reduce_guard;
             eexists; split; [reflexivity|]; split; [apply Herr|];
             split; [apply Herr|]; discriminate).
      monad. reduce_guard.
      destruct (payment_reply w) as [reply_body|failure].
      * destruct reply_body as [|b|z|x|t|items|answer];
          try (eexists (local_error _), [_]; split; [reflexivity|];
               split; [right; eexists; reflexivity|]; reduce_guard;
               eexists; split; [reflexivity|]; split; [apply Herr|];
               split; [apply Herr|]; discriminate).
        eexists _, [_]. split; [reflexivity|].
        split; [right; eexists; reflexivity|]. reduce_guard.
        eexists (Py.eq_str (Py.get answer "ResponseCode") "0000"), _, _.
        split; [unfold answered; destruct (Py.eq_str _ _); reflexivity|].
        split; [apply Hans|]. split; [apply Hans|]. eexists. reflexivity.
      * eexists (local_error _), [_]. split; [reflexivity|].
        split; [right; eexists; reflexivity|]. reduce_guard.
        eexists. split; [reflexivity|]. split; [apply Herr|].
        split; [apply Herr|]. discriminate.
    + eexists (local_error _), []. split; [apply Hquiet|].
      split; [left; reflexivity|]. reduce_guard.
      eexists. split; [reflexivity|]. split; [apply Herr|].
      split; [apply Herr|]. intros _. split; reflexivity.
  - destruct (String.eqb (getenv_or w "PAYMENT_GATEWAY" "hubtel") "paystack") eqn:Hp.
    + unfold process_paystack_payment.
      destruct (Py.env_truthy (getenv w "PAYSTACK_SECRET_KEY")) eqn:Hc.
      * change (negb true) with false. cbv beta iota.
        unfold bind at 1. destruct (amount_converts amount) eqn:Ha;
          [rewrite (amount_converts_run _ _ Ha)
          |destruct (amount_refused_run amount s Ha) as [e ->]].
        2: { eexists (local_error _), []. split; [apply Hquiet|].
             split; [left; reflexivity|]. reduce_guard.
             eexists. split; [reflexivity|]. split; [apply Herr|].
             split; [apply Herr|]. discriminate. }
        destruct provider as [|b|z|x|channel|items|fields];
          try (eexists (local_error _), []; split; [apply Hquiet|];
               split; [left; reflexivity|]; reduce_guard;
               eexists; split; [reflexivity|]; split; [apply Herr|];
               split; [apply Herr|]; discriminate).
        monad. monad. cbv beta iota zeta. reduce_guard.
        destruct (payment_reply w) as [reply_body|failure].
        -- destruct reply_body as [|b|z|x|t|items|answer];
             try (eexists (local_error _), [_]; split; [reflexivity|];
                  split; [right; eexists; reflexivity|]; reduce_guard;
                  eexists; split; [reflexivity|]; split; [apply Herr|];
                  split; [apply Herr|]; discriminate).
           cbv beta iota zeta. reduce_guard.
           destruct (Py.get_or answer "data" (JObj ∅)) as [|b|z|x|t|items|data];
             try (eexists (local_error _), [_]; split; [reflexivity|];
                  split; [right; eexists; reflexivity|]; reduce_guard;
                  eexists; split; [reflexivity|]; split; [apply Herr|];
                  split; [apply Herr|]; discriminate).
           eexists _, [_]. split; [reflexivity|].
           split; [right; eexists; reflexivity|]. reduce_guard.
           eexists (Py.truthy (Py.get answer "status")), _, _.
           split; [unfold answered; destruct (Py.truthy _); reflexivity|].
           split; [apply Hans|]. split; [apply Hans|]. eexists. reflexivity.
        -- eexists (local_error _), [_]. split; [reflexivity|].
           split; [right; eexists; reflexivity|]. reduce_guard.
           eexists. split; [reflexivity|]. split; [apply Herr|].
           split; [apply Herr|]. discriminate.
      * eexists (local_error _), []. split; [apply Hquiet|].
        split; [left; reflexivity|]. reduce_guard.
        eexists. split; [reflexivity|]. split; [apply Herr|].
        split; [apply Herr|]. intros _. split; reflexivity.
    + eexists _, []. unfold ret. split; [rewrite with_trace_nil; reflexivity|].
      split; [left; reflexivity|]. reduce_guard.
      exists true, (JStr ("TEST_" ++ new_reference w)),
        (JStr "Payment processed (simulation mode)").
      rewrite simulation_result_answered.
      split; [reflexivity|]. split; [apply Hans|]. split; [apply Hans|].
      repeat split.
Qed.

End Gateway.

(** ** The donation endpoint *)

Section Donation.

Context {rt : Runtime} (w : world).

Lemma bind_param_state v s : ∃ o, bind_param v s = (o, s).
Proof.
  destruct v as [|b|z|x|t|items|fields]; simpl; monad; eauto.
  - destruct (_ && _); eauto.
  - destruct x; eauto.
Qed.

Lemma bind_param_bindable v s :
  bindable v = true → bind_param v s = (Returned (bound v), s).
Proof.
  destruct v as [|b|z|x|t|items|fields]; simpl; try discriminate; try reflexivity.
  - intros ->. reflexivity.
  - intros _. destruct x; reflexivity.
Qed.

Lemma bind_param_unbindable v s :
  bindable v = false → ∃ e, bind_param v s = (Raised e, s).
Proof.
  destruct v; simpl; try discriminate; monad; eauto.
  intros ->. eauto.
Qed.

Lemma not_null_state column v s : ∃ o, not_null column v s = (o, s).
Proof. destruct v; simpl; monad; eauto. Qed.

Lemma not_null_truthy column v s :
  Py.truthy v = true → bindable v = true → is_nan v = false →
  not_null column (bound v) s = (Returned tt, s).
Proof.
  destruct v as [|b|z|x|t|items|fields]; simpl; try discriminate; try reflexivity.
  destruct x; try discriminate; reflexivity.
Qed.

(** NaN is bound as NULL, which a NOT NULL column refuses. *)
Lemma not_null_nan column v s :
  is_nan v = true → ∃ e, not_null column (bound v) s = (Raised e, s).
Proof.
  destruct v as [|b|z|x|t|items|fields]; simpl; try discriminate.
  destruct x; try discriminate. unfold raise. eauto.
Qed.

Lemma begin_write_state s :
  begin_write s
  = if write_locked s then (Raised (OperationalError "database is locked"), s)
    else (Returned tt, with_lock s Writing).
Proof. reflexivity. Qed.

(** An INSERT into donations either raises, changing at most the write
    lock, or appends one row whose status is the default. *)
Lemma insert_donation_outcome conn name email phone amount purpose provider
    reference transaction_id s :
  ∃ o s',
    insert_donation conn name email phone amount purpose provider
      reference transaction_id s = (o, s')
    ∧ match o with
      | Raised _ => s' = s ∨ (write_locked s = false ∧ s' = with_lock s Writing)
      | Returned conn' =>
          ∃ d key,
            conn' = add_donation d conn
            ∧ write_locked s = false
            ∧ s' = with_lock (with_trace s (trace s ++ [EvInsert "donations" key])) Writing
            ∧ d_status d = SText "completed"
      end.
Proof.
  unfold insert_donation.
  repeat (unfold bind at 1;
          match goal with
          | |- context [bind_param ?v s] =>
              destruct (bind_param_state v s) as [[?|?] ->];
              [|eexists (Raised _), s; split; [reflexivity | left; reflexivity]]
          end).
  unfold bind at 1. rewrite begin_write_state.
  destruct (write_locked s) eqn:Hlock;
    [eexists (Raised _), s; split; [reflexivity | left; reflexivity]|].
  repeat (unfold bind at 1;
          match goal with
          | |- context [not_null ?c ?v (with_lock s Writing)] =>
              destruct (not_null_state c v (with_lock s Writing)) as [[[]|?] ->];
              [|eexists (Raised _), _; split; [reflexivity | right; split; reflexivity]]
          end).
  destruct (existsb _ _);
    [eexists (Raised _), _; split; [reflexivity | right; split; reflexivity]|].
  eexists (Returned _), _. split; [reflexivity|].
  eexists _, _. repeat split.
Qed.

(** The values of the INSERT the donation endpoint performs. *)
Lemma insert_donation_accepted (data : pydict) reference transaction_id s :
  Py.all (donation_fields data) = true →
  forallb bindable (Py.get data "donor_email" :: transaction_id :: donation_fields data)
    = true →
  forallb (λ v, negb (is_nan v)) (donation_fields data) = true →
  reference_stored reference s = false →
  write_locked s = false →
  insert_donation (db s) (Py.get data "donor_name") (Py.get data "donor_email")
    (Py.get data "donor_phone") (Py.get data "amount") (Py.get data "purpose")
    (Py.get data "provider") (JStr reference) transaction_id s
  = (Returned (add_donation (donation_row (db s) data reference transaction_id) (db s)),
     with_lock (with_trace s (trace s ++ [EvInsert "donations" reference])) Writing).
Proof.
  unfold Py.all, donation_fields. simpl forallb.
  intros Htruthy Hbind Hnan Hfresh Hlock.
  repeat (apply andb_true_iff in Htruthy as [? Htruthy]).
  repeat (apply andb_true_iff in Hbind as [? Hbind]).
  repeat (apply andb_true_iff in Hnan as [?%negb_true_iff Hnan]).
  unfold insert_donation.
  repeat (unfold bind at 1; rewrite bind_param_bindable by (assumption || reflexivity)).
  unfold bind at 1. rewrite begin_write_state, Hlock.
  repeat (unfold bind at 1; rewrite not_null_truthy by (assumption || reflexivity)).
  unfold reference_stored, donation_rows in Hfresh. simpl bound.
  change (text_affinity (SText reference)) with (SText reference).
  change (db (with_lock s Writing)) with (db s).
  rewrite Hfresh. monad. reflexivity.
Qed.

(** A value that cannot be bound: the statement raises before it takes
    the lock. *)
Lemma insert_donation_unbound (data : pydict) reference transaction_id s :
  forallb bindable (Py.get data "donor_email" :: transaction_id :: donation_fields data)
    = false →
  ∃ e, insert_donation (db s) (Py.get data "donor_name") (Py.get data "donor_email")
         (Py.get data "donor_phone") (Py.get data "amount") (Py.get data "purpose")
         (Py.get data "provider") (JStr reference) transaction_id s
       = (Raised e, s).
Proof.
  unfold donation_fields. simpl forallb. intros Hreject.
  unfold insert_donation.
  repeat (unfold bind at 1;
          match goal with
          | |- context [bind_param ?v s] =>
              destruct (bindable v) eqn:?;
              [ rewrite (bind_param_bindable v s) by (assumption || reflexivity)
              | destruct (bind_param_unbindable v s) as [? ->];
                [assumption | eauto] ]
          end).
  repeat match goal with
         | H : bindable _ = true |- _ => rewrite H in Hreject; clear H
         end.
  discriminate.
Qed.

(** The write lock is taken: 'database is locked'. *)
Lemma insert_donation_locked (data : pydict) reference transaction_id s :
  forallb bindable (Py.get data "donor_email" :: transaction_id :: donation_fields data)
    = true →
  write_locked s = true →
  insert_donation (db s) (Py.get data "donor_name") (Py.get data "donor_email")
    (Py.get data "donor_phone") (Py.get data "amount") (Py.get data "purpose")
    (Py.get data "provider") (JStr reference) transaction_id s
  = (Raised (OperationalError "database is locked"), s).
Proof.
  unfold donation_fields. simpl forallb. intros Hbind Hlock.
  repeat (apply andb_true_iff in Hbind as [? Hbind]).
  unfold insert_donation.
  repeat (unfold bind at 1; rewrite bind_param_bindable by (assumption || reflexivity)).
  unfold bind at 1. rewrite begin_write_state, Hlock. reflexivity.
Qed.

(** A constraint refuses the row (a required value is NaN, or the
    reference is stored already): the statement raises with the lock
    taken. *)
Lemma insert_donation_refused (data : pydict) reference transaction_id s :
  Py.all (donation_fields data) = true →
  forallb bindable (Py.get data "donor_email" :: transaction_id :: donation_fields data)
    = true →
  write_locked s = false →
  forallb (λ v, negb (is_nan v)) (donation_fields data)
    && negb (reference_stored reference s) = false →
  ∃ e, insert_donation (db s) (Py.get data "donor_name") (Py.get data "donor_email")
         (Py.get data "donor_phone") (Py.get data "amount") (Py.get data "purpose")
         (Py.get data "provider") (JStr reference) transaction_id s
       = (Raised e, with_lock s Writing).
Proof.
  unfold Py.all, donation_fields. simpl forallb.
  intros Htruthy Hbind Hlock Hreject.
  repeat (apply andb_true_iff in Htruthy as [? Htruthy]).
  repeat (apply andb_true_iff in Hbind as [? Hbind]).
  unfold insert_donation.
  repeat (unfold bind at 1; rewrite bind_param_bindable by (assumption || reflexivity)).
  unfold bind at 1. rewrite begin_write_state, Hlock.
  repeat (unfold bind at 1;
          match goal with
          | |- context [not_null ?c (bound ?v) ?st] =>
              destruct (is_nan v) eqn:?;
              [ destruct (not_null_nan c v st) as [? ->]; [assumption | eauto]
              | rewrite (not_null_truthy c v st) by (assumption || reflexivity) ]
          end).
  repeat match goal with
         | H : is_nan _ = false |- _ => rewrite H in Hreject; clear H
         end.
  simpl in Hreject. apply negb_false_iff in Hreject.
  unfold reference_stored, donation_rows in Hreject. simpl bound.
  change (text_affinity (SText reference)) with (SText reference).
  change (db (with_lock s Writing)) with (db s).
  unfold bind at 1. change (not_null _ (SText reference) _) with (Returned tt, with_lock s Writing).
  cbv beta iota.
  rewrite Hreject. unfold raise. eauto.
Qed.

Lemma process_donation_invalid data s :
  Py.all (donation_fields data) = false →
  process_donation w data s = (Returned missing_required_fields, s).
Proof.
  intros H. unfold process_donation. unfold donation_fields in H.
  rewrite H. reflexivity.
Qed.

(** What the handler does once the request is valid: the three ways it
    can end. *)
Lemma process_donation_run data s :
  Py.all (donation_fields data) = true →
  ∃ pr evs,
    process_mobile_money w (Py.get data "provider") (Py.get data "donor_phone")
      (Py.get data "amount") (Py.get data "purpose") (Py.get data "donor_name") s
    = (Returned pr, with_trace s (trace s ++ evs))
    ∧ payment_events (new_reference w) evs
    ∧ ((Py.eq_str (Py.get pr "status") "success" = false
        ∧ payment_shape (new_reference w) pr
        ∧ process_donation w data s
          = (Returned (payment_failed pr), with_trace s (trace s ++ evs)))
       ∨ (∃ transaction_id message o s2,
            pr = answered (new_reference w) true transaction_id message
            ∧ insert_donation (db s) (Py.get data "donor_name")
                (Py.get data "donor_email") (Py.get data "donor_phone")
                (Py.get data "amount") (Py.get data "purpose")
                (Py.get data "provider") (JStr (new_reference w)) transaction_id
                (with_trace s (trace s ++ evs)) = (o, s2)
            ∧ match o with
              | Raised _ =>
                  process_donation w data s
                  = (Returned processing_failed,
                     with_lock s2 (abandoned (write_lock s2)))
              | Returned conn' =>
                  ∃ v evs',
                    let s3 := committed s2 conn' (trace s2 ++ [EvCommit]) in
                    send_sms w (Py.get data "donor_phone")
                      (sms_text (Py.get data "donor_name") (Py.get data "amount")
                         (Py.get data "purpose") (JStr (new_reference w))) s3
                    = (Returned v, with_trace s3 (trace s3 ++ evs'))
                    ∧ ((∀ reply_body, sms_reply w = Replied reply_body →
                                      is_object reply_body = true) →
                       is_object v = true)
                    ∧ process_donation w data s
                      = (Returned
                           match v with
                           | JObj d =>
                               donation_processed (JStr (new_reference w))
                                 transaction_id
                                 (Py.eq_str (Py.get d "status") "success")
                           | _ => processing_failed
                           end,
                         with_trace s3 (trace s3 ++ evs'))
              end)).
Proof.
  intros Hvalid.
  destruct (process_mobile_money_spec w (Py.get data "provider")
              (Py.get data "donor_phone") (Py.get data "amount")
              (Py.get data "purpose") (Py.get data "donor_name") s)
    as (pr & evs & Hpay & Hev & Hshape).
  exists pr, evs. split; [exact Hpay|]. split; [exact Hev|].
  remember (process_donation w data s) as result eqn:Hres.
  unfold process_donation in Hres. cbv zeta in Hres.
  unfold donation_fields in Hvalid. rewrite Hvalid in Hres.
  change (negb true) with false in Hres. cbv beta iota in Hres.
  unfold try_except in Hres. unfold bind at 1 in Hres. rewrite Hpay in Hres.
  destruct Hshape as [msg | success transaction_id message].
  - left. split; [reflexivity|]. split; [apply shape_local_error|].
    destruct (local_error_lookup msg) as (Hst & Hm & _).
    unfold bind at 1 in Hres. unfold py_item at 1 in Hres.
    rewrite Hst in Hres. unfold ret at 1 in Hres.
    change (Py.eq_str (JStr "error") "success") with false in Hres.
    cbv beta iota in Hres. unfold bind, py_item in Hres. rewrite Hm in Hres.
    unfold payment_failed, Py.get. rewrite Hm. exact Hres.
  - destruct (answered_lookup (new_reference w) success transaction_id message)
      as (Hst & Hm & Href & Htx).
    unfold bind at 1 in Hres. unfold py_item at 1 in Hres.
    rewrite Hst in Hres. unfold ret at 1 in Hres.
    destruct success;
      [ change (Py.eq_str (JStr "success") "success") with true in Hres
      | change (Py.eq_str (JStr "error") "success") with false in Hres ];
      cbv beta iota in Hres.
    + right.
      unfold bind at 1 in Hres. unfold py_item at 1 in Hres.
      rewrite Href in Hres. unfold ret at 1 in Hres.
      unfold bind at 1 in Hres. unfold get_db at 1 in Hres. cbv beta iota in Hres.
      unfold Py.get_or in Hres. rewrite Htx in Hres.
      change (default (JStr EmptyString) (Some transaction_id)) with transaction_id in Hres.
      rewrite with_trace_db in Hres.
      destruct (insert_donation_outcome (db s) (Py.get data "donor_name")
                  (Py.get data "donor_email") (Py.get data "donor_phone")
                  (Py.get data "amount") (Py.get data "purpose")
                  (Py.get data "provider") (JStr (new_reference w)) transaction_id
                  (with_trace s (trace s ++ evs)))
        as (o & s2 & Hins & Ho).
      exists transaction_id, message, o, s2.
      split; [reflexivity|]. split; [exact Hins|].
      unfold bind at 1 in Hres. rewrite Hins in Hres.
      destruct o as [conn'|e]; [|exact Hres].
      destruct Ho as (d & key & -> & Hlock & -> & Hd).
      unfold bind at 1 in Hres. unfold commit at 1 in Hres. cbv beta iota in Hres.
      unfold bind at 1 in Hres.
      match type of Hres with
      | context [send_sms w ?p ?m ?s3] =>
          destruct (send_sms_spec w p m s3) as (v & evs' & Hsms & _ & Hobj);
          rewrite Hsms in Hres
      end.
      exists v, evs'. split; [exact Hsms|]. split; [exact Hobj|].
      unfold bind, py_get, ret, raise, leave_open in Hres. rewrite Hres.
      destruct v; reflexivity.
    + left. split; [unfold Py.get; rewrite Hst; reflexivity|].
      split; [apply (shape_answered _ false)|].
      unfold bind, py_item in Hres. rewrite Hm in Hres.
      unfold payment_failed, Py.get. rewrite Hm. exact Hres.
Qed.

Lemma payment_attempt_valid data s pr s1 :
  Py.all (donation_fields data) = true →
  process_mobile_money w (Py.get data "provider") (Py.get data "donor_phone")
    (Py.get data "amount") (Py.get data "purpose") (Py.get data "donor_name") s
  = (Returned pr, s1) →
  payment_attempt w data s = Some pr.
Proof. intros Hv Hp. unfold payment_attempt. rewrite Hv, Hp. reflexivity. Qed.

Lemma answered_transaction_id reference success transaction_id message :
  Py.get_or (answered reference success transaction_id message) "transaction_id"
    (JStr EmptyString) = transaction_id.
Proof.
  unfold Py.get_or.
  destruct (answered_lookup reference success transaction_id message)
    as (_ & _ & _ & ->). reflexivity.
Qed.

Lemma answered_success reference transaction_id message :
  Py.eq_str (Py.get (answered reference true transaction_id message) "status")
    "success" = true.
Proof.
  unfold Py.get.
  destruct (answered_lookup reference true transaction_id message) as (-> & _).
  reflexivity.
Qed.


(** The gateway reported success and the store takes the row: the row
    is committed, the lock is free again, and the answer depends on the
    SMS result alone. *)
Lemma stored_donation_run data s :
  reported_success (payment_attempt w data s) = true →
  store_accepts w data s = true →
  ∃ pr pay_evs v sms_evs,
    let transaction_id := Py.get_or pr "transaction_id" (JStr EmptyString) in
    let s3 :=
      {| db := add_donation (donation_row (db s) data (new_reference w) transaction_id)
                 (db s);
         storage := storage s;
         trace := trace s ++ pay_evs ++ [EvInsert "donations" (new_reference w); EvCommit];
         write_lock := Unlocked |} in
    payment_attempt w data s = Some pr
    ∧ payment_events (new_reference w) pay_evs
    ∧ send_sms w (Py.get data "donor_phone")
        (sms_text (Py.get data "donor_name") (Py.get data "amount")
           (Py.get data "purpose") (JStr (new_reference w))) s3
      = (Returned v, with_trace s3 (trace s3 ++ sms_evs))
    ∧ sms_events (sms_text (Py.get data "donor_name") (Py.get data "amount")
                    (Py.get data "purpose") (JStr (new_reference w))) sms_evs
    ∧ ((∀ reply_body, sms_reply w = Replied reply_body → is_object reply_body = true) →
       is_object v = true)
    ∧ process_donation w data s
      = (Returned
           match v with
           | JObj d =>
               donation_processed (JStr (new_reference w)) transaction_id
                 (Py.eq_str (Py.get d "status") "success")
           | _ => processing_failed
           end,
         with_trace s3 (trace s3 ++ sms_evs)).
Proof.
  intros Hsucc Hacc.
  destruct (Py.all (donation_fields data)) eqn:Hvalid.
  2: { unfold payment_attempt in Hsucc. rewrite Hvalid in Hsucc. discriminate. }
  destruct (process_donation_run data s Hvalid)
    as (pr & evs & Hpay & Hev &
        [(Herr & Hshape & Hrun)
        |(transaction_id & message & o & s2 & -> & Hins & Ho)]);
    rewrite (payment_attempt_valid _ _ _ _ Hvalid Hpay) in Hsucc;
    simpl reported_success in Hsucc.
  { congruence. }
  unfold store_accepts, values_bindable in Hacc.
  rewrite (payment_attempt_valid _ _ _ _ Hvalid Hpay) in Hacc.
  simpl from_option in Hacc. rewrite answered_transaction_id in Hacc.
  apply andb_true_iff in Hacc as [Hacc Hlock]. apply negb_true_iff in Hlock.
  apply andb_true_iff in Hacc as [Hacc Hfresh]. apply negb_true_iff in Hfresh.
  apply andb_true_iff in Hacc as [Hbind Hnan].
  pose proof (insert_donation_accepted data (new_reference w) transaction_id
                (with_trace s (trace s ++ evs)) Hvalid Hbind Hnan Hfresh Hlock) as Hok.
  rewrite with_trace_db in Hok. rewrite Hok in Hins. injection Hins as <- <-.
  destruct Ho as (v & evs' & Hsms & Hv & Hrun).
  cbv zeta in Hsms, Hrun.
  exists (answered (new_reference w) true transaction_id message), evs, v, evs'.
  cbv zeta. rewrite answered_transaction_id.
  match type of Hsms with
  | send_sms _ _ _ ?st = _ =>
      assert (Hs3 : st
                = {| db := add_donation
                             (donation_row (db s) data (new_reference w) transaction_id)
                             (db s);
                     storage := storage s;
                     trace := trace s ++ evs
                              ++ [EvInsert "donations" (new_reference w); EvCommit];
                     write_lock := Unlocked |})
  end.
  { unfold committed, with_lock, with_trace. simpl. f_equal.
    rewrite <- !app_assoc. reflexivity. }
  rewrite Hs3 in Hsms, Hrun.
  split; [exact (payment_attempt_valid _ _ _ _ Hvalid Hpay)|].
  split; [exact Hev|]. split; [exact Hsms|].
  split.
  { destruct (send_sms_spec w (Py.get data "donor_phone")
                (sms_text (Py.get data "donor_name") (Py.get data "amount")
                   (Py.get data "purpose") (JStr (new_reference w)))
                {| db := add_donation
                           (donation_row (db s) data (new_reference w) transaction_id)
                           (db s);
                   storage := storage s;
                   trace := trace s ++ evs
                            ++ [EvInsert "donations" (new_reference w); EvCommit];
                   write_lock := Unlocked |})
      as (v' & evs'' & Hsms' & Hsev & _).
    rewrite Hsms in Hsms'. injection Hsms' as _ Hevs.
    unfold with_trace in Hevs. simpl in Hevs.
    apply app_inv_head in Hevs. subst evs''. exact Hsev. }
  split; [exact Hv | exact Hrun].
Qed.

(** The gateway reported success and the store refuses the row: the
    answer is 500 and nothing but the trace of the payment and the
    write lock changes.  When the values were bound, the connection
    left open holds the lock (its INSERT had taken it, or found it
    taken). *)
Lemma refused_donation_run data s :
  reported_success (payment_attempt w data s) = true →
  store_accepts w data s = false →
  ∃ pay_evs,
    payment_events (new_reference w) pay_evs
    ∧ process_donation w data s
      = (Returned processing_failed,
         with_lock (with_trace s (trace s ++ pay_evs))
           (if values_bindable w data s then Abandoned
            else abandoned (write_lock s))).
Proof.
  intros Hsucc Hacc.
  destruct (Py.all (donation_fields data)) eqn:Hvalid.
  2: { unfold payment_attempt in Hsucc. rewrite Hvalid in Hsucc. discriminate. }
  destruct (process_donation_run data s Hvalid)
    as (pr & evs & Hpay & Hev &
        [(Herr & Hshape & Hrun)
        |(transaction_id & message & o & s2 & -> & Hins & Ho)]);
    rewrite (payment_attempt_valid _ _ _ _ Hvalid Hpay) in Hsucc;
    simpl reported_success in Hsucc.
  { congruence. }
  unfold store_accepts, values_bindable in *.
  rewrite (payment_attempt_valid _ _ _ _ Hvalid Hpay) in *.
  simpl from_option in *. rewrite answered_transaction_id in *.
  exists evs. split; [exact Hev|].
  destruct (forallb bindable
              (Py.get data "donor_email" :: transaction_id :: donation_fields data))
    eqn:Hbind.
  - destruct (write_locked s) eqn:Hlock.
    + pose proof (insert_donation_locked data (new_reference w) transaction_id
                    (with_trace s (trace s ++ evs)) Hbind Hlock) as Hno.
      rewrite with_trace_db in Hno. rewrite Hno in Hins. injection Hins as <- <-.
      rewrite Ho. unfold write_locked in Hlock. unfold with_lock, with_trace. simpl.
      destruct (write_lock s); try discriminate. reflexivity.
    + rewrite andb_true_l, andb_true_r in Hacc.
      destruct (insert_donation_refused data (new_reference w) transaction_id
                  (with_trace s (trace s ++ evs)) Hvalid Hbind Hlock Hacc) as [e Hno].
      rewrite with_trace_db in Hno. rewrite Hno in Hins. injection Hins as <- <-.
      rewrite Ho. reflexivity.
  - destruct (insert_donation_unbound data (new_reference w) transaction_id
                (with_trace s (trace s ++ evs)) Hbind) as [e Hno].
    rewrite with_trace_db in Hno. rewrite Hno in Hins. injection Hins as <- <-.
    rewrite Ho. reflexivity.
Qed.


(** C10: a donation request in which a required field is falsy is
    answered 400 'Missing required fields', and the state (database,
    storage and the trace of outbound calls) is left as it was. *)
Theorem falsy_required_field_rejected data s field :
  In field required_fields →
  Py.truthy (Py.get data field) = false →
  process_donation w data s = (Returned missing_required_fields, s)
  ∧ status_code missing_required_fields = 400
  ∧ body missing_required_fields
    = JObj {[ "error" := JStr "Missing required fields" ]}.
Proof.
  intros Hin Hfalsy. split; [|split; reflexivity].
  apply process_donation_invalid.
  unfold Py.all, donation_fields. simpl forallb.
  unfold required_fields in Hin. simpl in Hin.
  destruct Hin as [<-|[<-|[<-|[<-|[<-|[]]]]]]; rewrite Hfalsy;
    rewrite ?andb_false_r; reflexivity.
Qed.



End Donation.

(** ** The upload endpoints *)

Section Upload.

Context {rt : Runtime} (w : world).

Lemma media_table_set k t conn : media_table k (set_media_table k t conn) = t.
Proof. destruct k; reflexivity. Qed.

Lemma media_table_set_other k k' t conn :
  k' ≠ k → media_table k' (set_media_table k t conn) = media_table k' conn.
Proof. destruct k, k'; intros H; try reflexivity; congruence. Qed.

Lemma donations_set_media k t conn : donations (set_media_table k t conn) = donations conn.
Proof. destruct k; reflexivity. Qed.

Lemma admins_set_media k t conn : admins (set_media_table k t conn) = admins conn.
Proof. destruct k; reflexivity. Qed.

Lemma saved_before_insert_nil k : saved_before_insert w k [].
Proof. intros [|e before] filename after H; discriminate. Qed.

Lemma saved_before_insert_step k filename evs :
  saved_before_insert w k evs →
  saved_before_insert w k
    (EvSave (stored_path w k filename) :: EvInsert (field_name k) filename :: evs).
Proof.
  intros H before filename' after Heq.
  destruct before as [|e1 [|e2 before]]; simpl in Heq.
  - discriminate.
  - injection Heq as <- <- _. apply list_elem_of_here.
  - injection Heq as <- <- Heq.
    do 2 apply list_elem_of_further. eapply H. exact Heq.
Qed.


Lemma on_storage_insert p q content s t l :
  on_storage p s →
  on_storage p {| db := db s; storage := <[q := content]> (storage s); trace := t;
                  write_lock := l |}.
Proof.
  unfold on_storage. simpl. intros H.
  destruct (decide (q = p)) as [->|Hne].
  - rewrite lookup_insert_eq. eauto.
  - rewrite lookup_insert_ne by exact Hne. exact H.
Qed.





(** The loop over the files of a batch. *)
Lemma upload_loop_spec k columns uploaded_by pending :
  ∀ conn uploaded s,
  ∃ o s' evs,
    upload_loop w k columns uploaded_by pending conn uploaded s = (o, s')
    ∧ db s' = db s
    ∧ trace s' = (trace s ++ evs)%list
    ∧ saved_before_insert w k evs
    ∧ (∀ p, on_storage p s → on_storage p s')
    ∧ match o with
      | Raised _ =>
          upload_stops k s pending = true
          ∧ abandoned (write_lock s')
            = (if write_locked s then Abandoned
               else if fails_after_insert k pending then Abandoned
               else abandoned (write_lock s))
      | Returned result =>
          upload_stops k s pending = false
          ∧ storage s' = written w k (List.filter (accepted k) pending) (storage s)
          ∧ write_lock s'
            = (if existsb (accepted k) pending then Writing else write_lock s)
          ∧ ∃ new_rows,
              rows (media_table k (fst result))
                = (rows (media_table k conn) ++ new_rows)%list
              ∧ m_filename <$> new_rows
                = stored_name <$> List.filter (accepted k) pending
              ∧ snd result = (uploaded ++ (m_filename <$> new_rows))%list
              ∧ donations (fst result) = donations conn
              ∧ admins (fst result) = admins conn
              ∧ (∀ k', k' ≠ k → media_table k' (fst result) = media_table k' conn)
      end.
Proof.
  induction pending as [|u rest IH]; intros conn uploaded s.
  - exists (Returned (conn, uploaded)), s, []. simpl.
    rewrite !app_nil_r. split; [reflexivity|]. split; [reflexivity|].
    split; [reflexivity|]. split; [apply saved_before_insert_nil|].
    split; [auto|]. unfold upload_stops. simpl. rewrite andb_false_r.
    split; [reflexivity|]. split; [reflexivity|]. split; [reflexivity|].
    exists []. rewrite !app_nil_r. repeat split; auto.
  - simpl upload_loop. unfold upload_stops, batch_fails.
    simpl existsb. simpl List.filter. simpl fails_after_insert.
    fold (batch_fails k rest).
    destruct (accepted k u) eqn:Hacc.
    2: { simpl. exact (IH conn uploaded s). }
    unfold bind at 1. unfold save.
    destruct (up_save_error u) as [msg|] eqn:Herr.
    + exists (Raised (OutsideError msg)), s, []. rewrite app_nil_r.
      split; [reflexivity|]. split; [reflexivity|]. split; [reflexivity|].
      split; [apply saved_before_insert_nil|]. split; [auto|].
      split; [reflexivity|].
      rewrite bool_decide_eq_true_2 by eauto. simpl.
      unfold write_locked. destruct (write_lock s); reflexivity.
    + rewrite bool_decide_eq_false_2 by (intros [? ?]; discriminate).
      unfold bind at 1. unfold insert_media. unfold bind at 1.
      rewrite begin_write_state.
      change (write_locked _) with (write_locked s).
      destruct (write_locked s) eqn:Hlock.
      * eexists (Raised _), _, [EvSave _].
        split; [reflexivity|]. split; [reflexivity|]. split; [reflexivity|].
        split.
        { intros [|e before] filename after Heq; [discriminate|].
          injection Heq as _ Heq. destruct before; discriminate. }
        split; [intros p Hp; apply on_storage_insert; exact Hp|].
        simpl. rewrite orb_true_r. split; [reflexivity|].
        unfold write_locked in Hlock. destruct (write_lock s); try discriminate.
        reflexivity.
      * monad. cbv beta iota. cbn [db storage trace write_lock with_lock].
        match goal with
        | |- context [upload_loop w k columns uploaded_by rest ?c ?ul ?st] =>
            destruct (IH c ul st)
              as (o & s' & evs & Hrun & Hdb & Htr & Hord & Hmono & Ho)
        end.
        exists o, s', (EvSave (stored_path w k (stored_name u))
                       :: EvInsert (field_name k) (stored_name u) :: evs).
        split; [exact Hrun|]. split; [exact Hdb|].
        split; [rewrite Htr; simpl; rewrite <- !app_assoc; reflexivity|].
        split; [apply saved_before_insert_step; exact Hord|].
        split; [intros p Hp; apply Hmono; apply on_storage_insert; exact Hp|].
        unfold upload_stops, write_locked in Ho. cbn [write_lock] in Ho.
        rewrite orb_false_r in Ho. simpl. rewrite orb_false_r.
        destruct o as [[conn' uploaded']|e].
        -- destruct Ho as (Hfail & Hst & Hlk & new_rows & Hrows & Hnames & Hup & Hd & Ha & Hk).
           split; [exact Hfail|]. split; [exact Hst|].
           split; [rewrite Hlk; destruct (existsb _ _); reflexivity|].
           simpl fst in *. simpl snd in *.
           rewrite media_table_set in Hrows. simpl rows in Hrows.
           eexists (_ :: new_rows).
           split; [rewrite Hrows, <- app_assoc; reflexivity|].
           split; [rewrite !fmap_cons, Hnames; reflexivity|].
           split; [rewrite Hup, <- app_assoc; reflexivity|].
           split; [rewrite Hd; apply donations_set_media|].
           split; [rewrite Ha; apply admins_set_media|].
           intros k' Hne. rewrite (Hk k' Hne). apply media_table_set_other. exact Hne.
        -- destruct Ho as (Hfail & Hlk). split; [exact Hfail|].
           rewrite Hfail. rewrite Hlk. destruct (fails_after_insert k rest); reflexivity.
Qed.

Lemma upload_loop_skips k columns uploaded_by pending conn uploaded s :
  Forall (λ u, accepted k u = false) pending →
  upload_loop w k columns uploaded_by pending conn uploaded s
  = (Returned (conn, uploaded), s).
Proof.
  induction 1 as [|u rest Hu _ IH]; simpl; [reflexivity|].
  rewrite Hu. exact IH.
Qed.

Lemma getlist_absent req field :
  existsb (λ '(key, _), String.eqb key field) (files req) = false →
  getlist req field = [].
Proof.
  unfold getlist. induction (files req) as [|[key u] rest IH]; simpl; [reflexivity|].
  intros H. apply orb_false_iff in H as [-> H]. apply IH. exact H.
Qed.

Lemma getlist_present req field :
  getlist req field ≠ [] →
  existsb (λ '(key, _), String.eqb key field) (files req) = true.
Proof.
  intros H. destruct (existsb _ _) eqn:Hfield; [reflexivity|].
  exfalso. apply H. apply getlist_absent. exact Hfield.
Qed.

Lemma upload_media_run k req s :
  existsb (λ '(key, _), String.eqb key (field_name k)) (files req) = true →
  upload_media w k req s
  = match upload_loop w k (media_columns k req) (form_get req "uploaded_by" "admin")
            (getlist req (field_name k)) (db s) [] s with
    | (Returned result, s1) =>
        (Returned
           (respond 200
              {[ "success" := JBool true;
                 "files" := JArr (map JStr (snd result));
                 "message" := JStr (Py.decimal (N.of_nat (length (snd result)))
                                    ++ " " ++ field_name k
                                    ++ " uploaded successfully") ]}),
         committed s1 (fst result) (trace s1 ++ [EvCommit]))
    | (Raised e, s1) =>
        (Returned (respond 500 {[ "error" := JStr "Upload failed" ]}),
         with_lock s1 (abandoned (write_lock s1)))
    end.
Proof.
  intros Hfield. unfold upload_media. rewrite Hfield.
  change (negb true) with false. cbv beta iota zeta.
  unfold try_except. unfold bind at 1. unfold get_db at 1. cbv beta iota.
  unfold bind at 1.
  destruct (upload_loop _ _ _ _ _ _ _ _) as [[result|e] s1]; reflexivity.
Qed.


(** C3 (amended): a batch in which every file has an extension outside
    the kind's allow-list is answered 200 with success, an empty list
    of files and a count of 0; no metadata row is created and no file
    is written. *)
Theorem disallowed_files_are_skipped k req s :
  existsb (λ '(key, _), String.eqb key (field_name k)) (files req) = true →
  Forall (λ u, allowed_file (fs_filename (up_file u)) (allowed k) = false)
    (getlist req (field_name k)) →
  fst (upload_media w k req s)
  = Returned
      (respond 200
         {[ "success" := JBool true;
            "files" := JArr [];
            "message" := JStr ("0 " ++ field_name k ++ " uploaded successfully") ]})
  ∧ db (snd (upload_media w k req s)) = db s
  ∧ storage (snd (upload_media w k req s)) = storage s.
Proof.
  intros Hfield Hext.
  rewrite (upload_media_run _ _ _ Hfield).
  rewrite upload_loop_skips.
  - split; [destruct k; reflexivity | split; reflexivity].
  - eapply Forall_impl; [exact Hext|].
    intros u Hu. unfold accepted. rewrite Hu. apply andb_false_r.
Qed.

End Upload.

(** ** Login, statistics and the running server *)

Section Server.

Context {rt : Runtime}.

(** The login endpoint reads the store and changes nothing. *)
Lemma admin_login_state data s : snd (admin_login data s) = s.
Proof.
  unfold admin_login. cbv zeta. destruct (_ || _); [reflexivity|].
  unfold try_except. unfold bind at 1. unfold get_db at 1. cbv beta iota.
  unfold bind at 1. unfold select_admin. unfold bind at 1.
  destruct (bind_param_state (Py.get data "username") s) as [[key|e] ->];
    [|reflexivity].
  unfold ret at 1. cbv beta iota.
  match goal with
  | |- context [match ?found with Some _ => _ | None => _ end] =>
      destruct found as [row|]; [|reflexivity]
  end.
  unfold bind, check_password.
  destruct (Py.get data "password"); try reflexivity.
  unfold ret. destruct (check_password_hash _ _); reflexivity.
Qed.

(** With text passwords, an unknown username and a known username with
    a wrong password are answered alike. *)
Lemma text_password_failures_alike unknown known s p p' row :
  Py.truthy (Py.get unknown "username") = true →
  Py.truthy (Py.get known "username") = true →
  Py.get unknown "password" = JStr p → p ≠ EmptyString →
  Py.get known "password" = JStr p' → p' ≠ EmptyString →
  select_admin (db s) (Py.get unknown "username") s = (Returned None, s) →
  select_admin (db s) (Py.get known "username") s = (Returned (Some row), s) →
  check_password_hash (a_password_hash row) p' = false →
  admin_login unknown s = (Returned invalid_credentials, s)
  ∧ admin_login known s = (Returned invalid_credentials, s).
Proof.
  intros Hu Hk Hp Hne Hp' Hne' Hnone Hsome Hcheck.
  assert (Hs : ∀ q, q ≠ EmptyString → Py.truthy (JStr q) = true).
  { intros q Hq. simpl. destruct (String.eqb_spec q EmptyString); [contradiction|reflexivity]. }
  split.
  - unfold admin_login. cbv zeta. rewrite Hu, Hp, (Hs p Hne).
    change (negb true || negb true) with false. cbv beta iota.
    unfold try_except. unfold bind at 1. unfold get_db at 1. cbv beta iota.
    unfold bind at 1. rewrite Hnone. reflexivity.
  - unfold admin_login. cbv zeta. rewrite Hk, Hp', (Hs p' Hne').
    change (negb true || negb true) with false. cbv beta iota.
    unfold try_except. unfold bind at 1. unfold get_db at 1. cbv beta iota.
    unfold bind at 1. rewrite Hsome.
    unfold bind, check_password, ret. rewrite Hcheck. reflexivity.
Qed.

Lemma donation_stats_state s : snd (donation_stats s) = s.
Proof. reflexivity. Qed.

Lemma upload_media_donations w k req s :
  donations (db (snd (upload_media w k req s))) = donations (db s).
Proof.
  destruct (existsb (λ '(key, _), String.eqb key (field_name k)) (files req))
    eqn:Hfield.
  - rewrite (upload_media_run _ _ _ _ Hfield).
    destruct (upload_loop_spec w k (media_columns k req)
                (form_get req "uploaded_by" "admin")
                (getlist req (field_name k)) (db s) [] s)
      as (o & s1 & evs & -> & Hdb & _ & _ & _ & Ho).
    destruct o as [[conn' uploaded']|e]; simpl.
    + destruct Ho as (_ & _ & _ & new_rows & _ & _ & _ & Hd & _). exact Hd.
    + rewrite Hdb. reflexivity.
  - unfold upload_media. rewrite Hfield. reflexivity.
Qed.

(** What [handle] adds before a handler: an undecodable request and a
    JSON body that is not an object raise and change nothing. *)
Lemma with_json_state body (handler : pydict → M response) s :
  (∃ data, body = Some (JObj data) ∧ with_json body handler s = handler data s)
  ∨ (∃ e, with_json body handler s = (Raised e, s)).
Proof.
  destruct body as [[| | | | | |data]|]; simpl; unfold raise; eauto.
Qed.

Lemma with_files_state req (handler : upload_request → M response) s :
  (∃ r, req = Some r ∧ with_files req handler s = handler r s)
  ∨ (∃ e, with_files req handler s = (Raised e, s)).
Proof. destruct req as [r|]; simpl; unfold raise; eauto. Qed.

Lemma collect_db w s : db (collect w s) = db s.
Proof. unfold collect. destruct (collected w); reflexivity. Qed.

(** The donation endpoint leaves the donations alone or appends one
    row with the default status. *)
Lemma process_donation_appends w data s :
  donation_rows (snd (process_donation w data s)) = donation_rows s
  ∨ ∃ d, donation_rows (snd (process_donation w data s))
         = (donation_rows s ++ [d])%list
         ∧ d_status d = SText "completed".
Proof.
  destruct (Py.all (donation_fields data)) eqn:Hvalid.
  2: { left. rewrite (process_donation_invalid _ _ _ Hvalid). reflexivity. }
  destruct (process_donation_run w data s Hvalid)
    as (pr & evs & Hpay & Hev &
        [(Herr & Hshape & ->)
        |(transaction_id & message & o & s2 & -> & Hins & Ho)]).
  { left. reflexivity. }
  match type of Hins with
  | insert_donation ?c ?a1 ?a2 ?a3 ?a4 ?a5 ?a6 ?a7 ?a8 ?st = _ =>
      destruct (insert_donation_outcome c a1 a2 a3 a4 a5 a6 a7 a8 st)
        as (o' & s2' & Hins' & Ho')
  end.
  rewrite Hins in Hins'. injection Hins' as <- <-.
  destruct o as [conn'|e].
  - destruct Ho' as (d & key & -> & _ & -> & Hd).
    destruct Ho as (v & evs' & _ & _ & ->).
    right. exists d. split; [reflexivity | exact Hd].
  - left. rewrite Ho. destruct Ho' as [->|[_ ->]]; reflexivity.
Qed.

Lemma handle_keeps_completed w c s :
  all_completed s → all_completed (snd (handle w c s)).
Proof.
  unfold all_completed, donation_rows. intros H. destruct c as [payload|req|req|req|payload|]; simpl handle.
  - destruct (with_json_state payload admin_login s) as [(data & _ & ->)|(e & ->)];
      [rewrite admin_login_state|]; exact H.
  - destruct (with_files_state req (upload_photos w) s) as [(r & _ & ->)|(e & ->)];
      [unfold upload_photos; rewrite upload_media_donations|]; exact H.
  - destruct (with_files_state req (upload_videos w) s) as [(r & _ & ->)|(e & ->)];
      [unfold upload_videos; rewrite upload_media_donations|]; exact H.
  - destruct (with_files_state req (upload_documents w) s) as [(r & _ & ->)|(e & ->)];
      [unfold upload_documents; rewrite upload_media_donations|]; exact H.
  - destruct (with_json_state payload (process_donation w) s) as [(data & _ & ->)|(e & ->)];
      [|exact H].
    destruct (process_donation_appends w data s) as [Heq | (d & Heq & Hd)];
      unfold donation_rows in Heq; rewrite Heq; [exact H|].
    apply Forall_app. split; [exact H|]. apply Forall_cons. split; [exact Hd|constructor].
  - exact H.
Qed.

Lemma serve_keeps_completed requests s :
  all_completed s → all_completed (serve requests s).
Proof.
  revert s. induction requests as [|[w c] rest IH]; intros s H; simpl; [exact H|].
  apply IH. apply handle_keeps_completed.
  unfold all_completed, donation_rows. rewrite collect_db. exact H.
Qed.

Lemma fresh_state_no_donations : donation_rows fresh_state = [].
Proof. reflexivity. Qed.

Lemma completed_filter_all (l : list donation) :
  Forall (λ d, d_status d = SText "completed") l →
  filter (λ d, d_status d = SText "completed") l = l.
Proof.
  induction 1 as [|d l Hd _ IH]; [reflexivity|].
  rewrite filter_cons_True by exact Hd. rewrite IH. reflexivity.
Qed.

(** C9: in every state the server reaches from start-up, each Donation
    row has status 'completed', so the filter of the statistics
    endpoint selects every recorded donation and its count is the
    number of rows. *)
Theorem donations_always_completed requests :
  let s := serve requests fresh_state in
  all_completed s
  ∧ completed_donations (db s) = donation_rows s
  ∧ fst (donation_stats s)
    = Returned
        (respond 200
           {[ "total_count" := JInt (Z.of_nat (length (donation_rows s)));
              "total_amount" :=
                if Py.truthy (sqlite_sum (d_amount <$> donation_rows s))
                then sqlite_sum (d_amount <$> donation_rows s)
                else JInt 0 ]}).
Proof.
  cbv zeta.
  assert (H : all_completed (serve requests fresh_state)).
  { apply serve_keeps_completed. unfold all_completed.
    rewrite fresh_state_no_donations. constructor. }
  assert (Hall : completed_donations (db (serve requests fresh_state))
                 = donation_rows (serve requests fresh_state)).
  { apply completed_filter_all. exact H. }
  split; [exact H|]. split; [exact Hall|].
  unfold donation_stats, try_except, bind, get_db, ret. cbn [fst].
  rewrite Hall.
  destruct (length (donation_rows (serve requests fresh_state))); reflexivity.
Qed.

End Server.

(** ** The properties at concrete inputs *)

Section Cases.

Lemma new_year_noon_valid : valid_datetime new_year_noon.
Proof. unfold valid_datetime. simpl. lia. Defined.



(** Against C3 as stated: "service.exe" sent to the photo endpoint is
    answered 200, not 400. *)
Lemma service_exe_answered_200 :
  ∃ r, fst (upload_photos (rt := sample_runtime) simulation_world (photo_batch [service_exe])
              sample_state) = Returned r
       ∧ status_code r = 200
       ∧ status_code r ≠ 400.
Proof.
  eexists. split; [vm_compute; reflexivity|]. split; [reflexivity | discriminate].
Qed.

Lemma disallowed_files_are_skipped_witness :
  fst (upload_media (rt := sample_runtime) simulation_world Photos (photo_batch [service_exe])
         sample_state)
  = Returned
      (respond 200
         {[ "success" := JBool true;
            "files" := JArr [];
            "message" := JStr ("0 " ++ field_name Photos ++ " uploaded successfully") ]})
  ∧ db (snd (upload_media (rt := sample_runtime) simulation_world Photos
               (photo_batch [service_exe]) sample_state)) = db sample_state
  ∧ storage (snd (upload_media (rt := sample_runtime) simulation_world Photos
                    (photo_batch [service_exe]) sample_state))
    = storage sample_state.
Proof.
  apply (disallowed_files_are_skipped (rt := sample_runtime) simulation_world Photos
           (photo_batch [service_exe]) sample_state).
  - reflexivity.
  - apply Forall_cons. split; [vm_compute; reflexivity | constructor].
Defined.

(** Against C4 as stated: with nothing configured the gateway is
    Hubtel without credentials, and the result has no reference. *)
Lemma unconfigured_gateway_result_lacks_reference :
  ∃ pr, fst (process_mobile_money (rt := sample_runtime) unconfigured_world (JStr "mtn")
               (JStr "0551234567") (JInt 50) (JStr "tithe") (JStr "Ama")
               sample_state) = Returned pr
        ∧ pr !! "status" = Some (JStr "error")
        ∧ pr !! "reference" = None.
Proof. eexists. repeat split; vm_compute; reflexivity. Qed.

Lemma reference_in_answered_payment_results_witness :
  valid_datetime (now simulation_world)
  ∧ is_reference (new_reference simulation_world) = true
  ∧ ∃ pr evs,
      process_mobile_money (rt := sample_runtime) simulation_world (JStr "mtn")
        (JStr "0551234567") (JInt 50) (JStr "tithe") (JStr "Ama") sample_state
        = (Returned pr, with_trace sample_state (trace sample_state ++ evs))
      ∧ payment_events (new_reference simulation_world) evs
      ∧ if answer_processed (rt := sample_runtime) simulation_world (JStr "mtn") (JInt 50)
        then
          ∃ success transaction_id message,
            pr = answered (new_reference simulation_world) success
                   transaction_id message
            ∧ pr !! "status" = Some (JStr (if success then "success" else "error"))
            ∧ pr !! "reference" = Some (JStr (new_reference simulation_world))
            ∧ (if simulation_mode simulation_world
               then success = true
                    ∧ transaction_id = JStr ("TEST_" ++ new_reference simulation_world)
                    ∧ evs = []
               else ∃ url, evs = [EvPaymentRequest url (new_reference simulation_world)])
        else
          ∃ msg,
            pr = local_error msg
            ∧ pr !! "status" = Some (JStr "error")
            ∧ pr !! "reference" = None
            ∧ (gateway_unconfigured simulation_world = true →
               msg = "Payment gateway not configured" ∧ evs = []).
Proof.
  split; [exact new_year_noon_valid|].
  apply (reference_in_answered_payment_results (rt := sample_runtime) simulation_world).
  exact new_year_noon_valid.
Defined.

(** C5: at the failing input (payments simulated, Hubtel SMS configured,
    the SMS provider answering with a JSON list) the payment succeeds
    and the Donation row is committed, yet the endpoint answers 500
    'Failed to process donation'. *)
Theorem sms_list_answer_fails_stored_donation :
  reported_success (payment_attempt (rt := sample_runtime) sms_list_world ama_request sample_state)
    = true
  ∧ fst (process_donation (rt := sample_runtime) sms_list_world ama_request sample_state)
    = Returned processing_failed
  ∧ donation_rows
      (snd (process_donation (rt := sample_runtime) sms_list_world ama_request sample_state))
    = [donation_row (rt := sample_runtime) (db sample_state) ama_request
         "SDA20250101120000" (JStr "TEST_SDA20250101120000")].
Proof. repeat split; vm_compute; reflexivity. Qed.



(** C7: at the failing input (the password is the number 123) the
    known username 'admin' is answered 500 'Server error' and the
    unknown username 'nobody' is answered 401 'Invalid credentials'. *)
Theorem numeric_password_tells_known_username :
  fst (admin_login (rt := sample_runtime) known_user_numeric_password sample_state)
  = Returned (respond 500 {[ "success" := JBool false;
                             "message" := JStr "Server error" ]})
  ∧ fst (admin_login (rt := sample_runtime) unknown_user_numeric_password sample_state)
    = Returned invalid_credentials.
Proof. split; vm_compute; reflexivity. Qed.

Lemma falsy_required_field_rejected_witness :
  process_donation (rt := sample_runtime) simulation_world zero_amount_request sample_state
  = (Returned missing_required_fields, sample_state)
  ∧ status_code missing_required_fields = 400
  ∧ body missing_required_fields
    = JObj {[ "error" := JStr "Missing required fields" ]}.
Proof.
  apply (falsy_required_field_rejected (rt := sample_runtime) simulation_world
           zero_amount_request sample_state "amount").
  - do 2 right. left. reflexivity.
  - vm_compute. reflexivity.
Defined.

End Cases.

(** * Further properties of the code *)

(** ** The extension check is blind to case *)

Section Case.

Lemma lower_char_dot c : Ascii.eqb (Py.lower_char c) "." = Ascii.eqb c ".".
Proof. destruct c as [[] [] [] [] [] [] [] []]; vm_compute; reflexivity. Qed.

Lemma contains_dot_lower s : Py.contains "." (Py.lower s) = Py.contains "." s.
Proof.
  induction s as [|c s IH]; simpl; [reflexivity|].
  rewrite lower_char_dot, IH. reflexivity.
Qed.

Lemma rsplit1_scan_lower s :
  Py.rsplit1_scan "." (Py.lower s)
  = match Py.rsplit1_scan "." s with
    | (Some (before, after), rest) =>
        (Some (Py.lower before, Py.lower after), Py.lower rest)
    | (None, rest) => (None, Py.lower rest)
    end.
Proof.
  induction s as [|c s IH]; simpl; [reflexivity|].
  rewrite IH. destruct (Py.rsplit1_scan "." s) as [[[before after]|] rest].
  - reflexivity.
  - rewrite lower_char_dot. destruct (Ascii.eqb c "."); reflexivity.
Qed.

(** X1: on Latin-1 text, which is what [string] holds, [allowed_file]
    gives the same answer for a name and for the name in lower case,
    whatever the allow-list: there [str.lower] works character by
    character and does not touch the dot. *)
Theorem allowed_file_ignores_case filename (allowed_extensions : gset string) :
  allowed_file (Py.lower filename) allowed_extensions
  = allowed_file filename allowed_extensions.
Proof.
  unfold allowed_file, Py.rsplit1.
  rewrite contains_dot_lower, rsplit1_scan_lower.
  destruct (Py.rsplit1_scan "." filename) as [[[before after]|] rest];
    [|reflexivity].
  simpl. rewrite lower_idempotent. reflexivity.
Qed.

End Case.

(** ** The payment gateways *)

Section MoreGateway.

Context {rt : Runtime} (w : world).

(** X2: [process_mobile_money] never raises: it returns a result with a
    status that is 'success' or 'error' and with a message, it leaves
    database and storage alone, and it sends at most one request. *)
Theorem process_mobile_money_always_answers provider phone amount purpose donor s :
  ∃ pr evs status message,
    process_mobile_money w provider phone amount purpose donor s
      = (Returned pr, with_trace s (trace s ++ evs))
    ∧ payment_events (new_reference w) evs
    ∧ pr !! "status" = Some (JStr status)
    ∧ (status = "success" ∨ status = "error")
    ∧ pr !! "message" = Some message.
Proof.
  destruct (process_mobile_money_spec w provider phone amount purpose donor s)
    as (pr & evs & Hrun & Hev & Hshape).
  destruct Hshape as [msg | success transaction_id message].
  - destruct (local_error_lookup msg) as (Hs & Hm & _).
    exists (local_error msg), evs, "error", (JStr msg). auto 6.
  - destruct (answered_lookup (new_reference w) success transaction_id message)
      as (Hs & Hm & _).
    eexists _, evs, _, message. split; [exact Hrun|]. split; [exact Hev|].
    split; [exact Hs|]. split; [|exact Hm]. destruct success; auto.
Qed.

Lemma gateway_unconfigured_result provider phone amount purpose donor s :
  gateway_unconfigured w = true →
  process_mobile_money w provider phone amount purpose donor s
  = (Returned (local_error "Payment gateway not configured"), s).
Proof.
  unfold gateway_unconfigured, payment_gateway, hubtel_credentials,
    paystack_credentials, process_mobile_money, try_except.
  intros H. destruct (String.eqb _ "hubtel"); simpl in H.
  - rewrite orb_false_r in H. unfold process_hubtel_payment. rewrite H. reflexivity.
  - destruct (String.eqb _ "paystack"); simpl in H; [|discriminate].
    unfold process_paystack_payment. rewrite H. reflexivity.
Qed.

(** X3: when the selected gateway (Hubtel by default, or Paystack) lacks
    its credentials, a valid donation request is answered 400 with
    'Payment gateway not configured', and nothing is sent, stored or
    changed. *)
Theorem unconfigured_gateway_refuses_donation data s :
  gateway_unconfigured w = true →
  Py.all (donation_fields data) = true →
  process_donation w data s
  = (Returned
       (respond 400 {[ "success" := JBool false;
                       "error" := JStr "Payment gateway not configured" ]}), s).
Proof.
  intros Hcfg Hvalid.
  pose proof (gateway_unconfigured_result (Py.get data "provider")
                (Py.get data "donor_phone") (Py.get data "amount")
                (Py.get data "purpose") (Py.get data "donor_name") s Hcfg) as Hpay.
  remember (process_donation w data s) as result eqn:Hres.
  unfold process_donation in Hres. cbv zeta in Hres.
  unfold donation_fields in Hvalid. rewrite Hvalid in Hres.
  change (negb true) with false in Hres. cbv beta iota in Hres.
  unfold try_except in Hres. unfold bind at 1 in Hres. rewrite Hpay in Hres.
  destruct (local_error_lookup "Payment gateway not configured") as (Hs & Hm & _).
  unfold bind at 1 in Hres. unfold py_item at 1 in Hres. rewrite Hs in Hres.
  unfold ret at 1 in Hres.
  change (Py.eq_str (JStr "error") "success") with false in Hres.
  cbv beta iota in Hres. unfold bind, py_item in Hres. rewrite Hm in Hres.
  exact Hres.
Qed.

(** X4: with Hubtel selected and configured, a text provider and an
    answer that is a JSON object, exactly one request goes to the
    merchant's endpoint; the status is 'success' exactly when the
    answer's ResponseCode is the text '0000', and the answer's
    TransactionId and Message (default 'Payment processed') are passed
    through. *)
Theorem hubtel_answer_is_normalised provider phone amount purpose donor answer s :
  String.eqb (payment_gateway w) "hubtel" = true →
  hubtel_credentials w = true →
  payment_reply w = Replied (JObj answer) →
  process_mobile_money w (JStr provider) phone amount purpose donor s
  = (Returned
       (answered (new_reference w)
          (Py.eq_str (Py.get answer "ResponseCode") "0000")
          (Py.get answer "TransactionId")
          (Py.get_or answer "Message" (JStr "Payment processed"))),
     with_trace s (trace s ++ [EvPaymentRequest (hubtel_url w) (new_reference w)])).
Proof.
  unfold payment_gateway, hubtel_credentials, process_mobile_money, try_except.
  intros -> Hcred Hreply.
  unfold process_hubtel_payment. rewrite Hcred, Hreply.
  monad. simpl. unfold answered, hubtel_url, getenv.
  destruct (Py.eq_str _ _); reflexivity.
Qed.

(** X5: with Paystack selected and configured, an amount for which
    [int(float(amount) * 100)] evaluates (a number whose product with
    100 is a finite float, or a text the conversion accepts), a text
    provider and an answer that is a JSON object whose 'data' is an
    object or absent, one request is sent; the status is 'success'
    exactly when the answer's 'status' is truthy, and the transaction
    id is the 'id' of 'data'. *)
Theorem paystack_answer_is_normalised provider phone amount purpose donor
    (answer data : pydict) s :
  String.eqb (payment_gateway w) "hubtel" = false →
  String.eqb (payment_gateway w) "paystack" = true →
  paystack_credentials w = true →
  amount_converts amount = true →
  payment_reply w = Replied (JObj answer) →
  Py.get_or answer "data" (JObj ∅) = JObj data →
  process_mobile_money w (JStr provider) phone amount purpose donor s
  = (Returned
       (answered (new_reference w)
          (Py.truthy (Py.get answer "status"))
          (Py.get data "id")
          (Py.get_or answer "message" (JStr "Payment processed"))),
     with_trace s (trace s ++ [EvPaymentRequest "https://api.paystack.co/charge"
                                 (new_reference w)])).
Proof.
  unfold payment_gateway, paystack_credentials, process_mobile_money, try_except.
  intros -> -> Hcred Hamount Hreply Hdata.
  unfold process_paystack_payment. rewrite Hcred.
  change (negb true) with false. cbv beta iota.
  unfold bind at 1. rewrite (amount_converts_run _ _ Hamount). rewrite Hreply.
  monad. simpl. rewrite Hdata. unfold answered.
  destruct (Py.truthy _); reflexivity.
Qed.

(** X6: a provider that is not text never reaches Hubtel: the result is
    an error carrying the exception's text, and no request is sent. *)
Theorem hubtel_needs_text_provider provider phone amount purpose donor s :
  String.eqb (payment_gateway w) "hubtel" = true →
  hubtel_credentials w = true →
  is_text provider = false →
  process_mobile_money w provider phone amount purpose donor s
  = (Returned (local_error (str_exc (AttributeError provider "lower"))), s).
Proof.
  unfold payment_gateway, hubtel_credentials, process_mobile_money, try_except.
  intros -> Hcred Htext.
  unfold process_hubtel_payment. rewrite Hcred.
  destruct provider; try discriminate; reflexivity.
Qed.

(** X7: under Paystack an amount given as text that does not convert to
    a number is refused before any request: the result is an error
    carrying the exception's text. *)
Theorem paystack_needs_numeric_amount provider phone amount purpose donor s :
  String.eqb (payment_gateway w) "hubtel" = false →
  String.eqb (payment_gateway w) "paystack" = true →
  paystack_credentials w = true →
  float_parses amount = false →
  process_mobile_money w provider phone (JStr amount) purpose donor s
  = (Returned (local_error (str_exc (ValueError amount))), s).
Proof.
  unfold payment_gateway, paystack_credentials, process_mobile_money, try_except.
  intros -> -> Hcred Hamount.
  unfold process_paystack_payment. rewrite Hcred.
  change (negb true) with false. cbv beta iota.
  unfold bind at 1. unfold amount_in_pesewas. rewrite Hamount. reflexivity.
Qed.

(** X8: when the call to the provider (or the decoding of its answer)
    fails, the request has been sent and the result is an error
    carrying the exception's text; nothing is raised. *)
Theorem failed_provider_call_is_an_error provider phone amount purpose donor msg s :
  String.eqb (payment_gateway w) "hubtel" = true →
  hubtel_credentials w = true →
  payment_reply w = Failed msg →
  process_mobile_money w (JStr provider) phone amount purpose donor s
  = (Returned (local_error (str_exc (OutsideError msg))),
     with_trace s (trace s ++ [EvPaymentRequest (hubtel_url w) (new_reference w)])).
Proof.
  unfold payment_gateway, hubtel_credentials, process_mobile_money, try_except.
  intros -> Hcred Hreply.
  unfold process_hubtel_payment. rewrite Hcred, Hreply. reflexivity.
Qed.

End MoreGateway.

(** ** SMS *)

Section MoreSms.

Context {rt : Runtime} (w : world).

Lemma send_sms_fallback phone message s :
  sms_fallback w = true →
  send_sms w phone message s = (Returned sms_logged_result, s).
Proof.
  unfold sms_fallback, sms_provider, send_sms, try_except. intros H.
  apply andb_true_iff in H as [H1 H2]. apply negb_true_iff in H1, H2.
  rewrite H1, H2. reflexivity.
Qed.

Lemma send_sms_unconfigured phone message s :
  sms_unconfigured w = true →
  send_sms w phone message s = (Returned sms_not_configured_result, s).
Proof.
  unfold sms_unconfigured, sms_provider, send_sms, try_except. intros H.
  destruct (String.eqb _ "hubtel"); simpl in H.
  - rewrite orb_false_r in H. unfold send_sms_hubtel.
    rewrite negb_andb in H. rewrite H. reflexivity.
  - destruct (String.eqb _ "mnotify"); simpl in H; [|discriminate].
    unfold send_sms_mnotify. rewrite H. reflexivity.
Qed.

(** X9: with an SMS provider other than 'hubtel' and 'mnotify' the
    message is only logged and [send_sms] reports success; with Hubtel
    or mNotify selected and the credentials missing it reports the
    error 'SMS provider not configured'.  In both cases nothing is
    sent. *)
Theorem sms_without_provider_sends_nothing phone message s :
  sms_fallback w || sms_unconfigured w = true →
  send_sms w phone message s
  = (Returned (if sms_fallback w then sms_logged_result else sms_not_configured_result),
     s).
Proof.
  intros H. destruct (sms_fallback w) eqn:Hfb.
  - apply send_sms_fallback. exact Hfb.
  - apply send_sms_unconfigured. exact H.
Qed.

(** X10: [send_sms] never raises and touches nothing but the trace,
    where it adds at most one request; when the call to the provider
    fails, the result is the error dict with the exception's text. *)
Theorem send_sms_always_answers phone message s :
  ∃ v evs,
    send_sms w phone message s = (Returned v, with_trace s (trace s ++ evs))
    ∧ sms_events message evs
    ∧ (∀ msg, sms_reply w = Failed msg → evs ≠ [] →
         v = JObj {[ "status" := JStr "error";
                     "message" := JStr (str_exc (OutsideError msg)) ]}).
Proof.
  unfold send_sms, try_except, sms_events.
  assert (Hquiet : ∀ d : pydict, ∃ v evs,
             (Returned (JObj d), s) = (Returned v, with_trace s (trace s ++ evs))
             ∧ (evs = [] ∨ ∃ url, evs = [EvSmsRequest url message])
             ∧ (∀ msg, sms_reply w = Failed msg → evs ≠ [] →
                  v = JObj {[ "status" := JStr "error";
                              "message" := JStr (str_exc (OutsideError msg)) ]})).
  { intros d. exists (JObj d), []. rewrite with_trace_nil.
    split; [reflexivity|]. split; [left; reflexivity|]. intros msg _ Hne.
    contradiction. }
  assert (Hsent : ∀ url, ∃ v evs,
             match http (EvSmsRequest url message) (sms_reply w) s with
             | (Returned a, s') => (Returned a, s')
             | (Raised e, s') =>
                 ret (JObj {[ "status" := JStr "error";
                              "message" := JStr (str_exc e) ]}) s'
             end = (Returned v, with_trace s (trace s ++ evs))
             ∧ (evs = [] ∨ ∃ url, evs = [EvSmsRequest url message])
             ∧ (∀ msg, sms_reply w = Failed msg → evs ≠ [] →
                  v = JObj {[ "status" := JStr "error";
                              "message" := JStr (str_exc (OutsideError msg)) ]})).
  { intros url. monad. destruct (sms_reply w) as [reply_body|msg]; simpl.
    - exists reply_body, [EvSmsRequest url message].
      split; [reflexivity|]. split; [right; eexists; reflexivity|].
      intros msg Hmsg. discriminate.
    - eexists _, [EvSmsRequest url message].
      split; [reflexivity|]. split; [right; eexists; reflexivity|].
      intros msg' Hmsg _. injection Hmsg as <-. reflexivity. }
  destruct (String.eqb _ "hubtel").
  - unfold send_sms_hubtel. destruct (_ || _); [apply Hquiet | apply Hsent].
  - destruct (String.eqb _ "mnotify").
    + unfold send_sms_mnotify. destruct (negb _); [apply Hquiet | apply Hsent].
    + apply Hquiet.
Qed.

End MoreSms.

(** ** What a donation request does, step by step *)

Section MoreDonation.

Context {rt : Runtime} (w : world).

Lemma insert_donation_returns conn name email phone amount purpose provider
    reference transaction_id s conn' s' :
  insert_donation conn name email phone amount purpose provider
    (JStr reference) transaction_id s = (Returned conn', s') →
  ∃ d, conn' = add_donation d conn
       ∧ s' = with_lock (with_trace s (trace s ++ [EvInsert "donations" reference])) Writing
       ∧ d_status d = SText "completed"
       ∧ d_reference_number d = SText reference
       ∧ d_id d = last_id (donations conn) + 1
       ∧ existsb (λ d, bool_decide (d_reference_number d = SText reference))
           (rows (donations conn)) = false.
Proof.
  intros H. unfold insert_donation in H.
  repeat (unfold bind at 1 in H;
          match type of H with
          | context [bind_param ?v s] =>
              let Hb := fresh "Hb" in
              destruct (bind_param_state v s) as [[?|?] Hb]; rewrite Hb in H;
              [ try (unfold bind_param, ret in Hb; injection Hb as <-)
              | discriminate ]
          end).
  unfold bind at 1 in H. rewrite begin_write_state in H.
  destruct (write_locked s); [discriminate|].
  repeat (unfold bind at 1 in H;
          match type of H with
          | context [not_null ?c ?v (with_lock s Writing)] =>
              let Hb := fresh "Hb" in
              destruct (not_null_state c v (with_lock s Writing)) as [[[]|?] Hb];
              rewrite Hb in H; [ clear Hb | discriminate ]
          end).
  change (text_affinity (SText reference)) with (SText reference) in H.
  destruct (existsb _ _) eqn:Hfresh; [discriminate|].
  unfold bind, emit, ret in H. injection H as <- <-.
  eexists. repeat split.
Qed.

(** The state a donation request leaves. *)
Lemma process_donation_effect data s :
  ∃ pay_evs,
    payment_events (new_reference w) pay_evs
    ∧ storage (snd (process_donation w data s)) = storage s
    ∧ ((db (snd (process_donation w data s)) = db s
        ∧ trace (snd (process_donation w data s)) = (trace s ++ pay_evs)%list)
       ∨ ∃ d sms_evs,
           db (snd (process_donation w data s)) = add_donation d (db s)
           ∧ trace (snd (process_donation w data s))
             = (trace s ++ pay_evs
                ++ EvInsert "donations" (new_reference w) :: EvCommit :: sms_evs)%list
           ∧ sms_events (donation_sms_text w data) sms_evs
           ∧ d_status d = SText "completed"
           ∧ d_reference_number d = SText (new_reference w)
           ∧ d_id d = last_id (donations (db s)) + 1
           ∧ reference_stored (new_reference w) s = false
           ∧ reported_success (payment_attempt w data s) = true).
Proof.
  destruct (Py.all (donation_fields data)) eqn:Hvalid.
  2: { exists []. split; [left; reflexivity|].
       rewrite (process_donation_invalid _ _ _ Hvalid), app_nil_r.
       split; [reflexivity|]. left. split; reflexivity. }
  destruct (reported_success (payment_attempt w data s)) eqn:Hsucc.
  - destruct (store_accepts w data s) eqn:Hacc.
    + destruct (stored_donation_run w data s Hsucc Hacc)
        as (pr & pay_evs & v & sms_evs & Hpr & Hev & _ & Hsev & _ & Hrun).
      cbv zeta in Hrun. exists pay_evs. split; [exact Hev|]. rewrite Hrun.
      split; [reflexivity|]. right. eexists _, sms_evs.
      split; [reflexivity|].
      split; [unfold with_trace; cbn [snd trace]; rewrite <- !app_assoc; reflexivity|].
      split; [exact Hsev|]. split; [reflexivity|]. split; [reflexivity|].
      split; [reflexivity|]. split; [|reflexivity].
      unfold store_accepts, values_bindable in Hacc.
      apply andb_true_iff in Hacc as [Hacc _].
      apply andb_true_iff in Hacc as [_ Hfresh]. apply negb_true_iff in Hfresh.
      exact Hfresh.
    + destruct (refused_donation_run w data s Hsucc Hacc)
        as (pay_evs & Hev & ->).
      exists pay_evs. split; [exact Hev|]. split; [reflexivity|].
      left. split; reflexivity.
  - destruct (process_donation_run w data s Hvalid)
      as (pr & evs & Hpay & Hev &
          [(Herr & Hshape & ->)
          |(transaction_id & message & o & s2 & -> & Hins & Ho)]).
    + exists evs. split; [exact Hev|]. split; [reflexivity|].
      left. split; reflexivity.
    + rewrite (payment_attempt_valid _ _ _ _ _ Hvalid Hpay) in Hsucc.
      simpl reported_success in Hsucc. rewrite answered_success in Hsucc.
      discriminate.
Qed.

(** X11: the effects of a donation request come in a fixed order: at
    most one payment request first; then, only if a row is stored, its
    INSERT and commit; and only after the commit at most one SMS
    request.  Without a stored row the database is as before and no
    SMS is sent. *)
Theorem donation_effects_in_order data s :
  ∃ pay_evs rest,
    trace (snd (process_donation w data s)) = (trace s ++ pay_evs ++ rest)%list
    ∧ payment_events (new_reference w) pay_evs
    ∧ ((rest = [] ∧ db (snd (process_donation w data s)) = db s)
       ∨ (∃ d sms_evs,
            rest = EvInsert "donations" (new_reference w) :: EvCommit :: sms_evs
            ∧ sms_events (donation_sms_text w data) sms_evs
            ∧ db (snd (process_donation w data s)) = add_donation d (db s))).
Proof.
  destruct (process_donation_effect data s)
    as (pay_evs & Hev & _ & [[Hdb Htr] | (d & sms_evs & Hdb & Htr & Hsms & _)]).
  - exists pay_evs, []. rewrite app_nil_r.
    split; [exact Htr|]. split; [exact Hev|]. left. split; [reflexivity | exact Hdb].
  - eexists pay_evs, _. split; [exact Htr|]. split; [exact Hev|].
    right. exists d, sms_evs. auto.
Qed.

(** X12: when the gateway's result is not a success, a valid donation
    request is answered 400 with success=false and the gateway's own
    message as the error; database and storage are as before. *)
Theorem gateway_failure_is_reported data s :
  Py.all (donation_fields data) = true →
  reported_success (payment_attempt w data s) = false →
  ∃ pr, payment_attempt w data s = Some pr
        ∧ fst (process_donation w data s)
          = Returned (respond 400 {[ "success" := JBool false;
                                     "error" := Py.get pr "message" ]})
        ∧ db (snd (process_donation w data s)) = db s
        ∧ storage (snd (process_donation w data s)) = storage s.
Proof.
  intros Hvalid Hfail.
  destruct (process_donation_run w data s Hvalid)
    as (pr & evs & Hpay & Hev &
        [(Herr & Hshape & ->)
        |(transaction_id & message & o & s2 & -> & Hins & Ho)]);
    rewrite (payment_attempt_valid _ _ _ _ _ Hvalid Hpay) in *.
  - exists pr. auto.
  - simpl in Hfail. rewrite answered_success in Hfail. discriminate.
Qed.

(** X13: once the payment succeeded and the store took the row (every
    value can be bound, no required value is NaN, the reference is new
    and the write lock is free), the outcome of an SMS that is not sent
    shows only in the flag: with no provider selected (logging
    fallback) the answer has sms_sent=true, with missing SMS
    credentials it has sms_sent=false; either way the answer is the 200
    success, the row is committed with the amount in the REAL column
    and the other values as text, the lock is free again and no SMS
    request goes out. *)
Theorem unsent_sms_sets_only_the_flag data s :
  reported_success (payment_attempt w data s) = true →
  store_accepts w data s = true →
  sms_fallback w || sms_unconfigured w = true →
  ∃ pr pay_evs,
    payment_attempt w data s = Some pr
    ∧ payment_events (new_reference w) pay_evs
    ∧ process_donation w data s
      = (Returned (donation_processed (JStr (new_reference w))
                     (Py.get_or pr "transaction_id" (JStr EmptyString))
                     (sms_fallback w)),
         {| db := add_donation
                    (donation_row (db s) data (new_reference w)
                       (Py.get_or pr "transaction_id" (JStr EmptyString))) (db s);
            storage := storage s;
            trace := trace s ++ pay_evs
                     ++ [EvInsert "donations" (new_reference w); EvCommit];
            write_lock := Unlocked |}).
Proof.
  intros Hsucc Hacc Hsms.
  destruct (stored_donation_run w data s Hsucc Hacc)
    as (pr & pay_evs & v & sms_evs & Hpr & Hev & Hrun_sms & _ & _ & Hrun).
  cbv zeta in Hrun_sms, Hrun.
  exists pr, pay_evs. split; [exact Hpr|]. split; [exact Hev|]. rewrite Hrun.
  destruct (sms_fallback w) eqn:Hfb.
  - rewrite (send_sms_fallback w _ _ _ Hfb) in Hrun_sms.
    injection Hrun_sms as <- Hst.
    f_equal. unfold with_trace. cbn [db storage trace write_lock]. f_equal.
    symmetry. exact Hst.
  - simpl in Hsms.
    rewrite (send_sms_unconfigured w _ _ _ Hsms) in Hrun_sms.
    injection Hrun_sms as <- Hst.
    f_equal. unfold with_trace. cbn [db storage trace write_lock]. f_equal.
    symmetry. exact Hst.
Qed.

End MoreDonation.

(** ** What the running server keeps *)

Section MoreServer.

Context {rt : Runtime}.

Lemma grows_refl s : grows s s.
Proof. repeat split; auto; reflexivity. Qed.

Lemma grows_trans s1 s2 s3 : grows s1 s2 → grows s2 s3 → grows s1 s3.
Proof.
  intros (Hd & Hm & Ha & Hs & Ht) (Hd' & Hm' & Ha' & Hs' & Ht').
  split; [etrans; eassumption|]. split; [intros k; etrans; [apply Hm | apply Hm']|].
  split; [congruence|]. split; [auto|]. etrans; eassumption.
Qed.

Lemma upload_media_grows w k req s : grows s (snd (upload_media w k req s)).
Proof.
  destruct (existsb (λ '(key, _), String.eqb key (field_name k)) (files req))
    eqn:Hfield.
  2: { unfold upload_media. rewrite Hfield. apply grows_refl. }
  rewrite (upload_media_run _ _ _ _ Hfield).
  destruct (upload_loop_spec w k (media_columns k req)
              (form_get req "uploaded_by" "admin")
              (getlist req (field_name k)) (db s) [] s)
    as (o & s1 & evs & -> & Hdb & Htr & _ & Hmono & Ho).
  destruct o as [[conn' uploaded']|e]; simpl snd.
  - destruct Ho as (_ & _ & _ & new_rows & Hrows & _ & _ & Hd & Ha & Hk).
    simpl fst in *. unfold grows, donation_rows, media_rows, committed. simpl.
    split; [rewrite Hd; reflexivity|].
    split.
    { intros k'. destruct (decide (k' = k)) as [->|Hne].
      - rewrite Hrows. eexists. reflexivity.
      - rewrite (Hk k' Hne). reflexivity. }
    split; [exact Ha|]. split; [exact Hmono|].
    rewrite Htr, <- app_assoc. eexists. reflexivity.
  - unfold grows, donation_rows, media_rows. cbn [with_lock db trace]. rewrite Hdb.
    split; [reflexivity|]. split; [reflexivity|]. split; [reflexivity|].
    split; [exact Hmono|]. rewrite Htr. eexists. reflexivity.
Qed.

Lemma process_donation_grows w data s : grows s (snd (process_donation w data s)).
Proof.
  destruct (process_donation_effect w data s)
    as (pay_evs & _ & Hst & [[Hdb Htr] | (d & sms_evs & Hdb & Htr & _)]);
    unfold grows, donation_rows, media_rows, on_storage; rewrite Hst, Hdb, Htr.
  - split; [reflexivity|]. split; [reflexivity|]. split; [reflexivity|].
    split; [auto|]. eexists. reflexivity.
  - split; [eexists; reflexivity|].
    split; [intros []; reflexivity|]. split; [reflexivity|].
    split; [auto|]. eexists. reflexivity.
Qed.

Lemma handle_grows w c s : grows s (snd (handle w c s)).
Proof.
  destruct c as [payload|req|req|req|payload|]; simpl handle.
  - destruct (with_json_state payload admin_login s) as [(data & _ & ->)|(e & ->)];
      [rewrite admin_login_state|]; apply grows_refl.
  - destruct (with_files_state req (upload_photos w) s) as [(r & _ & ->)|(e & ->)];
      [apply upload_media_grows | apply grows_refl].
  - destruct (with_files_state req (upload_videos w) s) as [(r & _ & ->)|(e & ->)];
      [apply upload_media_grows | apply grows_refl].
  - destruct (with_files_state req (upload_documents w) s) as [(r & _ & ->)|(e & ->)];
      [apply upload_media_grows | apply grows_refl].
  - destruct (with_json_state payload (process_donation w) s) as [(data & _ & ->)|(e & ->)];
      [apply process_donation_grows | apply grows_refl].
  - apply grows_refl.
Qed.

Lemma collect_grows w s : grows s (collect w s).
Proof.
  unfold collect. destruct (collected w); [|apply grows_refl].
  repeat split; auto; reflexivity.
Qed.

(** X14: whatever requests are served, no row is deleted or changed and
    no file is removed: the donation rows and the rows of each media
    table stay as a prefix of the later ones, the admins are untouched,
    every path of the storage stays on storage (the file under it can
    be written again by a later upload of the same stored name) and the
    trace only gets longer. *)
Theorem served_requests_only_add requests s : grows s (serve requests s).
Proof.
  revert s. induction requests as [|[w c] rest IH]; intros s; simpl.
  - apply grows_refl.
  - eapply grows_trans; [apply collect_grows|].
    eapply grows_trans; [apply handle_grows | apply IH].
Qed.

Lemma handle_keeps_references_distinct w c s :
  NoDup (references s) → NoDup (references (snd (handle w c s))).
Proof.
  unfold references, donation_rows. intros H. destruct c as [payload|req|req|req|payload|]; simpl handle.
  - destruct (with_json_state payload admin_login s) as [(data & _ & ->)|(e & ->)];
      [rewrite admin_login_state|]; exact H.
  - destruct (with_files_state req (upload_photos w) s) as [(r & _ & ->)|(e & ->)];
      [unfold upload_photos; rewrite upload_media_donations|]; exact H.
  - destruct (with_files_state req (upload_videos w) s) as [(r & _ & ->)|(e & ->)];
      [unfold upload_videos; rewrite upload_media_donations|]; exact H.
  - destruct (with_files_state req (upload_documents w) s) as [(r & _ & ->)|(e & ->)];
      [unfold upload_documents; rewrite upload_media_donations|]; exact H.
  - destruct (with_json_state payload (process_donation w) s) as [(data & _ & ->)|(e & ->)];
      [|exact H].
    destruct (process_donation_effect w data s)
      as (pay_evs & _ & _ &
          [[-> _] | (d & sms_evs & -> & _ & _ & _ & Href & _ & Hfresh & _)]);
      [exact H|].
    simpl. rewrite fmap_app. apply NoDup_app. split; [exact H|].
    split; [|apply NoDup_singleton].
    intros x Hx Hx'. simpl in Hx'. apply list_elem_of_singleton in Hx'. subst x.
    apply list_elem_of_fmap in Hx as (d' & Heq & Hd').
    unfold reference_stored, donation_rows in Hfresh.
    assert (Hex : existsb (λ d0, bool_decide (d_reference_number d0
                                               = SText (new_reference w)))
                    (rows (donations (db s))) = true).
    { apply existsb_exists. exists d'. split.
      - apply list_elem_of_In. exact Hd'.
      - apply bool_decide_eq_true. congruence. }
    congruence.
  - exact H.
Qed.

(** X15: in every state the server reaches from start-up, no two
    Donation rows have the same reference number. *)
Theorem stored_references_are_distinct requests :
  NoDup (references (serve requests fresh_state)).
Proof.
  assert (H : ∀ s, NoDup (references s) → NoDup (references (serve requests s))).
  { induction requests as [|[w c] rest IH]; intros s Hs; simpl; [exact Hs|].
    apply IH. apply handle_keeps_references_distinct.
    unfold references, donation_rows. rewrite collect_db. exact Hs. }
  apply H. constructor.
Qed.

Lemma admin_login_answers data s :
  ∃ r, fst (admin_login data s) = Returned r ∧ status_code r ∈ status_codes.
Proof.
  unfold admin_login, status_codes. cbv zeta.
  destruct (_ || _); [eexists; split; [reflexivity|set_solver]|].
  unfold try_except. unfold bind at 1. unfold get_db at 1. cbv beta iota.
  unfold bind at 1. unfold select_admin. unfold bind at 1.
  destruct (bind_param_state (Py.get data "username") s) as [[key|e] ->];
    [|eexists; split; [reflexivity|set_solver]].
  unfold ret at 1. cbv beta iota.
  match goal with
  | |- context [match ?found with Some _ => _ | None => _ end] =>
      destruct found as [row|]; [|eexists; split; [reflexivity|set_solver]]
  end.
  unfold bind, check_password.
  destruct (Py.get data "password");
    try (eexists; split; [reflexivity|set_solver]).
  unfold ret. destruct (check_password_hash _ _);
    eexists; (split; [reflexivity|set_solver]).
Qed.

Lemma upload_media_answers w k req s :
  ∃ r, fst (upload_media w k req s) = Returned r ∧ status_code r ∈ status_codes.
Proof.
  unfold status_codes.
  destruct (existsb (λ '(key, _), String.eqb key (field_name k)) (files req))
    eqn:Hfield.
  - rewrite (upload_media_run _ _ _ _ Hfield).
    destruct (upload_loop _ _ _ _ _ _ _ _) as [[result|e] s1];
      eexists; (split; [reflexivity|set_solver]).
  - unfold upload_media. rewrite Hfield.
    eexists. split; [reflexivity|set_solver].
Qed.

Lemma process_donation_answers w data s :
  ∃ r, fst (process_donation w data s) = Returned r ∧ status_code r ∈ status_codes.
Proof.
  unfold status_codes.
  destruct (Py.all (donation_fields data)) eqn:Hvalid.
  2: { rewrite (process_donation_invalid _ _ _ Hvalid).
       eexists. split; [reflexivity|set_solver]. }
  destruct (process_donation_run w data s Hvalid)
    as (pr & evs & Hpay & Hev &
        [(Herr & Hshape & ->)
        |(transaction_id & message & o & s2 & -> & Hins & Ho)]).
  { eexists. split; [reflexivity|set_solver]. }
  destruct o as [conn'|e].
  - destruct Ho as (v & evs' & _ & _ & ->).
    destruct v; eexists; (split; [reflexivity|set_solver]).
  - rewrite Ho. eexists. split; [reflexivity|set_solver].
Qed.

(** X16: a handler raises exactly when Flask could not decode the
    request, or the body of a JSON endpoint is not an object: the first
    statement of the handler, outside its [try] block, raises then and
    nothing is changed.  Every other request is answered, whatever the
    configuration, the providers and the file system do, and the status
    code is 200, 400, 401 or 500. *)
Theorem every_request_is_answered w c s :
  if well_formed c
  then ∃ r, fst (handle w c s) = Returned r ∧ status_code r ∈ status_codes
  else ∃ e, handle w c s = (Raised e, s).
Proof.
  destruct c as [[[| | | | | |data]|]|[r|]|[r|]|[r|]|[[| | | | | |data]|]|];
    simpl well_formed; simpl handle; unfold raise;
    try (eexists; reflexivity).
  - apply admin_login_answers.
  - apply upload_media_answers.
  - apply upload_media_answers.
  - apply upload_media_answers.
  - apply process_donation_answers.
  - eexists. split; [reflexivity|]. unfold status_codes. set_solver.
Qed.

End MoreServer.

(** ** Login and the seeded accounts *)

Section MoreLogin.

Context {rt : Runtime}.

(** X17: the login endpoint only reads: whatever the body, the state
    after the request is the state before it; and a request in which
    the username or the password is missing or falsy is answered 400
    'Missing credentials'. *)
Theorem login_changes_nothing data s :
  snd (admin_login data s) = s
  ∧ (Py.truthy (Py.get data "username") && Py.truthy (Py.get data "password") = false →
     fst (admin_login data s) = Returned missing_credentials).
Proof.
  split; [apply admin_login_state|].
  intros H. unfold admin_login. cbv zeta.
  rewrite <- negb_andb, H. reflexivity.
Qed.

Lemma truthy_text q : q ≠ EmptyString → Py.truthy (JStr q) = true.
Proof. intros Hq. simpl. destruct (String.eqb_spec q EmptyString); [contradiction|reflexivity]. Qed.

Lemma login_found data s p row :
  Py.truthy (Py.get data "username") = true →
  Py.get data "password" = JStr p → p ≠ EmptyString →
  select_admin (db s) (Py.get data "username") s = (Returned (Some row), s) →
  check_password_hash (a_password_hash row) p = true →
  admin_login data s = (Returned (login_succeeded (Py.get data "username") row), s).
Proof.
  intros Hu Hp Hne Hsel Hcheck.
  unfold admin_login. cbv zeta. rewrite Hu, Hp, (truthy_text p Hne).
  change (negb true || negb true) with false. cbv beta iota.
  unfold try_except. unfold bind at 1. unfold get_db at 1. cbv beta iota.
  unfold bind at 1. rewrite Hsel.
  unfold bind, check_password, ret. rewrite Hcheck. reflexivity.
Qed.

(** X18: a login with the text username of a stored admin and a
    password that verifies against the stored hash is answered 200 with
    the username, the stored role and the stored email; the store is
    not changed. *)
Theorem correct_login_returns_stored_account data s u p row :
  Py.get data "username" = JStr u → u ≠ EmptyString →
  Py.get data "password" = JStr p → p ≠ EmptyString →
  find (λ a, String.eqb (a_username a) u) (rows (admins (db s))) = Some row →
  check_password_hash (a_password_hash row) p = true →
  admin_login data s = (Returned (login_succeeded (JStr u) row), s).
Proof.
  intros Hu Hune Hp Hpne Hfind Hcheck.
  rewrite <- Hu. apply (login_found data s p row); try assumption.
  - rewrite Hu. apply truthy_text. exact Hune.
  - rewrite Hu. unfold select_admin, bind, bind_param, ret. rewrite Hfind. reflexivity.
Qed.

Lemma init_db_result s :
  db (snd (init_db s)) = fold_left seed_admin default_admins (db s).
Proof. reflexivity. Qed.

Lemma existsb_username conn u :
  existsb (λ a, String.eqb (a_username a) u) (rows (admins conn)) = true
  ↔ u ∈ usernames conn.
Proof.
  unfold usernames. rewrite existsb_exists. split.
  - intros (a & Hin & Heq). apply String.eqb_eq in Heq. subst u.
    apply list_elem_of_fmap_2. apply list_elem_of_In. exact Hin.
  - intros Hin. apply list_elem_of_fmap in Hin as (a & -> & Ha).
    exists a. split; [apply list_elem_of_In; exact Ha | apply String.eqb_refl].
Qed.

Lemma seed_admin_cases conn entry :
  (seed_username entry ∈ usernames conn ∧ seed_admin conn entry = conn)
  ∨ ((seed_username entry ∉ usernames conn)
     ∧ usernames (seed_admin conn entry) = (usernames conn ++ [seed_username entry])%list
     ∧ donations (seed_admin conn entry) = donations conn).
Proof.
  destruct entry as [[[u p] r] m]. unfold seed_admin, seed_username. simpl.
  destruct (existsb _ _) eqn:Hex.
  - left. split; [apply existsb_username; exact Hex | reflexivity].
  - right. split.
    + intros Hin. apply existsb_username in Hin. congruence.
    + split; [|reflexivity]. unfold usernames. simpl. rewrite fmap_app. reflexivity.
Qed.

Lemma seed_admin_keeps conn entry u :
  u ∈ usernames conn → u ∈ usernames (seed_admin conn entry).
Proof.
  intros H. destruct (seed_admin_cases conn entry) as [[_ ->] | (_ & -> & _)];
    [exact H | apply elem_of_app; left; exact H].
Qed.

Lemma seed_admin_present conn entry :
  seed_username entry ∈ usernames (seed_admin conn entry).
Proof.
  destruct (seed_admin_cases conn entry) as [[H ->] | (_ & -> & _)];
    [exact H | apply elem_of_app; right; apply list_elem_of_here].
Qed.

Lemma seeding_keeps entries : ∀ conn u,
  u ∈ usernames conn → u ∈ usernames (fold_left seed_admin entries conn).
Proof.
  induction entries as [|e rest IH]; intros conn u H; simpl; [exact H|].
  apply IH. apply seed_admin_keeps. exact H.
Qed.

Lemma seeding_present entries : ∀ conn entry,
  entry ∈ entries → seed_username entry ∈ usernames (fold_left seed_admin entries conn).
Proof.
  induction entries as [|e rest IH]; intros conn entry H; simpl.
  - apply elem_of_nil in H. contradiction.
  - apply elem_of_cons in H as [->|H].
    + apply seeding_keeps. apply seed_admin_present.
    + apply IH. exact H.
Qed.

Lemma seeding_again entries : ∀ conn,
  (∀ entry, entry ∈ entries → seed_username entry ∈ usernames conn) →
  fold_left seed_admin entries conn = conn.
Proof.
  induction entries as [|e rest IH]; intros conn H; simpl; [reflexivity|].
  destruct (seed_admin_cases conn e) as [[_ ->] | (Hno & _)].
  - apply IH. intros entry Hin. apply H. apply list_elem_of_further. exact Hin.
  - exfalso. apply Hno. apply H. apply list_elem_of_here.
Qed.

(** X19: [init_db] can be run again at every start: after it the three
    default usernames are stored, and a second run changes nothing. *)
Theorem init_db_seeds_once s :
  (∀ entry, entry ∈ default_admins →
            seed_username entry ∈ usernames (db (snd (init_db s))))
  ∧ db (snd (init_db (snd (init_db s)))) = db (snd (init_db s)).
Proof.
  split.
  - intros entry Hin. rewrite init_db_result. apply seeding_present. exact Hin.
  - rewrite (init_db_result (snd (init_db s))). apply seeding_again.
    intros entry Hin. rewrite init_db_result. apply seeding_present. exact Hin.
Qed.

Lemma seeding_distinct entries : ∀ conn,
  NoDup (usernames conn) → NoDup (usernames (fold_left seed_admin entries conn)).
Proof.
  induction entries as [|e rest IH]; intros conn H; simpl; [exact H|].
  apply IH. destruct (seed_admin_cases conn e) as [[_ ->] | (Hno & -> & _)];
    [exact H|].
  apply NoDup_app. split; [exact H|]. split; [|apply NoDup_singleton].
  intros x Hx Hx'. apply list_elem_of_singleton in Hx'. subst x. contradiction.
Qed.

(** X20: [init_db] keeps the usernames of the admins pairwise distinct
    and leaves the donations alone. *)
Theorem init_db_keeps_usernames_distinct s :
  NoDup (usernames (db s)) →
  NoDup (usernames (db (snd (init_db s))))
  ∧ donation_rows (snd (init_db s)) = donation_rows s.
Proof.
  intros H. split.
  - rewrite init_db_result. apply seeding_distinct. exact H.
  - unfold donation_rows. rewrite init_db_result.
    generalize (db s). generalize default_admins.
    induction l as [|e rest IH]; intros conn; simpl; [reflexivity|].
    rewrite IH. destruct (seed_admin_cases conn e) as [[_ ->] | (_ & _ & ->)];
      reflexivity.
Qed.

(** X21: when the runtime's hashing verifies what it generated, each
    seeded account logs in on a freshly initialised database with its
    default password and gets its own role and email. *)
Theorem seeded_admins_can_log_in u p role email :
  hashes_verify rt →
  (u, p, role, email) ∈ default_admins →
  admin_login {[ "username" := JStr u; "password" := JStr p ]} fresh_state
  = (Returned
       (respond 200
          {[ "success" := JBool true;
             "username" := JStr u;
             "role" := JStr role;
             "email" := JStr email ]}),
     fresh_state).
Proof.
  intros Hhash Hin. unfold default_admins in Hin.
  repeat (apply elem_of_cons in Hin as [Heq|Hin];
          [injection Heq as -> -> -> ->|]);
    [| | |apply elem_of_nil in Hin; contradiction].
  all: eapply eq_trans;
    [ eapply (login_found _ fresh_state);
      [ vm_compute; reflexivity
      | vm_compute; reflexivity
      | discriminate
      | reflexivity
      | apply Hhash ]
    | reflexivity ].
Qed.

End MoreLogin.

(** ** Uploads and news *)

Section MoreUpload.

Context {rt : Runtime} (w : world).

(** X22: the answer of an upload endpoint: 400 'No ... provided' when
    the request has no file under the endpoint's field; 500 'Upload
    failed' when an accepted file cannot be saved, or when the batch
    has an accepted file and a connection left open by an earlier
    request holds the write lock; and otherwise 200 with the stored
    names of the accepted files, in the order sent, and their number in
    the message. *)
Theorem upload_answer k req s :
  fst (upload_media w k req s)
  = Returned
      (if negb (field_present k req) then no_files_provided k
       else if upload_stops k s (getlist req (field_name k)) then upload_failed
       else uploaded k (stored_name <$> List.filter (accepted k)
                                          (getlist req (field_name k)))).
Proof.
  unfold field_present.
  destruct (existsb (λ '(key, _), String.eqb key (field_name k)) (files req))
    eqn:Hfield.
  2: { unfold upload_media. rewrite Hfield. reflexivity. }
  rewrite (upload_media_run _ _ _ _ Hfield). simpl negb. cbv iota.
  destruct (upload_loop_spec w k (media_columns k req)
              (form_get req "uploaded_by" "admin")
              (getlist req (field_name k)) (db s) [] s)
    as (o & s1 & evs & -> & _ & _ & _ & _ & Ho).
  destruct o as [[conn' names]|e].
  - destruct Ho as (-> & _ & _ & new_rows & _ & Hnames & Hup & _).
    simpl in Hup. rewrite Hnames in Hup. subst names. reflexivity.
  - destruct Ho as [-> _]. reflexivity.
Qed.

Lemma set_media_table_same k conn : set_media_table k (media_table k conn) conn = conn.
Proof. destruct k, conn; reflexivity. Qed.

Lemma set_media_table_twice k a b conn :
  set_media_table k a (set_media_table k b conn) = set_media_table k a conn.
Proof. destruct k; reflexivity. Qed.

Lemma extend_media_nil columns uploaded_by t : extend_media columns uploaded_by [] t = t.
Proof.
  destruct t as [r l]. unfold extend_media. simpl. rewrite app_nil_r, Z.add_0_r.
  reflexivity.
Qed.

Lemma extend_media_cons columns uploaded_by u us t :
  extend_media columns uploaded_by us
    (table_add (λ id, {| m_id := id; m_filename := stored_name u;
                         m_columns := columns; m_uploaded_by := uploaded_by |}) t)
  = extend_media columns uploaded_by (u :: us) t.
Proof.
  unfold extend_media, table_add, media_rows_for. simpl. f_equal.
  - rewrite <- app_assoc. apply (f_equal (app (rows t))). simpl.
    apply (f_equal2 cons); [f_equal; lia|].
    apply imap_ext. intros i x _. simpl. f_equal. lia.
  - lia.
Qed.

Lemma upload_loop_exact k columns uploaded_by pending :
  ∀ conn names s result s',
    upload_loop w k columns uploaded_by pending conn names s = (Returned result, s') →
    fst result
    = set_media_table k
        (extend_media columns uploaded_by (List.filter (accepted k) pending)
           (media_table k conn))
        conn.
Proof.
  induction pending as [|u rest IH]; intros conn names s result s' H.
  - simpl in H. injection H as <- _. simpl.
    rewrite extend_media_nil, set_media_table_same. reflexivity.
  - simpl in H. simpl List.filter.
    destruct (accepted k u) eqn:Hacc; [|exact (IH _ _ _ _ _ H)].
    unfold bind at 1 in H. unfold save in H.
    destruct (up_save_error u) as [msg|]; [discriminate|].
    unfold bind at 1 in H. unfold insert_media in H.
    unfold bind at 1 in H. rewrite begin_write_state in H.
    destruct (write_locked _); [discriminate|].
    unfold bind, emit, ret in H. cbv beta iota in H.
    apply IH in H. rewrite H, media_table_set, set_media_table_twice.
    rewrite extend_media_cons. reflexivity.
Qed.

(** X23: when no save fails and no connection left open holds the
    write lock, an upload changes exactly the table of its kind and the
    storage: one row per accepted file is appended, in the order sent,
    with the next ids, the stored filename, the form's columns (or
    their defaults) and the uploader; the other tables are as before;
    the storage holds the accepted files written in that order, and
    the request leaves no connection holding the write lock. *)
Theorem upload_appends_one_row_per_accepted_file k req s :
  field_present k req = true →
  upload_stops k s (getlist req (field_name k)) = false →
  db (snd (upload_media w k req s))
  = set_media_table k
      (extend_media (media_columns k req) (form_get req "uploaded_by" "admin")
         (List.filter (accepted k) (getlist req (field_name k)))
         (media_table k (db s)))
      (db s)
  ∧ storage (snd (upload_media w k req s))
    = written w k (List.filter (accepted k) (getlist req (field_name k))) (storage s)
  ∧ write_locked (snd (upload_media w k req s)) = write_locked s.
Proof.
  unfold field_present. intros Hfield Hfail.
  rewrite (upload_media_run _ _ _ _ Hfield).
  destruct (upload_loop_spec w k (media_columns k req)
              (form_get req "uploaded_by" "admin")
              (getlist req (field_name k)) (db s) [] s)
    as (o & s1 & evs & Hrun & _ & _ & _ & _ & Ho).
  rewrite Hrun. destruct o as [result|e]; [|destruct Ho; congruence].
  destruct Ho as (_ & Hst & Hlk & _).
  split; [simpl; eapply upload_loop_exact; exact Hrun|].
  split; [exact Hst|].
  unfold upload_stops in Hfail. apply orb_false_iff in Hfail as [_ Hfail].
  unfold write_locked in *. cbn [snd committed write_lock]. rewrite Hlk.
  destruct (existsb (accepted k) _), (write_lock s); try discriminate; reflexivity.
Qed.

(** X24: no file name is accepted by two of the three upload
    endpoints: the allow-lists for images, videos and documents do not
    overlap. *)
Theorem upload_kinds_do_not_overlap filename k k' :
  k ≠ k' →
  allowed_file filename (allowed k) && allowed_file filename (allowed k') = false.
Proof.
  intros Hne. unfold allowed_file.
  destruct (Py.contains "." filename); [|reflexivity]. simpl.
  destruct (Py.rsplit1 "." filename !! 1%nat) as [ext|]; [|reflexivity].
  apply andb_false_iff.
  destruct (bool_decide (Py.lower ext ∈ allowed k)) eqn:H1; [right|left; reflexivity].
  apply bool_decide_eq_true in H1. apply bool_decide_eq_false.
  intros H2. revert H1 H2. generalize (Py.lower ext). intros e.
  destruct k, k'; try congruence;
    unfold allowed, ALLOWED_IMAGES, ALLOWED_VIDEOS, ALLOWED_DOCS;
    rewrite !elem_of_union, !elem_of_singleton;
    intros H1 H2; repeat destruct H1 as [H1|H1]; subst e;
    repeat destruct H2 as [H2|H2]; discriminate.
Qed.


End MoreUpload.

(** ** The connection a failed request leaves open *)

Section Lock.

Context {rt : Runtime} (w : world).

Lemma collect_releases wc s :
  collected wc = true → write_lock s ≠ Writing → write_locked (collect wc s) = false.
Proof.
  intros Hc Hw. unfold collect, write_locked. rewrite Hc. simpl.
  destruct (write_lock s); [reflexivity | contradiction | reflexivity].
Qed.

(** X26: a donation whose payment succeeded and whose values were bound
    but which a constraint refuses (a required value is NaN, or the
    reference is stored already) is answered 500 and stores nothing,
    and its connection, which is never closed, keeps the write lock
    until the garbage collector finalises it. *)
Theorem refused_donation_keeps_the_write_lock data s :
  write_lock s = Unlocked →
  reported_success (payment_attempt w data s) = true →
  values_bindable w data s = true →
  store_accepts w data s = false →
  fst (process_donation w data s) = Returned processing_failed
  ∧ db (snd (process_donation w data s)) = db s
  ∧ write_locked (snd (process_donation w data s)) = true
  ∧ ∀ wc, collected wc = true →
          write_locked (collect wc (snd (process_donation w data s))) = false.
Proof.
  intros Hfree Hsucc Hbind Hacc.
  destruct (refused_donation_run w data s Hsucc Hacc) as (pay_evs & _ & ->).
  rewrite Hbind. split; [reflexivity|]. split; [reflexivity|].
  split; [reflexivity|]. intros wc Hc. apply collect_releases; [exact Hc|discriminate].
Qed.

Lemma fails_after_insert_fails k pending :
  fails_after_insert k pending = true → batch_fails k pending = true.
Proof.
  induction pending as [|u rest IH]; simpl fails_after_insert; [discriminate|].
  change (batch_fails k (u :: rest))
    with (accepted k u && bool_decide (is_Some (up_save_error u)) || batch_fails k rest).
  destruct (accepted k u); simpl.
  - intros H. apply andb_true_iff in H as [_ H]. rewrite H. apply orb_true_r.
  - exact IH.
Qed.

(** X27: an upload batch in which a save fails after an earlier file of
    the batch was saved and inserted is answered 500 and commits no
    row, and its connection, which is never closed, keeps the write
    lock until the garbage collector finalises it. *)
Theorem failed_batch_keeps_the_write_lock k req s :
  write_lock s = Unlocked →
  field_present k req = true →
  fails_after_insert k (getlist req (field_name k)) = true →
  fst (upload_media w k req s) = Returned upload_failed
  ∧ db (snd (upload_media w k req s)) = db s
  ∧ write_locked (snd (upload_media w k req s)) = true
  ∧ ∀ wc, collected wc = true →
          write_locked (collect wc (snd (upload_media w k req s))) = false.
Proof.
  unfold field_present. intros Hfree Hfield Hfail.
  rewrite (upload_media_run _ _ _ _ Hfield).
  destruct (upload_loop_spec w k (media_columns k req)
              (form_get req "uploaded_by" "admin")
              (getlist req (field_name k)) (db s) [] s)
    as (o & s1 & evs & -> & Hdb & _ & _ & _ & Ho).
  destruct o as [result|e].
  { destruct Ho as (Hstop & _). unfold upload_stops in Hstop.
    rewrite (fails_after_insert_fails _ _ Hfail) in Hstop. discriminate. }
  destruct Ho as (_ & Hlk).
  unfold write_locked in Hlk. rewrite Hfree, Hfail in Hlk.
  assert (Hs : write_lock (with_lock s1 (abandoned (write_lock s1))) = Abandoned)
    by exact Hlk.
  split; [reflexivity|]. split; [exact Hdb|]. cbn [snd].
  split; [unfold write_locked; rewrite Hs; reflexivity|].
  intros wc Hc. apply collect_releases; [exact Hc|]. rewrite Hs. discriminate.
Qed.

(** X28: while a connection left open holds the write lock, a donation
    whose payment succeeded is answered 500 'Failed to process
    donation': the payment has been made, and nothing is stored. *)
Theorem held_lock_fails_paid_donation data s :
  write_locked s = true →
  reported_success (payment_attempt w data s) = true →
  ∃ pay_evs,
    payment_events (new_reference w) pay_evs
    ∧ process_donation w data s
      = (Returned processing_failed, with_trace s (trace s ++ pay_evs)).
Proof.
  intros Hlock Hsucc.
  assert (Hacc : store_accepts w data s = false).
  { unfold store_accepts. rewrite Hlock. apply andb_false_r. }
  destruct (refused_donation_run w data s Hsucc Hacc) as (pay_evs & Hev & ->).
  exists pay_evs. split; [exact Hev|]. f_equal.
  unfold write_locked in Hlock. unfold with_lock, with_trace. simpl.
  destruct (write_lock s), (values_bindable w data s); try discriminate; reflexivity.
Qed.

Lemma upload_loop_locked k columns uploaded_by pending : ∀ conn names s u,
  write_locked s = true →
  head (List.filter (accepted k) pending) = Some u →
  up_save_error u = None →
  upload_loop w k columns uploaded_by pending conn names s
  = (Raised (OperationalError "database is locked"),
     {| db := db s;
        storage := <[stored_path w k (stored_name u) := fs_content (up_file u)]> (storage s);
        trace := trace s ++ [EvSave (stored_path w k (stored_name u))];
        write_lock := write_lock s |}).
Proof.
  induction pending as [|u0 rest IH]; intros conn names s u Hlock Hhead Hsave;
    [discriminate|].
  simpl in Hhead. simpl upload_loop. destruct (accepted k u0).
  - injection Hhead as ->. unfold bind at 1. unfold save. rewrite Hsave.
    unfold bind at 1. unfold insert_media. unfold bind at 1.
    rewrite begin_write_state.
    change (write_locked _) with (write_locked s). rewrite Hlock. reflexivity.
  - apply IH; assumption.
Qed.

(** X29: while a connection left open holds the write lock, an upload
    whose first accepted file can be saved saves that file and is then
    answered 500 'Upload failed': the file is on storage without a
    row, and the files after it are not looked at. *)
Theorem held_lock_fails_upload k req s u :
  write_locked s = true →
  field_present k req = true →
  head (List.filter (accepted k) (getlist req (field_name k))) = Some u →
  up_save_error u = None →
  upload_media w k req s
  = (Returned upload_failed,
     {| db := db s;
        storage := <[stored_path w k (stored_name u) := fs_content (up_file u)]> (storage s);
        trace := trace s ++ [EvSave (stored_path w k (stored_name u))];
        write_lock := write_lock s |}).
Proof.
  unfold field_present. intros Hlock Hfield Hhead Hsave.
  rewrite (upload_media_run _ _ _ _ Hfield).
  rewrite (upload_loop_locked _ _ _ _ _ _ _ u Hlock Hhead Hsave).
  f_equal. unfold write_locked in Hlock. unfold with_lock. simpl.
  destruct (write_lock s); try discriminate. reflexivity.
Qed.

End Lock.

(** ** The further properties at concrete inputs *)

Section MoreCases.

Lemma unconfigured_gateway_refuses_donation_witness :
  process_donation (rt := sample_runtime) unconfigured_world ama_request sample_state
  = (Returned
       (respond 400 {[ "success" := JBool false;
                       "error" := JStr "Payment gateway not configured" ]}),
     sample_state).
Proof.
  apply (unconfigured_gateway_refuses_donation (rt := sample_runtime)
           unconfigured_world ama_request sample_state);
    vm_compute; reflexivity.
Defined.

Lemma hubtel_answer_is_normalised_witness :
  process_mobile_money (rt := sample_runtime) hubtel_world (JStr "mtn")
    (JStr "0551234567") (JInt 50) (JStr "tithe") (JStr "Ama") sample_state
  = (Returned
       (answered (new_reference hubtel_world)
          (Py.eq_str (Py.get {[ "ResponseCode" := JStr "0000";
                                "TransactionId" := JStr "T1" ]} "ResponseCode") "0000")
          (Py.get {[ "ResponseCode" := JStr "0000";
                     "TransactionId" := JStr "T1" ]} "TransactionId")
          (Py.get_or {[ "ResponseCode" := JStr "0000";
                        "TransactionId" := JStr "T1" ]} "Message"
             (JStr "Payment processed"))),
     with_trace sample_state
       (trace sample_state
        ++ [EvPaymentRequest (hubtel_url hubtel_world) (new_reference hubtel_world)])).
Proof.
  apply (hubtel_answer_is_normalised (rt := sample_runtime) hubtel_world);
    vm_compute; reflexivity.
Defined.

Lemma paystack_answer_is_normalised_witness :
  process_mobile_money (rt := sample_runtime) paystack_world (JStr "mtn")
    (JStr "0551234567") (JInt 50) (JStr "tithe") (JStr "Ama") sample_state
  = (Returned
       (answered (new_reference paystack_world)
          (Py.truthy (Py.get {[ "status" := JBool true;
                                "data" := JObj {[ "id" := JInt 7 ]};
                                "message" := JStr "Charge attempted" ]} "status"))
          (Py.get {[ "id" := JInt 7 ]} "id")
          (Py.get_or {[ "status" := JBool true;
                        "data" := JObj {[ "id" := JInt 7 ]};
                        "message" := JStr "Charge attempted" ]} "message"
             (JStr "Payment processed"))),
     with_trace sample_state
       (trace sample_state
        ++ [EvPaymentRequest "https://api.paystack.co/charge"
              (new_reference paystack_world)])).
Proof.
  apply (paystack_answer_is_normalised (rt := sample_runtime) paystack_world);
    vm_compute; reflexivity.
Defined.

Lemma hubtel_needs_text_provider_witness :
  process_mobile_money (rt := sample_runtime) hubtel_world (JInt 1)
    (JStr "0551234567") (JInt 50) (JStr "tithe") (JStr "Ama") sample_state
  = (Returned (local_error (@str_exc sample_runtime (AttributeError (JInt 1) "lower"))), sample_state).
Proof.
  apply (hubtel_needs_text_provider (rt := sample_runtime) hubtel_world);
    vm_compute; reflexivity.
Defined.

Lemma paystack_needs_numeric_amount_witness :
  process_mobile_money (rt := sample_runtime) paystack_world (JStr "mtn")
    (JStr "0551234567") (JStr "fifty") (JStr "tithe") (JStr "Ama") sample_state
  = (Returned (local_error (@str_exc sample_runtime (ValueError "fifty"))), sample_state).
Proof.
  apply (paystack_needs_numeric_amount (rt := sample_runtime) paystack_world);
    vm_compute; reflexivity.
Defined.

Lemma failed_provider_call_is_an_error_witness :
  process_mobile_money (rt := sample_runtime) hubtel_down_world (JStr "mtn")
    (JStr "0551234567") (JInt 50) (JStr "tithe") (JStr "Ama") sample_state
  = (Returned (local_error (@str_exc sample_runtime (OutsideError "connection refused"))),
     with_trace sample_state
       (trace sample_state
        ++ [EvPaymentRequest (hubtel_url hubtel_down_world)
              (new_reference hubtel_down_world)])).
Proof.
  apply (failed_provider_call_is_an_error (rt := sample_runtime) hubtel_down_world);
    vm_compute; reflexivity.
Defined.

Lemma sms_without_provider_sends_nothing_witness :
  send_sms (rt := sample_runtime) sms_logged_world (JStr "0551234567") "Thank you"
    sample_state
  = (Returned (if sms_fallback sms_logged_world then sms_logged_result
               else sms_not_configured_result), sample_state).
Proof.
  apply (sms_without_provider_sends_nothing (rt := sample_runtime) sms_logged_world).
  vm_compute. reflexivity.
Defined.

Lemma gateway_failure_is_reported_witness :
  ∃ pr, payment_attempt (rt := sample_runtime) unconfigured_world ama_request sample_state
        = Some pr
        ∧ fst (process_donation (rt := sample_runtime) unconfigured_world ama_request
                 sample_state)
          = Returned (respond 400 {[ "success" := JBool false;
                                     "error" := Py.get pr "message" ]})
        ∧ db (snd (process_donation (rt := sample_runtime) unconfigured_world
                     ama_request sample_state)) = db sample_state
        ∧ storage (snd (process_donation (rt := sample_runtime) unconfigured_world
                          ama_request sample_state)) = storage sample_state.
Proof.
  apply (gateway_failure_is_reported (rt := sample_runtime) unconfigured_world
           ama_request sample_state);
    vm_compute; reflexivity.
Defined.

Lemma unsent_sms_sets_only_the_flag_witness :
  ∃ pr pay_evs,
    payment_attempt (rt := sample_runtime) sms_logged_world ama_request sample_state
    = Some pr
    ∧ payment_events (new_reference sms_logged_world) pay_evs
    ∧ process_donation (rt := sample_runtime) sms_logged_world ama_request sample_state
      = (Returned (donation_processed (JStr (new_reference sms_logged_world))
                     (Py.get_or pr "transaction_id" (JStr EmptyString))
                     (sms_fallback sms_logged_world)),
         {| db := add_donation
                    (donation_row (rt := sample_runtime) (db sample_state) ama_request
                       (new_reference sms_logged_world)
                       (Py.get_or pr "transaction_id" (JStr EmptyString)))
                    (db sample_state);
            storage := storage sample_state;
            trace := trace sample_state ++ pay_evs
                     ++ [EvInsert "donations" (new_reference sms_logged_world); EvCommit];
            write_lock := Unlocked |}).
Proof.
  apply (unsent_sms_sets_only_the_flag (rt := sample_runtime) sms_logged_world
           ama_request sample_state);
    vm_compute; reflexivity.
Defined.

Lemma correct_login_returns_stored_account_witness :
  admin_login (rt := sample_runtime) admin_login_request sample_state
  = (Returned (login_succeeded (JStr "admin") seeded_admin_row), sample_state).
Proof.
  apply (correct_login_returns_stored_account (rt := sample_runtime)
           admin_login_request sample_state "admin" "sda2025" seeded_admin_row);
    try discriminate; vm_compute; reflexivity.
Defined.

Lemma init_db_keeps_usernames_distinct_witness :
  NoDup (usernames (db (snd (init_db (rt := sample_runtime) blank_state))))
  ∧ donation_rows (snd (init_db (rt := sample_runtime) blank_state))
    = donation_rows blank_state.
Proof.
  apply (init_db_keeps_usernames_distinct (rt := sample_runtime) blank_state).
  constructor.
Defined.

Lemma sample_hashes_verify : hashes_verify sample_runtime.
Proof. intros password. apply String.eqb_refl. Defined.

Lemma seeded_admins_can_log_in_witness :
  admin_login (rt := sample_runtime)
    {[ "username" := JStr "pastor"; "password" := JStr "pastor123" ]}
    (fresh_state (rt := sample_runtime))
  = (Returned
       (respond 200
          {[ "success" := JBool true;
             "username" := JStr "pastor";
             "role" := JStr "Pastor";
             "email" := JStr "pastor@sefwihumjibresda.org" ]}),
     fresh_state (rt := sample_runtime)).
Proof.
  apply (seeded_admins_can_log_in (rt := sample_runtime) "pastor" "pastor123" "Pastor"
           "pastor@sefwihumjibresda.org" sample_hashes_verify).
  apply list_elem_of_further. apply list_elem_of_here.
Defined.

Lemma upload_appends_one_row_per_accepted_file_witness :
  db (snd (upload_media (rt := sample_runtime) simulation_world Photos mixed_batch
             sample_state))
  = set_media_table Photos
      (extend_media (rt := sample_runtime) (media_columns Photos mixed_batch)
         (form_get mixed_batch "uploaded_by" "admin")
         (List.filter (accepted Photos) (getlist mixed_batch (field_name Photos)))
         (media_table Photos (db sample_state)))
      (db sample_state)
  ∧ storage (snd (upload_media (rt := sample_runtime) simulation_world Photos mixed_batch
                    sample_state))
    = written (rt := sample_runtime) simulation_world Photos
        (List.filter (accepted Photos) (getlist mixed_batch (field_name Photos)))
        (storage sample_state)
  ∧ write_locked (snd (upload_media (rt := sample_runtime) simulation_world Photos
                         mixed_batch sample_state))
    = write_locked sample_state.
Proof.
  apply (upload_appends_one_row_per_accepted_file (rt := sample_runtime)
           simulation_world Photos mixed_batch sample_state);
    vm_compute; reflexivity.
Defined.

Lemma upload_kinds_do_not_overlap_witness :
  allowed_file "clip.MP4" (allowed Photos) && allowed_file "clip.MP4" (allowed Videos)
  = false.
Proof.
  apply (upload_kinds_do_not_overlap "clip.MP4" Photos Videos). discriminate.
Defined.

(** Ama's donation sent twice within one second: the second INSERT is
    refused by the UNIQUE reference and leaves the store locked. *)
Lemma refused_donation_keeps_the_write_lock_witness :
  fst (process_donation (rt := sample_runtime) simulation_world ama_request once_donated)
  = Returned processing_failed
  ∧ db (snd (process_donation (rt := sample_runtime) simulation_world ama_request
               once_donated)) = db once_donated
  ∧ write_locked (snd (process_donation (rt := sample_runtime) simulation_world
                         ama_request once_donated)) = true
  ∧ ∀ wc, collected wc = true →
          write_locked
            (collect wc (snd (process_donation (rt := sample_runtime) simulation_world
                                ama_request once_donated))) = false.
Proof.
  apply (refused_donation_keeps_the_write_lock (rt := sample_runtime) simulation_world
           ama_request once_donated);
    vm_compute; reflexivity.
Defined.

(** A batch of two photos in which the second cannot be saved. *)
Lemma failed_batch_keeps_the_write_lock_witness :
  fst (upload_media (rt := sample_runtime) simulation_world Photos
         (photo_batch [png_ok; png_failing]) sample_state)
  = Returned upload_failed
  ∧ db (snd (upload_media (rt := sample_runtime) simulation_world Photos
               (photo_batch [png_ok; png_failing]) sample_state)) = db sample_state
  ∧ write_locked (snd (upload_media (rt := sample_runtime) simulation_world Photos
                         (photo_batch [png_ok; png_failing]) sample_state)) = true
  ∧ ∀ wc, collected wc = true →
          write_locked
            (collect wc (snd (upload_media (rt := sample_runtime) simulation_world Photos
                                (photo_batch [png_ok; png_failing]) sample_state)))
          = false.
Proof.
  apply (failed_batch_keeps_the_write_lock (rt := sample_runtime) simulation_world
           Photos (photo_batch [png_ok; png_failing]) sample_state);
    vm_compute; reflexivity.
Defined.

(** One second after the refused donation: a new reference, and the
    store still locked. *)
Lemma held_lock_fails_paid_donation_witness :
  ∃ pay_evs,
    payment_events (new_reference a_second_later) pay_evs
    ∧ process_donation (rt := sample_runtime) a_second_later ama_request locked_state
      = (Returned processing_failed,
         with_trace locked_state (trace locked_state ++ pay_evs)).
Proof.
  apply (held_lock_fails_paid_donation (rt := sample_runtime) a_second_later
           ama_request locked_state);
    vm_compute; reflexivity.
Defined.

Lemma held_lock_fails_upload_witness :
  upload_media (rt := sample_runtime) a_second_later Photos (photo_batch [png_ok])
    locked_state
  = (Returned upload_failed,
     {| db := db locked_state;
        storage := <[stored_path a_second_later Photos
                       (stored_name (rt := sample_runtime) png_ok)
                     := fs_content (up_file png_ok)]> (storage locked_state);
        trace := trace locked_state
                 ++ [EvSave (stored_path a_second_later Photos
                               (stored_name (rt := sample_runtime) png_ok))];
        write_lock := write_lock locked_state |}).
Proof.
  apply (held_lock_fails_upload (rt := sample_runtime) a_second_later Photos
           (photo_batch [png_ok]) locked_state png_ok);
    vm_compute; reflexivity.
Defined.

End MoreCases.
